(** * Resource lifecycle handlers of the Terrakube Terraform provider

    A shallow embedding of [internal/provider/team_resource.go] and
    [internal/provider/module_resource.go].  Each handler of the Go code
    (Configure, Create, Read, Update, Delete, ImportState) becomes a
    computation in a small handler monad that threads the response object
    ([resp.Diagnostics], [resp.State]), the log, the remote API and the list
    of HTTP exchanges performed, and that can leave the handler early
    ([return]) or crash (a nil dereference or a failed type assertion).

    The collaborators that are not part of the repository are parameters:
    the remote API behind [http.Client.Do], URL validation inside
    [http.NewRequest], the [jsonapi] encoder and decoder, [strconv]'s
    quoting and [http.DefaultTransport]. *)

From stdpp Require Import gmap strings list.
From Stdlib Require Import ZArith Ascii.

(** ** Go values used by the handlers *)

(** A Go [error], kept as the text [%s] prints for it. *)
Definition error := string.

(** [terraform-plugin-framework/types]: a value is null, unknown or known. *)
Module types.

Inductive String := StringNull | StringUnknown | StringValue (s : string).
Inductive Bool := BoolNull | BoolUnknown | BoolValue (b : bool).

(** [ValueString] gives the empty string for a null or unknown value. *)
Definition ValueString (v : String) : string :=
  match v with
  | StringValue s => s
  | _ => ""
  end.

(** [ValueBool] gives [false] for a null or unknown value. *)
Definition ValueBool (v : Bool) : bool :=
  match v with
  | BoolValue b => b
  | _ => false
  end.

#[global] Instance String_eq_dec : EqDecision String.
Proof. solve_decision. Defined.
#[global] Instance Bool_eq_dec : EqDecision Bool.
Proof. solve_decision. Defined.

End types.

(** ** Diagnostics ([terraform-plugin-framework/diag]) *)

Module diag.

Inductive Severity := SeverityError | SeverityWarning.

Record Diagnostic := {
  Severity_ : Severity;
  Summary : string;
  Detail : string;
}.

#[global] Instance Severity_eq_dec : EqDecision Severity.
Proof. solve_decision. Defined.
#[global] Instance Diagnostic_eq_dec : EqDecision Diagnostic.
Proof. solve_decision. Defined.

Definition Diagnostics := list Diagnostic.

Definition NewErrorDiagnostic (summary detail : string) : Diagnostic :=
  {| Severity_ := SeverityError; Summary := summary; Detail := detail |}.

(** [Append] skips a diagnostic the collection already contains. *)
Fixpoint Append (diags : Diagnostics) (new : list Diagnostic) : Diagnostics :=
  match new with
  | [] => diags
  | d :: rest =>
      if decide (d ∈ diags) then Append diags rest
      else Append (diags ++ [d]) rest
  end.

Definition AddError (summary detail : string) (diags : Diagnostics) : Diagnostics :=
  Append diags [NewErrorDiagnostic summary detail].

Definition is_error (d : Diagnostic) : bool :=
  match Severity_ d with
  | SeverityError => true
  | SeverityWarning => false
  end.

Definition HasError (diags : Diagnostics) : bool := existsb is_error diags.

End diag.

(** ** HTTP ([net/http], [crypto/tls]) *)

Module tls.
Record Config := { InsecureSkipVerify : bool }.
End tls.

Module http.

Inductive Method := MethodGet | MethodPost | MethodPatch | MethodDelete.

(** [http.Header] is a [map[string][]string]; [Add] appends to the values
    of the key.  The two keys the handlers add are already in canonical
    form, so the canonicalisation of [Add] is the identity on them. *)
Definition Header_Add (key value : string) (h : gmap string (list string))
  : gmap string (list string) :=
  <[key := default [] (h !! key) ++ [value]]> h.

Record Request := {
  Method_ : Method;
  URL : string;
  Header : gmap string (list string);
  Body : option string;
}.

(** What [io.ReadAll] returns on the body of a response: the bytes read
    and the error that stopped the reading, if any. *)
Record Response := {
  StatusCode : Z;
  ReadAll : string * option error;
}.

Record Transport := { TLSClientConfig : option tls.Config }.

(** [Client.Transport] is nil for [&http.Client{}]. *)
Record Client := { Transport_ : option Transport }.

(** [http.DefaultTransport] is a [RoundTripper]; it is a [*http.Transport]
    unless the process replaced it. *)
Inductive RoundTripper :=
| IsTransport (t : Transport)
| OtherRoundTripper.

#[global] Instance Method_eq_dec : EqDecision Method.
Proof. solve_decision. Defined.

End http.

(** One request handed to [Client.Do] together with what came back. *)
Definition Exchange : Type := http.Request * (error + http.Response).

(** ** Logging ([terraform-plugin-log/tflog]) *)

Module tflog.
Inductive Level := Debug | Info | Error.
Record Entry := {
  level : Level;
  msg : string;
  fields : list (string * string);
}.
End tflog.

(** ** The [jsonapi] codec

    [MarshalPayload] writes into a buffer and returns an error or nil; the
    handlers read the buffer afterwards, so both are kept.
    [UnmarshalPayload] fills a fresh entity or fails. *)
Class Payload (E : Type) := {
  MarshalPayload : E -> string * option error;
  UnmarshalPayload : string -> error + E;
}.

(** ** Entities of the [client] package *)

Module client.

(** Modelled from the spec: the declaration of [client.TeamEntity] is not
    among the sources; a team carries an identifier, a name and eight
    boolean permission flags, and these are the fields the handlers use. *)
Record TeamEntity := {
  Team_ID : string;
  Team_Name : string;
  Team_ManageState : bool;
  Team_ManageWorkspace : bool;
  Team_ManageModule : bool;
  Team_ManageProvider : bool;
  Team_ManageVcs : bool;
  Team_ManageTemplate : bool;
  Team_ManageJob : bool;
  Team_ManageCollection : bool;
}.

(** Modelled from the spec: the declaration of [client.ModuleEntity] is not
    among the sources; a module carries an identifier, a name and the
    description, provider and source strings the handlers use. *)
Record ModuleEntity := {
  Module_ID : string;
  Module_Name : string;
  Module_Description : string;
  Module_Provider : string;
  Module_Source : string;
}.

End client.

(** Modelled from the spec: [TerrakubeConnectionData] is declared outside the
    sources; the connection context holds the endpoint URL, the bearer token
    and the insecure-TLS flag, the three fields [Configure] reads. *)
Record TerrakubeConnectionData := {
  Endpoint : string;
  Token : string;
  InsecureHttpClient : bool;
}.

(** ** Tracked state of the two resource kinds *)

Record TeamResourceModel := {
  ID : types.String;
  Name : types.String;
  OrganizationId : types.String;
  ManageState : types.Bool;
  ManageWorkspace : types.Bool;
  ManageModule : types.Bool;
  ManageProvider : types.Bool;
  ManageVcs : types.Bool;
  ManageTemplate : types.Bool;
  ManageJob : types.Bool;
  ManageCollection : types.Bool;
}.

Record ModuleResourceModel := {
  mID : types.String;
  mName : types.String;
  mOrganizationId : types.String;
  mDescription : types.String;
  mProviderName : types.String;
  mSource : types.String;
}.

Record TeamResource := {
  client_ : option http.Client;
  endpoint : string;
  token : string;
}.

Record ModuleResource := {
  mclient : option http.Client;
  mendpoint : string;
  mtoken : string;
}.

(** [tfsdk.State] holding a resource of model [M]: null (no resource) or a
    value. *)
Inductive tfsdk_State (M : Type) :=
| StateNull
| StateValue (m : M).
Arguments StateNull {M}.
Arguments StateValue {M} m.

(** [tfsdk.Plan] and the prior [tfsdk.State] of a request, as [Get] sees
    them: the decoded model and the diagnostics of the decoding. *)
Record Decoded (M : Type) := {
  value : M;
  diags : diag.Diagnostics;
}.
Arguments value {M} _.
Arguments diags {M} _.

(** ** The handler monad *)

(** What a handler can touch: the response object it was given
    ([Diagnostics] and [State]), the log, the remote API, and the record of
    the HTTP exchanges made so far (oldest first).  [State] is [resp.State];
    in Configure, whose response has no state, it is the receiver [r], which
    that handler assigns to. *)
Record Ctx (W S : Type) := {
  remote : W;
  wire : list Exchange;
  log : list tflog.Entry;
  Diagnostics : diag.Diagnostics;
  State : S;
}.
Arguments remote {W S} _.
Arguments wire {W S} _.
Arguments log {W S} _.
Arguments Diagnostics {W S} _.
Arguments State {W S} _.

(** How a step ends: with a value, with [return], or with a crash. *)
Inductive Flow (A : Type) :=
| Next (a : A)
| Returned
| Panicked (why : string).
Arguments Next {A} a.
Arguments Returned {A}.
Arguments Panicked {A} why.

Definition H (W S A : Type) : Type := Ctx W S -> Flow A * Ctx W S.

Definition ret {W S A} (a : A) : H W S A := fun c => (Next a, c).

Definition bind {W S A B} (m : H W S A) (k : A -> H W S B) : H W S B :=
  fun c =>
    match m c with
    | (Next a, c') => k a c'
    | (Returned, c') => (Returned, c')
    | (Panicked why, c') => (Panicked why, c')
    end.

Notation "x <- m ;; k" := (bind m (fun x => k))
  (at level 100, m at next level, right associativity).
Notation "m ;; k" := (bind m (fun _ => k))
  (at level 100, right associativity).

(** [return] in the middle of a handler. *)
Definition Return {W S A} : H W S A := fun c => (Returned, c).

Definition panic {W S A} (why : string) : H W S A := fun c => (Panicked why, c).

(** The context a handler ends in. *)
Definition exec {W S A} (m : H W S A) (c : Ctx W S) : Ctx W S := snd (m c).

(** Whether it crashed on the way. *)
Definition crashed {W S A} (m : H W S A) (c : Ctx W S) : bool :=
  match fst (m c) with
  | Panicked _ => true
  | _ => false
  end.

Section Primitives.

Context {W S : Type}.

(** [resp.Diagnostics.Append(...)]. *)
Definition Diagnostics_Append (new : diag.Diagnostics) : H W S unit :=
  fun c =>
    (Next tt,
     {| remote := remote c; wire := wire c; log := log c;
        Diagnostics := diag.Append (Diagnostics c) new; State := State c |}).

(** [resp.Diagnostics.AddError(summary, detail)]. *)
Definition Diagnostics_AddError (summary detail : string) : H W S unit :=
  fun c =>
    (Next tt,
     {| remote := remote c; wire := wire c; log := log c;
        Diagnostics := diag.AddError summary detail (Diagnostics c);
        State := State c |}).

(** [resp.Diagnostics.HasError()]. *)
Definition Diagnostics_HasError : H W S bool :=
  fun c => (Next (diag.HasError (Diagnostics c)), c).

(** [tflog.Debug], [tflog.Info], [tflog.Error]. *)
Definition tflog_write (l : tflog.Level) (m : string)
    (fs : list (string * string)) : H W S unit :=
  fun c =>
    (Next tt,
     {| remote := remote c; wire := wire c;
        log := log c ++ [ {| tflog.level := l; tflog.msg := m; tflog.fields := fs |} ];
        Diagnostics := Diagnostics c; State := State c |}).

(** [req.Plan.Get(ctx, &plan)] and [req.State.Get(ctx, &state)]: the
    diagnostics of the decoding and the model it filled. *)
Definition Get {M} (d : Decoded M) : H W S (diag.Diagnostics * M) :=
  ret (diags d, value d).

(** [if err != nil { ... }]. *)
Definition if_err (err : option error) (k : error -> H W S unit) : H W S unit :=
  match err with
  | Some e => k e
  | None => ret tt
  end.

(** [if cond { ... }]. *)
Definition when (cond : bool) (k : H W S unit) : H W S unit :=
  if cond then k else ret tt.

End Primitives.

(** [resp.State.Set(ctx, &model)] replaces the whole state; the model
    structs match their schemas, so it reports nothing. *)
Definition State_Set {W M} (m : M) : H W (tfsdk_State M) diag.Diagnostics :=
  fun c =>
    (Next [],
     {| remote := remote c; wire := wire c; log := log c;
        Diagnostics := Diagnostics c; State := StateValue m |}).

(** [resp.State.SetAttribute(ctx, path.Root(name), v)] on a state kept as a
    map from root attribute names to values (used by the import handlers,
    which run on an empty state). *)
Definition State_SetAttribute {W} (name v : string)
    : H W (gmap string string) diag.Diagnostics :=
  fun c =>
    (Next [],
     {| remote := remote c; wire := wire c; log := log c;
        Diagnostics := Diagnostics c; State := <[name := v]> (State c) |}).

(** ** Requests of the host framework ([terraform-plugin-framework/resource]) *)

Module resource.

Record CreateRequest (M : Type) := { Create_Plan : Decoded M }.
Record ReadRequest (M : Type) := { Read_State : Decoded M }.
Record UpdateRequest (M : Type) := {
  Update_Plan : Decoded M;
  Update_State : Decoded M;
}.
Record DeleteRequest (M : Type) := { Delete_State : Decoded M }.
Record ImportStateRequest := { Import_ID : string }.

(** [req.ProviderData] is an [any]: nil, the connection context, or a
    value of some other type (kept as the name [%T] prints). *)
Inductive ProviderData :=
| ProviderData_nil
| ProviderData_conn (d : TerrakubeConnectionData)
| ProviderData_other (type_name : string).

Record ConfigureRequest := { Configure_ProviderData : ProviderData }.

Arguments Create_Plan {M} _.
Arguments Read_State {M} _.
Arguments Update_Plan {M} _.
Arguments Update_State {M} _.
Arguments Delete_State {M} _.

End resource.

(** ** [strings.Split] for a one-character separator

    The pieces of [s] between the occurrences of [sep]: one more piece than
    there are separators, so never an empty list. *)
Fixpoint strings_Split (s : string) (sep : ascii) : list string :=
  match s with
  | EmptyString => [""]
  | String c rest =>
      if decide (c = sep) then "" :: strings_Split rest sep
      else
        match strings_Split rest sep with
        | piece :: pieces => String c piece :: pieces
        | [] => [String c ""]
        end
  end.

Definition comma : ascii := ","%char.

(** The zero values [&client.TeamEntity{}] and [&client.ModuleEntity{}]. *)
Definition TeamEntity_zero : client.TeamEntity :=
  {| client.Team_ID := ""; client.Team_Name := "";
     client.Team_ManageState := false; client.Team_ManageWorkspace := false;
     client.Team_ManageModule := false; client.Team_ManageProvider := false;
     client.Team_ManageVcs := false; client.Team_ManageTemplate := false;
     client.Team_ManageJob := false; client.Team_ManageCollection := false |}.

Definition ModuleEntity_zero : client.ModuleEntity :=
  {| client.Module_ID := ""; client.Module_Name := "";
     client.Module_Description := ""; client.Module_Provider := "";
     client.Module_Source := "" |}.

(** [err = jsonapi.UnmarshalPayload(reader, entity)] on a fresh [entity]. *)
Definition jsonapi_UnmarshalPayload {E} `{!Payload E} (fresh : E) (body : string)
    : E * option error :=
  match UnmarshalPayload body with
  | inl e => (fresh, Some e)
  | inr v => (v, None)
  end.

Section Transport.

Context {W S : Type}.

(** The remote API: what [Client.Do] returns for a request, and how the
    remote side changes by it. *)
Variable RoundTrip : W -> http.Client -> http.Request -> W * (error + http.Response).

(** The error of [url.Parse] inside [http.NewRequest], nil for a URL that
    parses. *)
Variable url_Parse : string -> option error.

(** [http.NewRequest(method, url, body)]: a nil request and the error when
    the URL does not parse (the methods used are all valid). *)
Definition http_NewRequest (method : http.Method) (url : string)
    (body : option string) : option http.Request * option error :=
  match url_Parse url with
  | Some e => (None, Some e)
  | None =>
      (Some {| http.Method_ := method; http.URL := url;
               http.Header := ∅; http.Body := body |}, None)
  end.

(** [request.Header.Add(key, value)]; the request is a pointer, nil when
    [http.NewRequest] failed. *)
Definition Request_Header_Add (request : option http.Request) (key value : string)
    : H W S (option http.Request) :=
  match request with
  | None => panic "invalid memory address or nil pointer dereference"
  | Some rq =>
      ret (Some {| http.Method_ := http.Method_ rq; http.URL := http.URL rq;
                   http.Header := http.Header_Add key value (http.Header rq);
                   http.Body := http.Body rq |})
  end.

(** [r.client.Do(request)]: a response or an error. *)
Definition Client_Do (cl : option http.Client) (request : option http.Request)
    : H W S (option http.Response * option error) :=
  fun c =>
    match cl, request with
    | Some cl, Some rq =>
        let '(w', res) := RoundTrip (remote c) cl rq in
        (Next match res with
              | inl e => (None, Some e)
              | inr rs => (Some rs, None)
              end,
         {| remote := w'; wire := wire c ++ [(rq, res)]; log := log c;
            Diagnostics := Diagnostics c; State := State c |})
    | _, _ => (Panicked "invalid memory address or nil pointer dereference", c)
    end.

(** [io.ReadAll(response.Body)] as a string. *)
Definition io_ReadAll (response : option http.Response)
    : H W S (string * option error) :=
  match response with
  | None => panic "invalid memory address or nil pointer dereference"
  | Some rs => ret (http.ReadAll rs)
  end.

End Transport.

(** ** [team_resource.go] *)

Section TeamResource.

Context {W : Type}.
Variable RoundTrip : W -> http.Client -> http.Request -> W * (error + http.Response).
Variable url_Parse : string -> option error.
Variable DefaultTransport : http.RoundTripper.
Variable strconv_Quote : string -> string.
Context `{!Payload client.TeamEntity}.

Abbreviation NewRequest := (http_NewRequest url_Parse).
Abbreviation Do := (Client_Do RoundTrip).

(** [TeamResource.Configure]; the handler works on the receiver [r]. *)
Definition TeamResource_Configure (req : resource.ConfigureRequest)
    : H W TeamResource unit :=
  match resource.Configure_ProviderData req with
  | resource.ProviderData_nil => Return
  | resource.ProviderData_other type_name =>
      Diagnostics_AddError "Unexpected Team Resource Configure Type"
        ("Expected *TerrakubeConnectionData, got: " +:+ type_name +:+
         ". Please report this issue to the provider developers.") ;;
      Return
  | resource.ProviderData_conn providerData =>
      let client :=
        if InsecureHttpClient providerData then
          match DefaultTransport with
          | http.IsTransport custom =>
              let customTransport := custom in
              let customTransport :=
                {| http.TLSClientConfig :=
                     Some {| tls.InsecureSkipVerify := true |} |} in
              {| http.Transport_ := Some customTransport |}
          | http.OtherRoundTripper => {| http.Transport_ := None |}
          end
        else {| http.Transport_ := None |} in
      (fun c =>
         (Next tt,
          {| remote := remote c; wire := wire c; log := log c;
             Diagnostics := Diagnostics c;
             State := {| client_ := Some client;
                         endpoint := Endpoint providerData;
                         token := Token providerData |} |})) ;;
      tflog_write tflog.Debug "Configuring Team resource" [("success", "true")]
  end.

(** The entity [Create] serialises into the POST body. *)
Definition TeamResource_Create_bodyRequest (plan : TeamResourceModel)
    : client.TeamEntity :=
  {| client.Team_ID := "";
     client.Team_Name := types.ValueString (Name plan);
     client.Team_ManageState := types.ValueBool (ManageState plan);
     client.Team_ManageWorkspace := types.ValueBool (ManageWorkspace plan);
     client.Team_ManageModule := types.ValueBool (ManageModule plan);
     client.Team_ManageProvider := types.ValueBool (ManageProvider plan);
     client.Team_ManageTemplate := types.ValueBool (ManageTemplate plan);
     client.Team_ManageVcs := types.ValueBool (ManageVcs plan);
     client.Team_ManageJob := types.ValueBool (ManageJob plan);
     client.Team_ManageCollection := types.ValueBool (ManageCollection plan) |}.

(** The assignments [plan.ID = types.StringValue(newTeam.ID)], ... that
    [Create] makes before it stores the plan as the new state. *)
Definition TeamResource_Create_assign (plan : TeamResourceModel)
    (newTeam : client.TeamEntity) : TeamResourceModel :=
  {| ID := types.StringValue (client.Team_ID newTeam);
     Name := types.StringValue (client.Team_Name newTeam);
     OrganizationId := OrganizationId plan;
     ManageState := types.BoolValue (client.Team_ManageState newTeam);
     ManageWorkspace := types.BoolValue (client.Team_ManageWorkspace newTeam);
     ManageModule := types.BoolValue (client.Team_ManageModule newTeam);
     ManageProvider := types.BoolValue (client.Team_ManageProvider newTeam);
     ManageVcs := types.BoolValue (client.Team_ManageVcs newTeam);
     ManageTemplate := types.BoolValue (client.Team_ManageTemplate newTeam);
     ManageJob := types.BoolValue (client.Team_ManageJob newTeam);
     ManageCollection := types.BoolValue (client.Team_ManageCollection newTeam) |}.

Definition TeamResource_Create (r : TeamResource)
    (req : resource.CreateRequest TeamResourceModel)
    : H W (tfsdk_State TeamResourceModel) unit :=
  got <- Get (resource.Create_Plan req) ;;
  let plan := got.2 in
  Diagnostics_Append got.1 ;;
  failed <- Diagnostics_HasError ;;
  when failed Return ;;
  let bodyRequest := TeamResource_Create_bodyRequest plan in
  let (out, err) := MarshalPayload bodyRequest in
  if_err err (fun err =>
    Diagnostics_AddError "Unable to marshal payload"
      ("Unable to marshal payload: " +:+ err) ;;
    Return) ;;
  let (teamRequest, err) :=
    NewRequest http.MethodPost
      (endpoint r +:+ "/api/v1/organization/" +:+
       types.ValueString (OrganizationId plan) +:+ "/team")
      (Some out) in
  teamRequest <- Request_Header_Add teamRequest "Authorization" ("Bearer " +:+ token r) ;;
  teamRequest <- Request_Header_Add teamRequest "Content-Type" "application/vnd.api+json" ;;
  if_err err (fun err =>
    Diagnostics_AddError "Error creating team resource request"
      ("Error creating team resource request: " +:+ err) ;;
    Return) ;;
  done <- Do (client_ r) teamRequest ;;
  let (teamResponse, err) := done : option http.Response * option error in
  if_err err (fun err =>
    Diagnostics_AddError "Error executing team resource request"
      ("Error executing team resource request: " +:+ err) ;;
    Return) ;;
  read <- io_ReadAll teamResponse ;;
  let (bodyResponse, err) := read : string * option error in
  if_err err (fun _ =>
    tflog_write tflog.Error "Error reading team resource response" []) ;;
  let (newTeam, err) := jsonapi_UnmarshalPayload TeamEntity_zero bodyResponse in
  if_err err (fun err =>
    Diagnostics_AddError "Error unmarshal payload response"
      ("Error unmarshal payload response: " +:+ err) ;;
    Return) ;;
  tflog_write tflog.Info "Body Response" [("bodyResponse", bodyResponse)] ;;
  let plan := TeamResource_Create_assign plan newTeam in
  tflog_write tflog.Info "Team Resource Created" [("success", "true")] ;;
  set <- State_Set plan ;;
  Diagnostics_Append set.

(** The assignments [state.Name = types.StringValue(team.Name)], ... that
    [Read] makes before it stores the refreshed state; [state.ID] and
    [state.OrganizationId] are not assigned. *)
Definition TeamResource_Read_assign (state : TeamResourceModel)
    (team : client.TeamEntity) : TeamResourceModel :=
  {| ID := ID state;
     Name := types.StringValue (client.Team_Name team);
     OrganizationId := OrganizationId state;
     ManageState := types.BoolValue (client.Team_ManageState team);
     ManageWorkspace := types.BoolValue (client.Team_ManageWorkspace team);
     ManageModule := types.BoolValue (client.Team_ManageModule team);
     ManageProvider := types.BoolValue (client.Team_ManageProvider team);
     ManageVcs := types.BoolValue (client.Team_ManageVcs team);
     ManageTemplate := types.BoolValue (client.Team_ManageTemplate team);
     ManageJob := types.BoolValue (client.Team_ManageJob team);
     ManageCollection := types.BoolValue (client.Team_ManageCollection team) |}.

Definition TeamResource_Read (r : TeamResource)
    (req : resource.ReadRequest TeamResourceModel)
    : H W (tfsdk_State TeamResourceModel) unit :=
  got <- Get (resource.Read_State req) ;;
  let state := got.2 in
  Diagnostics_Append got.1 ;;
  failed <- Diagnostics_HasError ;;
  when failed Return ;;
  let (teamRequest, err) :=
    NewRequest http.MethodGet
      (endpoint r +:+ "/api/v1/organization/" +:+
       types.ValueString (OrganizationId state) +:+ "/team/" +:+
       types.ValueString (ID state))
      None in
  teamRequest <- Request_Header_Add teamRequest "Authorization" ("Bearer " +:+ token r) ;;
  teamRequest <- Request_Header_Add teamRequest "Content-Type" "application/vnd.api+json" ;;
  if_err err (fun err =>
    Diagnostics_AddError "Error creating team resource request"
      ("Error creating team resource request: " +:+ err) ;;
    Return) ;;
  done <- Do (client_ r) teamRequest ;;
  let (teamResponse, err) := done : option http.Response * option error in
  if_err err (fun err =>
    Diagnostics_AddError "Error executing team resource request"
      ("Error executing team resource request: " +:+ err) ;;
    Return) ;;
  read <- io_ReadAll teamResponse ;;
  let (bodyResponse, err) := read : string * option error in
  if_err err (fun _ =>
    tflog_write tflog.Error "Error reading team resource response" []) ;;
  tflog_write tflog.Info "Body Response" [("bodyResponse", bodyResponse)] ;;
  let (team, err) := jsonapi_UnmarshalPayload TeamEntity_zero bodyResponse in
  if_err err (fun err =>
    Diagnostics_AddError "Error unmarshal payload response"
      ("Error unmarshal payload response: " +:+ err) ;;
    Return) ;;
  tflog_write tflog.Info "Body Response" [("bodyResponse", bodyResponse)] ;;
  let state := TeamResource_Read_assign state team in
  set <- State_Set state ;;
  Diagnostics_Append set ;;
  failed <- Diagnostics_HasError ;;
  when failed Return ;;
  tflog_write tflog.Info "Team Resource reading" [("success", "true")].

(** The entity [Update] serialises into the PATCH body. *)
Definition TeamResource_Update_bodyRequest (plan state : TeamResourceModel)
    : client.TeamEntity :=
  {| client.Team_ManageState := types.ValueBool (ManageState plan);
     client.Team_ManageWorkspace := types.ValueBool (ManageWorkspace plan);
     client.Team_ManageModule := types.ValueBool (ManageModule plan);
     client.Team_ManageProvider := types.ValueBool (ManageProvider plan);
     client.Team_ManageTemplate := types.ValueBool (ManageTemplate plan);
     client.Team_ManageVcs := types.ValueBool (ManageVcs plan);
     client.Team_ManageJob := types.ValueBool (ManageJob plan);
     client.Team_ManageCollection := types.ValueBool (ManageCollection plan);
     client.Team_ID := types.ValueString (ID state);
     client.Team_Name := types.ValueString (Name state) |}.

(** The assignments [plan.ID = types.StringValue(state.ID.ValueString())],
    [plan.Name = types.StringValue(team.Name)], ... that [Update] makes
    before it stores the plan as the new state. *)
Definition TeamResource_Update_assign (plan state : TeamResourceModel)
    (team : client.TeamEntity) : TeamResourceModel :=
  {| ID := types.StringValue (types.ValueString (ID state));
     Name := types.StringValue (client.Team_Name team);
     OrganizationId := OrganizationId plan;
     ManageState := types.BoolValue (client.Team_ManageState team);
     ManageWorkspace := types.BoolValue (client.Team_ManageWorkspace team);
     ManageModule := types.BoolValue (client.Team_ManageModule team);
     ManageProvider := types.BoolValue (client.Team_ManageProvider team);
     ManageVcs := types.BoolValue (client.Team_ManageVcs team);
     ManageTemplate := types.BoolValue (client.Team_ManageTemplate team);
     ManageJob := types.BoolValue (client.Team_ManageJob team);
     ManageCollection := types.BoolValue (client.Team_ManageCollection team) |}.

Definition TeamResource_Update (r : TeamResource)
    (req : resource.UpdateRequest TeamResourceModel)
    : H W (tfsdk_State TeamResourceModel) unit :=
  gotState <- Get (resource.Update_State req) ;;
  let state := gotState.2 in
  Diagnostics_Append gotState.1 ;;
  gotPlan <- Get (resource.Update_Plan req) ;;
  let plan := gotPlan.2 in
  Diagnostics_Append gotPlan.1 ;;
  failed <- Diagnostics_HasError ;;
  when failed Return ;;
  let bodyRequest := TeamResource_Update_bodyRequest plan state in
  let (out, err) := MarshalPayload bodyRequest in
  if_err err (fun err =>
    Diagnostics_AddError "Unable to marshal payload"
      ("Unable to marshal payload: " +:+ err) ;;
    Return) ;;
  let (teamRequest, err) :=
    NewRequest http.MethodPatch
      (endpoint r +:+ "/api/v1/organization/" +:+
       types.ValueString (OrganizationId state) +:+ "/team/" +:+
       types.ValueString (ID state))
      (Some out) in
  teamRequest <- Request_Header_Add teamRequest "Authorization" ("Bearer " +:+ token r) ;;
  teamRequest <- Request_Header_Add teamRequest "Content-Type" "application/vnd.api+json" ;;
  if_err err (fun err =>
    Diagnostics_AddError "Error creating team resource request"
      ("Error creating team resource request: " +:+ err) ;;
    Return) ;;
  done <- Do (client_ r) teamRequest ;;
  let (teamResponse, err) := done : option http.Response * option error in
  if_err err (fun err =>
    Diagnostics_AddError "Error executing team resource request"
      ("Error executing team resource request: " +:+ err) ;;
    Return) ;;
  read <- io_ReadAll teamResponse ;;
  let (bodyResponse, err) := read : string * option error in
  if_err err (fun _ =>
    tflog_write tflog.Error "Error reading team resource response" []) ;;
  tflog_write tflog.Info "Body Response" [("success", bodyResponse)] ;;
  let (teamRequest, err) :=
    NewRequest http.MethodGet
      (endpoint r +:+ "/api/v1/organization/" +:+
       types.ValueString (OrganizationId state) +:+ "/team/" +:+
       types.ValueString (ID state))
      None in
  teamRequest <- Request_Header_Add teamRequest "Authorization" ("Bearer " +:+ token r) ;;
  teamRequest <- Request_Header_Add teamRequest "Content-Type" "application/vnd.api+json" ;;
  if_err err (fun err =>
    Diagnostics_AddError "Error creating team resource request"
      ("Error creating team resource request: " +:+ err) ;;
    Return) ;;
  done <- Do (client_ r) teamRequest ;;
  let (teamResponse, err) := done : option http.Response * option error in
  if_err err (fun err =>
    Diagnostics_AddError "Error executing team resource request"
      ("Error executing team resource request: " +:+ err) ;;
    Return) ;;
  read <- io_ReadAll teamResponse ;;
  let (bodyResponse, err) := read : string * option error in
  if_err err (fun err =>
    Diagnostics_AddError "Error reading team resource response body"
      ("Error reading team resource response body: " +:+ err)) ;;
  tflog_write tflog.Info "Body Response" [("bodyResponse", bodyResponse)] ;;
  let (team, err) := jsonapi_UnmarshalPayload TeamEntity_zero bodyResponse in
  if_err err (fun err =>
    Diagnostics_AddError "Error unmarshal payload response"
      ("Error unmarshal payload response: " +:+ err) ;;
    Return) ;;
  let plan := TeamResource_Update_assign plan state team in
  set <- State_Set plan ;;
  Diagnostics_Append set.

Definition TeamResource_Delete (r : TeamResource)
    (req : resource.DeleteRequest TeamResourceModel)
    : H W (tfsdk_State TeamResourceModel) unit :=
  got <- Get (resource.Delete_State req) ;;
  let data := got.2 in
  Diagnostics_Append got.1 ;;
  failed <- Diagnostics_HasError ;;
  when failed Return ;;
  let (reqOrg, err) :=
    NewRequest http.MethodDelete
      (endpoint r +:+ "/api/v1/organization/" +:+
       types.ValueString (OrganizationId data) +:+ "/team/" +:+
       types.ValueString (ID data))
      None in
  reqOrg <- Request_Header_Add reqOrg "Authorization" ("Bearer " +:+ token r) ;;
  if_err err (fun err =>
    Diagnostics_AddError "Error creating team resource request"
      ("Error creating team resource request: " +:+ err) ;;
    Return) ;;
  done <- Do (client_ r) reqOrg ;;
  let (_, err) := done : option http.Response * option error in
  if_err err (fun err =>
    Diagnostics_AddError "Error executing team resource request"
      ("Error executing team resource request: " +:+ err) ;;
    Return).

(** [TeamResource.ImportState], on the state as a map of root attributes. *)
Definition TeamResource_ImportState (req : resource.ImportStateRequest)
    : H W (gmap string string) unit :=
  let idParts := strings_Split (resource.Import_ID req) comma in
  when (negb (length idParts =? 2)
        || bool_decide (idParts !!! 0 = "")
        || bool_decide (idParts !!! 1 = ""))
    (Diagnostics_AddError "Unexpected Import Identifier"
       ("Expected import identifier with format: 'organization_ID,ID', Got: " +:+
        strconv_Quote (resource.Import_ID req)) ;;
     Return) ;;
  set <- State_SetAttribute "organization_id" (idParts !!! 0) ;;
  Diagnostics_Append set ;;
  set <- State_SetAttribute "id" (idParts !!! 1) ;;
  Diagnostics_Append set.

End TeamResource.

(** [resource.ImportStatePassthroughID(ctx, path.Root(name), req, resp)] of
    the host framework: it complains about an empty path and writes the whole
    import identifier under the attribute. *)
Definition resource_ImportStatePassthroughID {W} (name : string)
    (req : resource.ImportStateRequest) : H W (gmap string string) unit :=
  when (bool_decide (name = ""))
    (Diagnostics_AddError "Resource Import Passthrough Missing Attribute Path"
       "This is always an error in the provider. Please report the following to the provider developer:") ;;
  set <- State_SetAttribute name (resource.Import_ID req) ;;
  Diagnostics_Append set.

(** ** [module_resource.go] *)

Section ModuleResource.

Context {W : Type}.
Variable RoundTrip : W -> http.Client -> http.Request -> W * (error + http.Response).
Variable url_Parse : string -> option error.
Variable DefaultTransport : http.RoundTripper.
Context `{!Payload client.ModuleEntity}.

Abbreviation NewRequest := (http_NewRequest url_Parse).
Abbreviation Do := (Client_Do RoundTrip).

(** [ModuleResource.Configure]; the handler works on the receiver [r].  The
    type assertion on [http.DefaultTransport] is unchecked. *)
Definition ModuleResource_Configure (req : resource.ConfigureRequest)
    : H W ModuleResource unit :=
  match resource.Configure_ProviderData req with
  | resource.ProviderData_nil => Return
  | resource.ProviderData_other type_name =>
      Diagnostics_AddError "Unexpected Module Resource Configure Type"
        ("Expected *TerrakubeConnectionData, got: " +:+ type_name +:+
         ". Please report this issue to the provider developers.") ;;
      Return
  | resource.ProviderData_conn providerData =>
      match DefaultTransport with
      | http.OtherRoundTripper =>
          panic "interface conversion: http.RoundTripper is not *http.Transport"
      | http.IsTransport custom =>
          let customTransport := custom in
          let customTransport :=
            {| http.TLSClientConfig :=
                 Some {| tls.InsecureSkipVerify := true |} |} in
          let client := {| http.Transport_ := Some customTransport |} in
          (fun c =>
             (Next tt,
              {| remote := remote c; wire := wire c; log := log c;
                 Diagnostics := Diagnostics c;
                 State := {| mclient := Some client;
                             mendpoint := Endpoint providerData;
                             mtoken := Token providerData |} |})) ;;
          tflog_write tflog.Debug "Configuring Module resource" [("success", "true")]
      end
  end.

(** The entity [Create] serialises into the POST body. *)
Definition ModuleResource_Create_bodyRequest (plan : ModuleResourceModel)
    : client.ModuleEntity :=
  {| client.Module_ID := "";
     client.Module_Name := types.ValueString (mName plan);
     client.Module_Description := types.ValueString (mDescription plan);
     client.Module_Provider := types.ValueString (mProviderName plan);
     client.Module_Source := types.ValueString (mSource plan) |}.

(** The assignments [plan.ID = types.StringValue(newModule.ID)], ... that
    [Create] makes before it stores the plan as the new state. *)
Definition ModuleResource_Create_assign (plan : ModuleResourceModel)
    (newModule : client.ModuleEntity) : ModuleResourceModel :=
  {| mID := types.StringValue (client.Module_ID newModule);
     mName := types.StringValue (client.Module_Name newModule);
     mOrganizationId := mOrganizationId plan;
     mDescription := types.StringValue (client.Module_Description newModule);
     mProviderName := types.StringValue (client.Module_Provider newModule);
     mSource := types.StringValue (client.Module_Source newModule) |}.

Definition ModuleResource_Create (r : ModuleResource)
    (req : resource.CreateRequest ModuleResourceModel)
    : H W (tfsdk_State ModuleResourceModel) unit :=
  got <- Get (resource.Create_Plan req) ;;
  let plan := got.2 in
  Diagnostics_Append got.1 ;;
  failed <- Diagnostics_HasError ;;
  when failed Return ;;
  let bodyRequest := ModuleResource_Create_bodyRequest plan in
  let (out, _) := MarshalPayload bodyRequest in
  let (moduleRequest, err) :=
    NewRequest http.MethodPost
      (mendpoint r +:+ "/api/v1/organization/" +:+
       types.ValueString (mOrganizationId plan) +:+ "/module")
      (Some out) in
  moduleRequest <- Request_Header_Add moduleRequest "Authorization" ("Bearer " +:+ mtoken r) ;;
  moduleRequest <- Request_Header_Add moduleRequest "Content-Type" "application/vnd.api+json" ;;
  if_err err (fun err =>
    Diagnostics_AddError "Error creating module resource request"
      ("Error creating team resource request: " +:+ err) ;;
    Return) ;;
  done <- Do (mclient r) moduleRequest ;;
  let (moduleResponse, err) := done : option http.Response * option error in
  if_err err (fun err =>
    Diagnostics_AddError "Error executing module resource request"
      ("Error executing team resource request: " +:+ err) ;;
    Return) ;;
  read <- io_ReadAll moduleResponse ;;
  let (bodyResponse, err) := read : string * option error in
  if_err err (fun _ =>
    tflog_write tflog.Error "Error reading module resource response" []) ;;
  tflog_write tflog.Info "Body Response" [("bodyResponse", bodyResponse)] ;;
  let (newModule, err) := jsonapi_UnmarshalPayload ModuleEntity_zero bodyResponse in
  if_err err (fun err =>
    Diagnostics_AddError "Error unmarshal payload response"
      ("Error unmarshal payload response: " +:+ err) ;;
    Return) ;;
  tflog_write tflog.Info "Body Response" [("bodyResponse", bodyResponse)] ;;
  let plan := ModuleResource_Create_assign plan newModule in
  tflog_write tflog.Info "Module Resource Created" [("success", "true")] ;;
  set <- State_Set plan ;;
  Diagnostics_Append set.

(** The assignments [state.Name = types.StringValue(module.Name)], ... that
    [Read] makes before it stores the refreshed state; [state.ID] and
    [state.OrganizationId] are not assigned. *)
Definition ModuleResource_Read_assign (state : ModuleResourceModel)
    (module : client.ModuleEntity) : ModuleResourceModel :=
  {| mID := mID state;
     mName := types.StringValue (client.Module_Name module);
     mOrganizationId := mOrganizationId state;
     mDescription := types.StringValue (client.Module_Description module);
     mProviderName := types.StringValue (client.Module_Provider module);
     mSource := types.StringValue (client.Module_Source module) |}.

Definition ModuleResource_Read (r : ModuleResource)
    (req : resource.ReadRequest ModuleResourceModel)
    : H W (tfsdk_State ModuleResourceModel) unit :=
  got <- Get (resource.Read_State req) ;;
  let state := got.2 in
  Diagnostics_Append got.1 ;;
  failed <- Diagnostics_HasError ;;
  when failed Return ;;
  let (moduleRequest, err) :=
    NewRequest http.MethodGet
      (mendpoint r +:+ "/api/v1/organization/" +:+
       types.ValueString (mOrganizationId state) +:+ "/module/" +:+
       types.ValueString (mID state))
      None in
  moduleRequest <- Request_Header_Add moduleRequest "Authorization" ("Bearer " +:+ mtoken r) ;;
  moduleRequest <- Request_Header_Add moduleRequest "Content-Type" "application/vnd.api+json" ;;
  if_err err (fun err =>
    Diagnostics_AddError "Error creating module resource request"
      ("Error creating team resource request: " +:+ err) ;;
    Return) ;;
  done <- Do (mclient r) moduleRequest ;;
  let (moduleResponse, err) := done : option http.Response * option error in
  if_err err (fun err =>
    Diagnostics_AddError "Error executing module resource request"
      ("Error executing team resource request: " +:+ err) ;;
    Return) ;;
  read <- io_ReadAll moduleResponse ;;
  let (bodyResponse, err) := read : string * option error in
  if_err err (fun _ =>
    tflog_write tflog.Error "Error reading module resource response" []) ;;
  tflog_write tflog.Info "Body Response" [("bodyResponse", bodyResponse)] ;;
  let (module, err) := jsonapi_UnmarshalPayload ModuleEntity_zero bodyResponse in
  if_err err (fun err =>
    Diagnostics_AddError "Error unmarshal payload response"
      ("Error unmarshal payload response: " +:+ err) ;;
    Return) ;;
  tflog_write tflog.Info "Body Response" [("bodyResponse", bodyResponse)] ;;
  let state := ModuleResource_Read_assign state module in
  set <- State_Set state ;;
  Diagnostics_Append set ;;
  failed <- Diagnostics_HasError ;;
  when failed Return ;;
  tflog_write tflog.Info "Module Resource reading" [("success", "true")].

(** The entity [Update] serialises into the PATCH body. *)
Definition ModuleResource_Update_bodyRequest (plan state : ModuleResourceModel)
    : client.ModuleEntity :=
  {| client.Module_ID := types.ValueString (mID state);
     client.Module_Name := types.ValueString (mName plan);
     client.Module_Description := types.ValueString (mName plan);
     client.Module_Provider := types.ValueString (mProviderName plan);
     client.Module_Source := types.ValueString (mSource plan) |}.

(** The assignments [plan.ID = types.StringValue(state.ID.ValueString())],
    [plan.Name = types.StringValue(module.Name)], ... that [Update] makes
    before it stores the plan as the new state. *)
Definition ModuleResource_Update_assign (plan state : ModuleResourceModel)
    (module : client.ModuleEntity) : ModuleResourceModel :=
  {| mID := types.StringValue (types.ValueString (mID state));
     mName := types.StringValue (client.Module_Name module);
     mOrganizationId := mOrganizationId plan;
     mDescription := types.StringValue (client.Module_Description module);
     mProviderName := types.StringValue (client.Module_Provider module);
     mSource := types.StringValue (client.Module_Source module) |}.

Definition ModuleResource_Update (r : ModuleResource)
    (req : resource.UpdateRequest ModuleResourceModel)
    : H W (tfsdk_State ModuleResourceModel) unit :=
  gotState <- Get (resource.Update_State req) ;;
  let state := gotState.2 in
  Diagnostics_Append gotState.1 ;;
  gotPlan <- Get (resource.Update_Plan req) ;;
  let plan := gotPlan.2 in
  Diagnostics_Append gotPlan.1 ;;
  failed <- Diagnostics_HasError ;;
  when failed Return ;;
  let bodyRequest := ModuleResource_Update_bodyRequest plan state in
  let (out, _) := MarshalPayload bodyRequest in
  let (moduleRequest, err) :=
    NewRequest http.MethodPatch
      (mendpoint r +:+ "/api/v1/organization/" +:+
       types.ValueString (mOrganizationId state) +:+ "/module/" +:+
       types.ValueString (mID state))
      (Some out) in
  moduleRequest <- Request_Header_Add moduleRequest "Authorization" ("Bearer " +:+ mtoken r) ;;
  moduleRequest <- Request_Header_Add moduleRequest "Content-Type" "application/vnd.api+json" ;;
  if_err err (fun err =>
    Diagnostics_AddError "Error creating module resource request"
      ("Error creating team resource request: " +:+ err) ;;
    Return) ;;
  done <- Do (mclient r) moduleRequest ;;
  let (teamResponse, err) := done : option http.Response * option error in
  if_err err (fun err =>
    Diagnostics_AddError "Error executing module resource request"
      ("Error executing team resource request: " +:+ err) ;;
    Return) ;;
  read <- io_ReadAll teamResponse ;;
  let (bodyResponse, err) := read : string * option error in
  if_err err (fun _ =>
    tflog_write tflog.Error "Error reading module resource response" []) ;;
  tflog_write tflog.Info "Body Response" [("success", bodyResponse)] ;;
  let (moduleRequest, err) :=
    NewRequest http.MethodGet
      (mendpoint r +:+ "/api/v1/organization/" +:+
       types.ValueString (mOrganizationId state) +:+ "/module/" +:+
       types.ValueString (mID state))
      None in
  moduleRequest <- Request_Header_Add moduleRequest "Authorization" ("Bearer " +:+ mtoken r) ;;
  moduleRequest <- Request_Header_Add moduleRequest "Content-Type" "application/vnd.api+json" ;;
  if_err err (fun err =>
    Diagnostics_AddError "Error creating module resource request"
      ("Error creating team resource request: " +:+ err) ;;
    Return) ;;
  done <- Do (mclient r) moduleRequest ;;
  let (teamResponse, err) := done : option http.Response * option error in
  if_err err (fun err =>
    Diagnostics_AddError "Error executing module resource request"
      ("Error executing team resource request: " +:+ err) ;;
    Return) ;;
  read <- io_ReadAll teamResponse ;;
  let (bodyResponse, err) := read : string * option error in
  if_err err (fun err =>
    Diagnostics_AddError "Error reading module resource response body"
      ("Error reading team resource response body: " +:+ err)) ;;
  tflog_write tflog.Info "Body Response" [("bodyResponse", bodyResponse)] ;;
  let (module, err) := jsonapi_UnmarshalPayload ModuleEntity_zero bodyResponse in
  if_err err (fun err =>
    Diagnostics_AddError "Error unmarshal payload response"
      ("Error unmarshal payload response: " +:+ err) ;;
    Return) ;;
  let plan := ModuleResource_Update_assign plan state module in
  set <- State_Set plan ;;
  Diagnostics_Append set.

Definition ModuleResource_Delete (r : ModuleResource)
    (req : resource.DeleteRequest ModuleResourceModel)
    : H W (tfsdk_State ModuleResourceModel) unit :=
  got <- Get (resource.Delete_State req) ;;
  let data := got.2 in
  Diagnostics_Append got.1 ;;
  failed <- Diagnostics_HasError ;;
  when failed Return ;;
  let (reqOrg, err) :=
    NewRequest http.MethodDelete
      (mendpoint r +:+ "/api/v1/organization/" +:+
       types.ValueString (mOrganizationId data) +:+ "/module/" +:+
       types.ValueString (mID data))
      None in
  reqOrg <- Request_Header_Add reqOrg "Authorization" ("Bearer " +:+ mtoken r) ;;
  if_err err (fun err =>
    Diagnostics_AddError "Error creating module resource request"
      ("Error creating team resource request: " +:+ err) ;;
    Return) ;;
  done <- Do (mclient r) reqOrg ;;
  let (_, err) := done : option http.Response * option error in
  if_err err (fun err =>
    Diagnostics_AddError "Error executing module resource request"
      ("Error executing team resource request: " +:+ err) ;;
    Return).

Definition ModuleResource_ImportState (req : resource.ImportStateRequest)
    : H W (gmap string string) unit :=
  resource_ImportStatePassthroughID "id" req.

End ModuleResource.

(** ** Calling a handler *)

(** The context a handler starts in: the host framework hands it a response
    object with no diagnostics and with [resp.State] preset ([s]: null for
    Create and ImportState, the prior state for Read, Update and Delete); no
    request has been sent and nothing logged. *)
Definition begin {W S} (w : W) (s : S) : Ctx W S :=
  {| remote := w; wire := []; log := []; Diagnostics := []; State := s |}.

(** A request whose model decoded without diagnostics. *)
Definition decoded {M} (m : M) : Decoded M := {| value := m; diags := [] |}.

(** Whether the client a [Configure] built carries a TLS configuration with
    [InsecureSkipVerify] set. *)
Definition Client_InsecureSkipVerify (cl : http.Client) : bool :=
  match http.Transport_ cl with
  | Some t =>
      match http.TLSClientConfig t with
      | Some cfg => tls.InsecureSkipVerify cfg
      | None => false
      end
  | None => false
  end.

(** Some exchange of the handler ended in a transport error. *)
Definition transport_failed {W S} (c : Ctx W S) : Prop :=
  ∃ rq e, (rq, inl e) ∈ wire c.

(** The last exchange of the handler brought a response whose bytes do not
    decode as an entity of type [E]. *)
Definition decoding_failed (E : Type) `{!Payload E} {W S} (c : Ctx W S) : Prop :=
  ∃ rq rs e, last (wire c) = Some (rq, inr rs)
             ∧ UnmarshalPayload (E := E) (http.ReadAll rs).1 = inl e.

(** Whether the character occurs in the string. *)
Fixpoint occurs (sep : ascii) (s : string) : bool :=
  match s with
  | EmptyString => false
  | String c rest => bool_decide (c = sep) || occurs sep rest
  end.

(** ** The team schema and the defaults the framework applies

    [TeamResource.Schema] as the map from attribute names to attributes that
    the Go code builds. *)
Module schema.

Inductive PlanModifier := UseStateForUnknown | RequiresReplace.

Record StringAttribute := {
  S_Required : bool;
  S_Computed : bool;
  S_Description : string;
  S_PlanModifiers : list PlanModifier;
}.

Record BoolAttribute := {
  B_Optional : bool;
  B_Computed : bool;
  B_Description : string;
  B_Default : option bool;
}.

Inductive Attribute :=
| String_ (a : StringAttribute)
| Bool_ (a : BoolAttribute).

End schema.

Definition TeamResource_flag (description : string) : schema.Attribute :=
  schema.Bool_
    {| schema.B_Optional := true; schema.B_Description := description;
       schema.B_Computed := true; schema.B_Default := Some false |}.

Definition TeamResource_Schema : gmap string schema.Attribute :=
  list_to_map
    [ ("id", schema.String_
         {| schema.S_Required := false; schema.S_Computed := true;
            schema.S_Description := "Team Id";
            schema.S_PlanModifiers := [schema.UseStateForUnknown] |});
      ("organization_id", schema.String_
         {| schema.S_Required := true; schema.S_Computed := false;
            schema.S_Description := "Terrakube organization id";
            schema.S_PlanModifiers := [] |});
      ("name", schema.String_
         {| schema.S_Required := true; schema.S_Computed := false;
            schema.S_Description := "Team name";
            schema.S_PlanModifiers := [schema.RequiresReplace] |});
      ("manage_state", TeamResource_flag "Allow to manage Terraform/OpenTofu state");
      ("manage_job", TeamResource_flag "Allow to manage and trigger jobs");
      ("manage_collection", TeamResource_flag "Allow to manage variables collection");
      ("manage_workspace", TeamResource_flag "Allow to manage workspaces");
      ("manage_module", TeamResource_flag "Allow to manage modules");
      ("manage_provider", TeamResource_flag "Allow to manage providers");
      ("manage_vcs", TeamResource_flag "Allow to manage vcs connections");
      ("manage_template", TeamResource_flag "Allow to manage templates") ].

(** Modelled from the spec: planning is done by the host framework, outside
    the sources; before a handler sees the plan, an optional boolean that the
    configuration leaves unset takes the default its schema attribute
    declares (and is unknown when it is computed without a default). *)
Definition planned_Bool (sch : gmap string schema.Attribute) (name : string)
    (configured : types.Bool) : types.Bool :=
  match configured with
  | types.BoolNull =>
      match sch !! name with
      | Some (schema.Bool_ a) =>
          match schema.B_Default a with
          | Some d => types.BoolValue d
          | None => if schema.B_Computed a then types.BoolUnknown else types.BoolNull
          end
      | _ => types.BoolNull
      end
  | v => v
  end.

(** Modelled from the spec: the plan the host framework derives for a new
    team from its configuration; the computed identifier is unknown until
    the resource exists. *)
Definition TeamResource_plan (config : TeamResourceModel) : TeamResourceModel :=
  let flag := planned_Bool TeamResource_Schema in
  {| ID := types.StringUnknown;
     Name := Name config;
     OrganizationId := OrganizationId config;
     ManageState := flag "manage_state" (ManageState config);
     ManageWorkspace := flag "manage_workspace" (ManageWorkspace config);
     ManageModule := flag "manage_module" (ManageModule config);
     ManageProvider := flag "manage_provider" (ManageProvider config);
     ManageVcs := flag "manage_vcs" (ManageVcs config);
     ManageTemplate := flag "manage_template" (ManageTemplate config);
     ManageJob := flag "manage_job" (ManageJob config);
     ManageCollection := flag "manage_collection" (ManageCollection config) |}.


(** ** Test doubles

    A remote API that answers from a script, a URL parser that accepts
    everything, and a codec with a line format
    ([id|name|flags] and [id|name|description|provider|source]) standing in
    for JSON:API documents; they give the concrete runs below. *)
Module Fake.

Definition World : Type := list (error + http.Response).

Definition RoundTrip (w : World) (_ : http.Client) (_ : http.Request)
    : World * (error + http.Response) :=
  match w with
  | [] => ([], inl "connection refused")
  | answer :: rest => (rest, answer)
  end.

Definition url_Parse (_ : string) : option error := None.

Definition strconv_Quote (s : string) : string := "'" +:+ s +:+ "'".

Definition bar : ascii := "|"%char.

Definition flag_char (b : bool) : string := if b then "1" else "0".

Definition char_flag (c : ascii) : option bool :=
  if decide (c = "1"%char) then Some true
  else if decide (c = "0"%char) then Some false
  else None.

Fixpoint flags_of (s : string) : option (list bool) :=
  match s with
  | EmptyString => Some []
  | String c rest =>
      match char_flag c, flags_of rest with
      | Some b, Some bs => Some (b :: bs)
      | _, _ => None
      end
  end.

Definition Team_Marshal (e : client.TeamEntity) : string * option error :=
  (client.Team_ID e +:+ "|" +:+ client.Team_Name e +:+ "|" +:+
   flag_char (client.Team_ManageState e) +:+
   flag_char (client.Team_ManageWorkspace e) +:+
   flag_char (client.Team_ManageModule e) +:+
   flag_char (client.Team_ManageProvider e) +:+
   flag_char (client.Team_ManageVcs e) +:+
   flag_char (client.Team_ManageTemplate e) +:+
   flag_char (client.Team_ManageJob e) +:+
   flag_char (client.Team_ManageCollection e), None).

Definition Team_Unmarshal (s : string) : error + client.TeamEntity :=
  match strings_Split s bar with
  | [id; name; flags] =>
      match flags_of flags with
      | Some [st; ws; md; pr; vcs; tp; job; col] =>
          inr {| client.Team_ID := id; client.Team_Name := name;
                 client.Team_ManageState := st; client.Team_ManageWorkspace := ws;
                 client.Team_ManageModule := md; client.Team_ManageProvider := pr;
                 client.Team_ManageVcs := vcs; client.Team_ManageTemplate := tp;
                 client.Team_ManageJob := job; client.Team_ManageCollection := col |}
      | _ => inl "data is not a jsonapi representation of '*client.TeamEntity'"
      end
  | _ => inl "EOF"
  end.

Definition Module_Marshal (e : client.ModuleEntity) : string * option error :=
  (client.Module_ID e +:+ "|" +:+ client.Module_Name e +:+ "|" +:+
   client.Module_Description e +:+ "|" +:+ client.Module_Provider e +:+ "|" +:+
   client.Module_Source e, None).

Definition Module_Unmarshal (s : string) : error + client.ModuleEntity :=
  match strings_Split s bar with
  | [id; name; description; provider; source] =>
      inr {| client.Module_ID := id; client.Module_Name := name;
             client.Module_Description := description;
             client.Module_Provider := provider; client.Module_Source := source |}
  | _ => inl "EOF"
  end.

Definition TeamPayload : Payload client.TeamEntity :=
  {| MarshalPayload := Team_Marshal; UnmarshalPayload := Team_Unmarshal |}.

Definition ModulePayload : Payload client.ModuleEntity :=
  {| MarshalPayload := Module_Marshal; UnmarshalPayload := Module_Unmarshal |}.

(** A response with a status and a body that was read to its end. *)
Definition answer (status : Z) (body : string) : error + http.Response :=
  inr {| http.StatusCode := status; http.ReadAll := (body, None) |}.

(** A response whose body reading stopped with an error after [body]. *)
Definition broken (status : Z) (body : string) (e : error) : error + http.Response :=
  inr {| http.StatusCode := status; http.ReadAll := (body, Some e) |}.

Definition team : TeamResource :=
  {| client_ := Some {| http.Transport_ := None |};
     endpoint := "https://terrakube.example"; token := "secret" |}.

Definition module : ModuleResource :=
  {| mclient :=
       Some {| http.Transport_ :=
                 Some {| http.TLSClientConfig :=
                           Some {| tls.InsecureSkipVerify := true |} |} |};
     mendpoint := "https://terrakube.example"; mtoken := "secret" |}.

(** A tracked team "infra-admins" of organisation [org1] that may manage
    jobs. *)
Definition tracked_team : TeamResourceModel :=
  {| ID := types.StringValue "team1";
     Name := types.StringValue "infra-admins";
     OrganizationId := types.StringValue "org1";
     ManageState := types.BoolValue false;
     ManageWorkspace := types.BoolValue false;
     ManageModule := types.BoolValue false;
     ManageProvider := types.BoolValue false;
     ManageVcs := types.BoolValue false;
     ManageTemplate := types.BoolValue false;
     ManageJob := types.BoolValue true;
     ManageCollection := types.BoolValue false |}.

(** The configuration of the scenario: a team "infra-admins" with
    [manage_job = true] and no other flag set. *)
Definition team_config : TeamResourceModel :=
  {| ID := types.StringNull;
     Name := types.StringValue "infra-admins";
     OrganizationId := types.StringValue "org1";
     ManageState := types.BoolNull;
     ManageWorkspace := types.BoolNull;
     ManageModule := types.BoolNull;
     ManageProvider := types.BoolNull;
     ManageVcs := types.BoolNull;
     ManageTemplate := types.BoolNull;
     ManageJob := types.BoolValue true;
     ManageCollection := types.BoolNull |}.

(** A tracked module, and a plan that renames it and changes its
    description. *)
Definition tracked_module : ModuleResourceModel :=
  {| mID := types.StringValue "mod1";
     mName := types.StringValue "vpc";
     mOrganizationId := types.StringValue "org1";
     mDescription := types.StringValue "network module";
     mProviderName := types.StringValue "aws";
     mSource := types.StringValue "https://git.example/vpc.git" |}.

Definition planned_module : ModuleResourceModel :=
  {| mID := types.StringValue "mod1";
     mName := types.StringValue "vpc-v2";
     mOrganizationId := types.StringValue "org1";
     mDescription := types.StringValue "network module, second version";
     mProviderName := types.StringValue "aws";
     mSource := types.StringValue "https://git.example/vpc.git" |}.

End Fake.

(** ** Statements about a run *)

(** Whether [http.DefaultTransport] is a [*http.Transport]. *)
Definition is_Transport (rt : http.RoundTripper) : bool :=
  match rt with
  | http.IsTransport _ => true
  | http.OtherRoundTripper => false
  end.

(** The import string is [org,id] with both parts non-empty and no further
    comma. *)
Definition import_parts (s org id : string) : Prop :=
  s = org +:+ "," +:+ id
  ∧ org ≠ "" ∧ id ≠ ""
  ∧ occurs comma org = false ∧ occurs comma id = false.

(** The request carries exactly one value under the header name. *)
Definition carries (rq : http.Request) (key value : string) : Prop :=
  http.Header rq !! key = Some [value].

(** Every request on the wire has both headers of the API. *)
Definition all_with_both_headers {W S} (tok : string) (c : Ctx W S) : Prop :=
  Forall (λ x : Exchange,
            carries x.1 "Authorization" ("Bearer " +:+ tok)
            ∧ carries x.1 "Content-Type" "application/vnd.api+json")
    (wire c).

(** Every request on the wire has the bearer token and no content type. *)
Definition all_with_token_only {W S} (tok : string) (c : Ctx W S) : Prop :=
  Forall (λ x : Exchange,
            carries x.1 "Authorization" ("Bearer " +:+ tok)
            ∧ http.Header x.1 !! "Content-Type" = None)
    (wire c).

(** The handler ended with an error diagnostic and with [resp.State] as it
    was given. *)
Definition reports_and_keeps {W S} (prior : S) (c : Ctx W S) : Prop :=
  State c = prior ∧ diag.HasError (Diagnostics c) = true.

(** The last exchange of the handler brought a response whose bytes decode
    as an entity of type [E]. *)
Definition decoding_succeeded (E : Type) `{!Payload E} {W S} (c : Ctx W S) : Prop :=
  ∃ rq rs e, last (wire c) = Some (rq, inr rs)
             ∧ UnmarshalPayload (E := E) (http.ReadAll rs).1 = inr e.

(** ** Requests and outcomes *)

(** A request of the API: method, URL, bearer token and JSON:API content
    type, and a body or none. *)
Definition api_request (method : http.Method) (url tok : string)
    (body : option string) : http.Request :=
  {| http.Method_ := method; http.URL := url;
     http.Header :=
       http.Header_Add "Content-Type" "application/vnd.api+json"
         (http.Header_Add "Authorization" ("Bearer " +:+ tok) ∅);
     http.Body := body |}.

(** [/api/v1/organization/{org}/{kind}] and
    [/api/v1/organization/{org}/{kind}/{id}] under the endpoint. *)
Definition kind_url (endpoint org kind : string) : string :=
  endpoint +:+ "/api/v1/organization/" +:+ org +:+ "/" +:+ kind.

Definition entity_url (endpoint org kind id : string) : string :=
  endpoint +:+ "/api/v1/organization/" +:+ org +:+ "/" +:+ kind +:+ "/" +:+ id.

Definition unmarshal_error (e : error) : diag.Diagnostic :=
  diag.NewErrorDiagnostic "Error unmarshal payload response"
    ("Error unmarshal payload response: " +:+ e).

Section Outcomes.

Context {W S E : Type} `{!Payload E}.

(** How a handler ended: crashed or not, what went over the wire, and what
    [resp.State] holds. *)
Definition ends (c : Ctx W S) (crash : bool)
    (crashes : bool) (exchanges : list Exchange) (state : S) : Prop :=
  crash = crashes ∧ wire c = exchanges ∧ State c = state.

(** [marshal_err] is the error of serialising the request entity as far as
    the handler looks at it, [ds0] the diagnostics of decoding the request,
    [prior] the state the handler was given and [written e] the state it
    stores for a decoded entity [e]. *)
Variable marshal_err : option error.
Variable ds0 : diag.Diagnostics.
Variable prior : S.
Variable written : E → S.

(** The ways a handler that sends the one request [rq] can end. *)
Inductive one_exchange (rq : http.Request) (crash : bool) (c : Ctx W S) : Prop :=
| Rejected :
    ends c crash false [] prior →
    diag.HasError ds0 = true → Diagnostics c = ds0 →
    one_exchange rq crash c
| NotSerialised e :
    ends c crash false [] prior →
    marshal_err = Some e → diag.HasError (Diagnostics c) = true →
    one_exchange rq crash c
| Crashed :
    ends c crash true [] prior →
    marshal_err = None → Diagnostics c = ds0 →
    one_exchange rq crash c
| TransportFailed e :
    ends c crash false [(rq, inl e)] prior →
    marshal_err = None → diag.HasError (Diagnostics c) = true →
    one_exchange rq crash c
| Undecodable rs e :
    ends c crash false [(rq, inr rs)] prior →
    marshal_err = None →
    UnmarshalPayload (E := E) (http.ReadAll rs).1 = inl e →
    Diagnostics c = diag.Append ds0 [unmarshal_error e] →
    one_exchange rq crash c
| Written rs e :
    ends c crash false [(rq, inr rs)] (written e) →
    marshal_err = None →
    UnmarshalPayload (http.ReadAll rs).1 = inr e →
    diag.HasError ds0 = false → Diagnostics c = ds0 →
    one_exchange rq crash c.

(** The ways a handler that sends [patch] and then [get] can end. *)
Inductive two_exchanges (patch get : http.Request) (crash : bool) (c : Ctx W S)
  : Prop :=
| Rejected2 :
    ends c crash false [] prior →
    diag.HasError ds0 = true → Diagnostics c = ds0 →
    two_exchanges patch get crash c
| NotSerialised2 e :
    ends c crash false [] prior →
    marshal_err = Some e → diag.HasError (Diagnostics c) = true →
    two_exchanges patch get crash c
| Crashed2 :
    ends c crash true [] prior →
    marshal_err = None → Diagnostics c = ds0 →
    two_exchanges patch get crash c
| PatchFailed e :
    ends c crash false [(patch, inl e)] prior →
    marshal_err = None → diag.HasError (Diagnostics c) = true →
    two_exchanges patch get crash c
| GetFailed rs1 e :
    ends c crash false [(patch, inr rs1); (get, inl e)] prior →
    marshal_err = None → diag.HasError (Diagnostics c) = true →
    two_exchanges patch get crash c
| Undecodable2 rs1 rs2 e :
    ends c crash false [(patch, inr rs1); (get, inr rs2)] prior →
    marshal_err = None →
    UnmarshalPayload (E := E) (http.ReadAll rs2).1 = inl e →
    unmarshal_error e ∈ Diagnostics c →
    diag.HasError (Diagnostics c) = true →
    two_exchanges patch get crash c
| Written2 rs1 rs2 e :
    ends c crash false [(patch, inr rs1); (get, inr rs2)] (written e) →
    marshal_err = None →
    UnmarshalPayload (http.ReadAll rs2).1 = inr e →
    diag.HasError ds0 = false →
    ((http.ReadAll rs2).2 = None → Diagnostics c = ds0) →
    ((http.ReadAll rs2).2 ≠ None → diag.HasError (Diagnostics c) = true) →
    two_exchanges patch get crash c.

End Outcomes.

(** After the PATCH [p] the handler went on with exactly one GET for the
    same URL, and the state it ends with is the prior one or one that
    [stored] relates to the entity decoded from the response to that GET. *)
Definition reads_back {W S} (E : Type) `{!Payload E} (c : Ctx W S) (prior : S)
    (stored : E → S → Prop) (p : http.Request) (rest : list Exchange) : Prop :=
  http.Method_ p = http.MethodPatch
  ∧ ∃ g res,
      rest = [(g, res)]
      ∧ http.Method_ g = http.MethodGet
      ∧ http.URL g = http.URL p
      ∧ http.Body g = None
      ∧ match res with
        | inl _ => State c = prior
        | inr rs2 =>
            match UnmarshalPayload (E := E) (http.ReadAll rs2).1 with
            | inl _ => State c = prior
            | inr e => stored e (State c)
            end
        end.

(** The state is the team [m] whose name and eight flags are those of the
    entity [e], whose identifier is that of [state] and whose organisation is
    that of [plan]. *)
Definition team_read_back (plan state : TeamResourceModel)
    (e : client.TeamEntity) (s : tfsdk_State TeamResourceModel) : Prop :=
  ∃ m, s = StateValue m
    ∧ Name m = types.StringValue (client.Team_Name e)
    ∧ ManageState m = types.BoolValue (client.Team_ManageState e)
    ∧ ManageWorkspace m = types.BoolValue (client.Team_ManageWorkspace e)
    ∧ ManageModule m = types.BoolValue (client.Team_ManageModule e)
    ∧ ManageProvider m = types.BoolValue (client.Team_ManageProvider e)
    ∧ ManageVcs m = types.BoolValue (client.Team_ManageVcs e)
    ∧ ManageTemplate m = types.BoolValue (client.Team_ManageTemplate e)
    ∧ ManageJob m = types.BoolValue (client.Team_ManageJob e)
    ∧ ManageCollection m = types.BoolValue (client.Team_ManageCollection e)
    ∧ ID m = types.StringValue (types.ValueString (ID state))
    ∧ OrganizationId m = OrganizationId plan.

(** The state is the module [m] whose name, description, provider and source
    are those of the entity [e], whose identifier is that of [state] and
    whose organisation is that of [plan]. *)
Definition module_read_back (plan state : ModuleResourceModel)
    (e : client.ModuleEntity) (s : tfsdk_State ModuleResourceModel) : Prop :=
  ∃ m, s = StateValue m
    ∧ mName m = types.StringValue (client.Module_Name e)
    ∧ mDescription m = types.StringValue (client.Module_Description e)
    ∧ mProviderName m = types.StringValue (client.Module_Provider e)
    ∧ mSource m = types.StringValue (client.Module_Source e)
    ∧ mID m = types.StringValue (types.ValueString (mID state))
    ∧ mOrganizationId m = mOrganizationId plan.

(** A transport or decoding failure leaves the state alone and is reported,
    and the state changes only after a response decoded. *)
Definition fails_safely (E : Type) `{!Payload E} {W S} (prior : S) (c : Ctx W S)
    : Prop :=
  (transport_failed c ∨ decoding_failed E c → reports_and_keeps prior c)
  ∧ (State c ≠ prior → decoding_succeeded E c).

(** Whatever the reading of the body ended with: when the bytes that were
    read decode, the state assigned from the entity is stored and nothing is
    added to the diagnostics [ds0] of decoding the request. *)
Definition decodes_what_was_read (E : Type) `{!Payload E} {W S}
    (ds0 : diag.Diagnostics) (written : E → S) (c : Ctx W S) : Prop :=
  ∀ rq rs e,
    wire c = [(rq, inr rs)] →
    UnmarshalPayload (E := E) (http.ReadAll rs).1 = inr e →
    State c = written e ∧ Diagnostics c = ds0.

(** Every PATCH request on the wire has the body [body]. *)
Definition patch_bodies_are {W S} (body : string) (c : Ctx W S) : Prop :=
  Forall (λ x : Exchange,
            http.Method_ x.1 = http.MethodPatch → http.Body x.1 = Some body)
    (wire c).

(** ** Concrete runs *)

(** The team the provider tracks was deleted on the server; the GET of Read
    is answered with 404 and an empty body. *)
Definition read_deleted_team : Ctx Fake.World (tfsdk_State TeamResourceModel) :=
  exec (TeamResource_Read (Payload0 := Fake.TeamPayload)
          Fake.RoundTrip Fake.url_Parse Fake.team
          {| resource.Read_State := decoded Fake.tracked_team |})
    (begin [Fake.answer 404 ""] (StateValue Fake.tracked_team)).

(** The scenario of the specification: the team "infra-admins" with only
    [manage_job] set is created, and the server echoes it with the fresh
    identifier [t-9]. *)
Definition create_team_request : resource.CreateRequest TeamResourceModel :=
  {| resource.Create_Plan := decoded (TeamResource_plan Fake.team_config) |}.

Definition create_team : Ctx Fake.World (tfsdk_State TeamResourceModel) :=
  exec (TeamResource_Create (Payload0 := Fake.TeamPayload)
          Fake.RoundTrip Fake.url_Parse Fake.team create_team_request)
    (begin [Fake.answer 201 "t-9|infra-admins|00000010"] StateNull).

(** The same, but reading the body of the response ends in an error after
    the whole document arrived. *)
Definition create_team_broken_body
    : Ctx Fake.World (tfsdk_State TeamResourceModel) :=
  exec (TeamResource_Create (Payload0 := Fake.TeamPayload)
          Fake.RoundTrip Fake.url_Parse Fake.team create_team_request)
    (begin [Fake.broken 201 "t-9|infra-admins|00000010" "unexpected EOF"]
       StateNull).

(** The same, but the server cannot be reached. *)
Definition create_team_refused : Ctx Fake.World (tfsdk_State TeamResourceModel) :=
  exec (TeamResource_Create (Payload0 := Fake.TeamPayload)
          Fake.RoundTrip Fake.url_Parse Fake.team create_team_request)
    (begin [inl "dial tcp: connection refused"] StateNull).

(** The tracked team is updated to manage state as well; the PATCH is
    answered with a document that differs from what the GET then returns. *)
Definition planned_team : TeamResourceModel :=
  {| ID := types.StringValue "team1";
     Name := types.StringValue "infra-admins";
     OrganizationId := types.StringValue "org1";
     ManageState := types.BoolValue true;
     ManageWorkspace := types.BoolValue false;
     ManageModule := types.BoolValue false;
     ManageProvider := types.BoolValue false;
     ManageVcs := types.BoolValue false;
     ManageTemplate := types.BoolValue false;
     ManageJob := types.BoolValue true;
     ManageCollection := types.BoolValue false |}.

Definition update_team_request : resource.UpdateRequest TeamResourceModel :=
  {| resource.Update_Plan := decoded planned_team;
     resource.Update_State := decoded Fake.tracked_team |}.

Definition update_team_handler
    : H Fake.World (tfsdk_State TeamResourceModel) unit :=
  TeamResource_Update (Payload0 := Fake.TeamPayload)
    Fake.RoundTrip Fake.url_Parse Fake.team update_team_request.

Definition update_team_start : Ctx Fake.World (tfsdk_State TeamResourceModel) :=
  begin [Fake.answer 200 "team1|patched|01111101";
         Fake.answer 200 "team1|infra-admins|10000010"]
    (StateValue Fake.tracked_team).

Definition update_team : Ctx Fake.World (tfsdk_State TeamResourceModel) :=
  exec update_team_handler update_team_start.

(** The same update, but the server answers the GET with the entity under
    the identifier [team2]. *)
Definition update_team_renumbered
    : Ctx Fake.World (tfsdk_State TeamResourceModel) :=
  exec update_team_handler
    (begin [Fake.answer 200 "team1|patched|01111101";
            Fake.answer 200 "team2|infra-admins|10000010"]
       (StateValue Fake.tracked_team)).

(** The tracked module is renamed and described anew. *)
Definition update_module_request : resource.UpdateRequest ModuleResourceModel :=
  {| resource.Update_Plan := decoded Fake.planned_module;
     resource.Update_State := decoded Fake.tracked_module |}.

Definition update_module : Ctx Fake.World (tfsdk_State ModuleResourceModel) :=
  exec (ModuleResource_Update (Payload0 := Fake.ModulePayload)
          Fake.RoundTrip Fake.url_Parse Fake.module update_module_request)
    (begin [Fake.answer 200 "";
            Fake.answer 200 "mod1|vpc-v2|vpc-v2|aws|https://git.example/vpc.git"]
       (StateValue Fake.tracked_module)).

(** The tracked team is deleted. *)
Definition delete_team : Ctx Fake.World (tfsdk_State TeamResourceModel) :=
  exec (TeamResource_Delete Fake.RoundTrip Fake.url_Parse Fake.team
          {| resource.Delete_State := decoded Fake.tracked_team |})
    (begin [Fake.answer 204 ""] (StateValue Fake.tracked_team)).

(** ** The rest of the two files *)

(** [NewTeamResource] and [NewModuleResource]: the zero resource, with a nil
    client and empty endpoint and token. *)
Definition NewTeamResource : TeamResource :=
  {| client_ := None; endpoint := ""; token := "" |}.

Definition NewModuleResource : ModuleResource :=
  {| mclient := None; mendpoint := ""; mtoken := "" |}.

(** [Metadata]: the type name stored in the response, from the provider
    type name of the request. *)
Definition TeamResource_Metadata (ProviderTypeName : string) : string :=
  ProviderTypeName +:+ "_team".

Definition ModuleResource_Metadata (ProviderTypeName : string) : string :=
  ProviderTypeName +:+ "_module".

(** ** Further statements about a run *)

(** The request of a Delete: bearer token, no content type, no body. *)
Definition delete_request (url tok : string) : http.Request :=
  {| http.Method_ := http.MethodDelete; http.URL := url;
     http.Header := http.Header_Add "Authorization" ("Bearer " +:+ tok) ∅;
     http.Body := None |}.

(** The handler [m] started in [c0] crashes before it sends anything, with
    the state it was given and the diagnostics [ds0]. *)
Definition crashes_before_sending {W S A} (m : H W S A) (c0 : Ctx W S)
    (ds0 : diag.Diagnostics) : Prop :=
  crashed m c0 = true
  ∧ wire (exec m c0) = []
  ∧ State (exec m c0) = State c0
  ∧ Diagnostics (exec m c0) = ds0.

(** The handler [m] started in [c0] returns without sending anything, with
    the state it was given and the diagnostics [ds0]. *)
Definition returns_before_sending {W S A} (m : H W S A) (c0 : Ctx W S)
    (ds0 : diag.Diagnostics) : Prop :=
  crashed m c0 = false
  ∧ wire (exec m c0) = []
  ∧ State (exec m c0) = State c0
  ∧ Diagnostics (exec m c0) = ds0.

(** The value is known (neither null nor unknown). *)
Definition known_String (v : types.String) : Prop :=
  v = types.StringValue (types.ValueString v).

Definition known_Bool (v : types.Bool) : Prop :=
  v = types.BoolValue (types.ValueBool v).

(** All eight permission flags of the model are known. *)
Definition known_flags (m : TeamResourceModel) : Prop :=
  known_Bool (ManageState m) ∧ known_Bool (ManageWorkspace m)
  ∧ known_Bool (ManageModule m) ∧ known_Bool (ManageProvider m)
  ∧ known_Bool (ManageVcs m) ∧ known_Bool (ManageTemplate m)
  ∧ known_Bool (ManageJob m) ∧ known_Bool (ManageCollection m).

(** The entity with another identifier. *)
Definition TeamEntity_with_ID (id : string) (e : client.TeamEntity)
    : client.TeamEntity :=
  {| client.Team_ID := id; client.Team_Name := client.Team_Name e;
     client.Team_ManageState := client.Team_ManageState e;
     client.Team_ManageWorkspace := client.Team_ManageWorkspace e;
     client.Team_ManageModule := client.Team_ManageModule e;
     client.Team_ManageProvider := client.Team_ManageProvider e;
     client.Team_ManageVcs := client.Team_ManageVcs e;
     client.Team_ManageTemplate := client.Team_ManageTemplate e;
     client.Team_ManageJob := client.Team_ManageJob e;
     client.Team_ManageCollection := client.Team_ManageCollection e |}.

Definition ModuleEntity_with_ID (id : string) (e : client.ModuleEntity)
    : client.ModuleEntity :=
  {| client.Module_ID := id; client.Module_Name := client.Module_Name e;
     client.Module_Description := client.Module_Description e;
     client.Module_Provider := client.Module_Provider e;
     client.Module_Source := client.Module_Source e |}.

(** The model with another identifier. *)
Definition TeamResourceModel_with_ID (id : types.String) (m : TeamResourceModel)
    : TeamResourceModel :=
  {| ID := id; Name := Name m; OrganizationId := OrganizationId m;
     ManageState := ManageState m; ManageWorkspace := ManageWorkspace m;
     ManageModule := ManageModule m; ManageProvider := ManageProvider m;
     ManageVcs := ManageVcs m; ManageTemplate := ManageTemplate m;
     ManageJob := ManageJob m; ManageCollection := ManageCollection m |}.

Definition ModuleResourceModel_with_ID (id : types.String)
    (m : ModuleResourceModel) : ModuleResourceModel :=
  {| mID := id; mName := mName m; mOrganizationId := mOrganizationId m;
     mDescription := mDescription m; mProviderName := mProviderName m;
     mSource := mSource m |}.

(** The last character of a string, if it has one. *)
Fixpoint last_char (s : string) : option ascii :=
  match s with
  | EmptyString => None
  | String c EmptyString => Some c
  | String _ rest => last_char rest
  end.

(** Every value logged under a field is ["true"] or the bytes read from the
    body of a response that is on the wire. *)
Definition logs_only_response_bodies {W S} (c : Ctx W S) : Prop :=
  ∀ entry k v,
    entry ∈ log c → (k, v) ∈ tflog.fields entry →
    v = "true" ∨ ∃ rq rs, (rq, inr rs) ∈ wire c ∧ v = (http.ReadAll rs).1.

(** Every failure to read the body of a response on the wire left an entry
    of level Error in the log or an error among the diagnostics. *)
Definition read_failures_noticed {W S} (c : Ctx W S) : Prop :=
  ∀ rq rs,
    (rq, inr rs) ∈ wire c → (http.ReadAll rs).2 ≠ None →
    (∃ entry, entry ∈ log c ∧ tflog.level entry = tflog.Error)
    ∨ diag.HasError (Diagnostics c) = true.

(** ** Further test doubles and runs *)

(** A URL parser that rejects a URL with a space in it, as [url.Parse] does
    for a space in the host name. *)
Definition no_space_url_Parse (url : string) : option error :=
  if occurs " "%char url then Some "parse: invalid character in host name" else None.

(** A team resource whose endpoint has a space in its host name. *)
Definition misconfigured_team : TeamResource :=
  {| client_ := Some {| http.Transport_ := None |};
     endpoint := "https://terra kube.example"; token := "secret" |}.


(** The module that an import of ["mod1"] leaves in the state: only the
    identifier is set. *)
Definition imported_module : ModuleResourceModel :=
  {| mID := types.StringValue "mod1";
     mName := types.StringNull;
     mOrganizationId := types.StringNull;
     mDescription := types.StringNull;
     mProviderName := types.StringNull;
     mSource := types.StringNull |}.

(** The tracked team is updated, and reading the body of the response to
    the GET breaks off after the whole document. *)
Definition update_team_broken_body
    : Ctx Fake.World (tfsdk_State TeamResourceModel) :=
  exec update_team_handler
    (begin [Fake.answer 200 "";
            Fake.broken 200 "team1|infra-admins|10000010" "unexpected EOF"]
       (StateValue Fake.tracked_team)).

(** The tracked team is refreshed after it was renamed on the server. *)
Definition read_renamed_team : Ctx Fake.World (tfsdk_State TeamResourceModel) :=
  exec (TeamResource_Read (Payload0 := Fake.TeamPayload)
          Fake.RoundTrip Fake.url_Parse Fake.team
          {| resource.Read_State := decoded Fake.tracked_team |})
    (begin [Fake.answer 200 "team9|platform-admins|00000010"]
       (StateValue Fake.tracked_team)).

(** The tracked team is deleted, and the server answers with an error
    status. *)
Definition delete_team_handler
    : H Fake.World (tfsdk_State TeamResourceModel) unit :=
  TeamResource_Delete Fake.RoundTrip Fake.url_Parse Fake.team
    {| resource.Delete_State := decoded Fake.tracked_team |}.

Definition delete_team_server_error
    : Ctx Fake.World (tfsdk_State TeamResourceModel) :=
  exec delete_team_handler
    (begin [Fake.answer 500 "internal server error"]
       (StateValue Fake.tracked_team)).

(** A plan that the framework could not decode into the model. *)
Definition undecoded_plan : Decoded TeamResourceModel :=
  {| value := Fake.tracked_team;
     diags := [diag.NewErrorDiagnostic "Value Conversion Error"
                 "An unexpected error was encountered trying to build a value."] |}.

(** The request of a Read of the tracked team. *)
Definition read_team_request : resource.ReadRequest TeamResourceModel :=
  {| resource.Read_State := decoded Fake.tracked_team |}.

Definition nil_provider_data : resource.ConfigureRequest :=
  {| resource.Configure_ProviderData := resource.ProviderData_nil |}.


(** All four strings of the module model are known. *)
Definition known_strings (m : ModuleResourceModel) : Prop :=
  known_String (mName m) ∧ known_String (mDescription m)
  ∧ known_String (mProviderName m) ∧ known_String (mSource m).

(** The module is created as planned, and the server echoes it with the
    identifier [mod7]. *)
Definition create_module : Ctx Fake.World (tfsdk_State ModuleResourceModel) :=
  exec (ModuleResource_Create (Payload0 := Fake.ModulePayload)
          Fake.RoundTrip Fake.url_Parse Fake.module
          {| resource.Create_Plan := decoded Fake.planned_module |})
    (begin [Fake.answer 201
              "mod7|vpc-v2|network module, second version|aws|https://git.example/vpc.git"]
       StateNull).

(** The imported module is refreshed. *)
Definition read_imported_module
    : Ctx Fake.World (tfsdk_State ModuleResourceModel) :=
  exec (ModuleResource_Read (Payload0 := Fake.ModulePayload)
          Fake.RoundTrip Fake.url_Parse Fake.module
          {| resource.Read_State := decoded imported_module |})
    (begin [Fake.answer 404 ""] (StateValue imported_module)).

(** * Properties *)

(** ** Diagnostics *)

Lemma HasError_AddError summary detail ds :
  diag.HasError (diag.AddError summary detail ds) = true.
Proof.
  unfold diag.AddError, diag.HasError. simpl. case_decide as Hin.
  - apply existsb_exists. exists (diag.NewErrorDiagnostic summary detail).
    split; [by apply list_elem_of_In | done].
  - rewrite existsb_app. simpl. by rewrite orb_true_r.
Qed.

Lemma elem_of_AddError summary detail ds :
  diag.NewErrorDiagnostic summary detail ∈ diag.AddError summary detail ds.
Proof.
  unfold diag.AddError. simpl. case_decide; [done | set_solver].
Qed.

Arguments diag.AddError : simpl never.
Arguments http.Header_Add : simpl never.

(** ** Symbolic execution of a handler

    [run] unfolds the monad and the primitives in the goal; [paths] then
    splits on every test the handler makes, innermost first, which leaves
    one goal per path through the handler. *)
Ltac run :=
  unfold exec, crashed, begin, decoded;
  repeat (progress unfold bind, Get, when, if_err, Diagnostics_Append,
            Diagnostics_AddError, Diagnostics_HasError, tflog_write,
            State_Set, State_SetAttribute, http_NewRequest,
            Request_Header_Add, Client_Do, io_ReadAll,
            jsonapi_UnmarshalPayload, ret, Return, panic);
  simpl.

Ltac step :=
  match goal with
  | |- context [match ?x with _ => _ end] =>
      lazymatch x with
      | context [match _ with _ => _ end] => fail
      | _ => destruct x eqn:?
      end
  end.

Ltac paths := run; repeat (step; run).

(** ** Configure *)

(** C10: whatever connection context is supplied, the client that
    [ModuleResource.Configure] builds has [InsecureSkipVerify] set, also when
    the context's [InsecureHttpClient] flag is false (and when
    [http.DefaultTransport] is no [*http.Transport] the unchecked assertion
    crashes before any client is built); the client that
    [TeamResource.Configure] builds has it set only when the flag is true
    (and [http.DefaultTransport] is a [*http.Transport]). *)
Theorem C10_configure_tls_verification :
  ∀ (W : Type) (w : W) (d : TerrakubeConnectionData)
    (t : http.Transport) (dt : http.RoundTripper)
    (m0 : ModuleResource) (t0 : TeamResource),
    let req := {| resource.Configure_ProviderData := resource.ProviderData_conn d |} in
    (∃ cl,
        mclient (State (exec (ModuleResource_Configure (http.IsTransport t) req)
                          (begin w m0))) = Some cl
        ∧ Client_InsecureSkipVerify cl = true)
    ∧ crashed (ModuleResource_Configure http.OtherRoundTripper req) (begin w m0) = true
    ∧ (∃ cl,
        client_ (State (exec (TeamResource_Configure dt req) (begin w t0))) = Some cl
        ∧ Client_InsecureSkipVerify cl = InsecureHttpClient d && is_Transport dt).
Proof.
  intros W w d t dt m0 t0 req. repeat split.
  - eexists. split; reflexivity.
  - unfold TeamResource_Configure. simpl.
    destruct (InsecureHttpClient d), dt; eexists; split; reflexivity.
Qed.

(** The same on a context whose flag is false: the module client skips
    verification, the team client does not. *)
Example Configure_flag_false :
  let d := {| Endpoint := "https://terrakube.example"; Token := "secret";
              InsecureHttpClient := false |} in
  let req := {| resource.Configure_ProviderData := resource.ProviderData_conn d |} in
  let dt := http.IsTransport {| http.TLSClientConfig := None |} in
  (Client_InsecureSkipVerify <$>
     mclient (State (exec (ModuleResource_Configure dt req) (begin tt Fake.module))))
    = Some true
  ∧ (Client_InsecureSkipVerify <$>
       client_ (State (exec (TeamResource_Configure dt req) (begin tt Fake.team))))
    = Some false.
Proof. split; reflexivity. Qed.

(** ** Outbound mapping *)

(** C6: in the request entity of the module [Update], the description is
    filled from the plan's name, not from the plan's description: for the
    plan that renames the module to "vpc-v2" and describes it as "network
    module, second version", the entity sent has the description "vpc-v2",
    and so has the body of the PATCH request.  ([Create] copies the
    description from the plan's description.) *)
Theorem C6_module_update_description_is_plan_name :
  client.Module_Description
    (ModuleResource_Update_bodyRequest Fake.planned_module Fake.tracked_module)
    = "vpc-v2"
  ∧ types.ValueString (mDescription Fake.planned_module)
    = "network module, second version"
  ∧ client.Module_Description (ModuleResource_Create_bodyRequest Fake.planned_module)
    = "network module, second version"
  ∧ (∀ plan state,
      client.Module_Description (ModuleResource_Update_bodyRequest plan state)
      = types.ValueString (mName plan))
  ∧ (http.Method_ <$> (fst <$> head (wire update_module)) = Some http.MethodPatch
     ∧ http.Body <$> (fst <$> head (wire update_module))
       = Some (Some "mod1|vpc-v2|vpc-v2|aws|https://git.example/vpc.git")).
Proof. repeat split. Qed.

(** ** Import *)

Section Split.

Variable sep : ascii.

Lemma strings_Split_nonempty s : strings_Split s sep ≠ [].
Proof.
  destruct s as [|c rest]; simpl; [done|].
  case_decide; [done|]. by destruct (strings_Split rest sep).
Qed.

(** A string without the separator is its own single piece. *)
Lemma strings_Split_none s :
  occurs sep s = false → strings_Split s sep = [s].
Proof.
  induction s as [|c rest IH]; simpl; [done|].
  intros [Hc Hrest]%orb_false_elim. apply bool_decide_eq_false in Hc.
  case_decide; [done|]. by rewrite IH.
Qed.

(** The first separator ends the first piece. *)
Lemma strings_Split_app a b :
  occurs sep a = false →
  strings_Split (a +:+ String sep b) sep = a :: strings_Split b sep.
Proof.
  induction a as [|c rest IH]; simpl.
  - intros _. by rewrite decide_True.
  - intros [Hc Hrest]%orb_false_elim. apply bool_decide_eq_false in Hc.
    case_decide; [done|]. by rewrite IH.
Qed.

(** A single piece is the whole string, and has no separator. *)
Lemma strings_Split_one s a :
  strings_Split s sep = [a] → s = a ∧ occurs sep a = false.
Proof.
  revert a. induction s as [|c rest IH]; simpl; intros a Hs.
  - by simplify_eq.
  - case_decide as Hc.
    + simplify_eq. by destruct (strings_Split_nonempty rest).
    + destruct (strings_Split rest sep) as [|piece pieces] eqn:Hrest;
        [by apply strings_Split_nonempty in Hrest|].
      injection Hs as <- ->.
      destruct (IH piece eq_refl) as [-> Hno]. split; [done|].
      simpl. rewrite Hno. by rewrite bool_decide_eq_false_2.
Qed.

(** Two pieces are the two sides of the only separator. *)
Lemma strings_Split_two s a b :
  strings_Split s sep = [a; b] →
  s = a +:+ String sep b ∧ occurs sep a = false ∧ occurs sep b = false.
Proof.
  revert a. induction s as [|c rest IH]; simpl; intros a Hs; [done|].
  case_decide as Hc.
  - simplify_eq. by destruct (strings_Split_one rest b) as [-> ?].
  - destruct (strings_Split rest sep) as [|piece pieces] eqn:Hrest;
      [by apply strings_Split_nonempty in Hrest|].
    injection Hs as <- ->.
    destruct (IH piece eq_refl) as (-> & Ha & Hb). repeat split; [|done].
    simpl. rewrite Ha. by rewrite bool_decide_eq_false_2.
Qed.

End Split.

Lemma strings_Split_import_parts s org id :
  import_parts s org id → strings_Split s comma = [org; id].
Proof.
  intros (-> & _ & _ & Horg & Hid).
  change ("," +:+ id) with (String comma id).
  rewrite strings_Split_app by done. by rewrite strings_Split_none.
Qed.

(** C5: the team import does what the claim says and the module import
    does not.  The team import splits the import string on commas; when the
    string is [org,id] with both parts non-empty and no further comma it
    reports nothing and seeds the state with exactly [organization_id = org]
    and [id = id], and in every other case it reports the "Unexpected Import
    Identifier" error and seeds nothing.  The module import departs from it
    on every import string: it hands the string unsplit to the framework, so
    nothing is reported, the whole string is stored under [id] and
    [organization_id] is never seeded. *)
Theorem C5_import_identifier :
  ∀ (W : Type) (w : W) (quote : string → string) (s : string),
    let req := {| resource.Import_ID := s |} in
    let team := exec (TeamResource_ImportState quote req) (begin w ∅) in
    let module := exec (ModuleResource_ImportState req) (begin w ∅) in
    (∀ org id, import_parts s org id →
       Diagnostics team = []
       ∧ State team = <["id" := id]> (<["organization_id" := org]> ∅))
    ∧ ((∀ org id, ¬ import_parts s org id) →
       Diagnostics team =
         [diag.NewErrorDiagnostic "Unexpected Import Identifier"
            ("Expected import identifier with format: 'organization_ID,ID', Got: "
             +:+ quote s)]
       ∧ State team = ∅)
    ∧ Diagnostics module = []
    ∧ State module = <["id" := s]> ∅.
Proof.
  intros W w quote s req team module. subst team module req.
  unfold TeamResource_ImportState, ModuleResource_ImportState,
    resource_ImportStatePassthroughID.
  split; [|split; [|done]].
  - intros org id Hparts.
    pose proof Hparts as (_ & Horg & Hid & _).
    simpl. rewrite (strings_Split_import_parts _ _ _ Hparts). simpl.
    rewrite !bool_decide_eq_false_2 by done. done.
  - intros Hnone. simpl.
    destruct (strings_Split s comma) as [|a [|b [|x rest]]] eqn:Hsplit;
      try done.
    destruct (decide (a = "")) as [->|Ha]; [done|].
    destruct (decide (b = "")) as [->|Hb].
    { simpl. by rewrite bool_decide_eq_false_2. }
    destruct (Hnone a b).
    destruct (strings_Split_two _ _ _ _ Hsplit) as (-> & ? & ?). by repeat split.
Qed.

(** The three import strings of the specification, on the team import. *)
Example TeamResource_ImportState_examples :
  let run s :=
    exec (TeamResource_ImportState Fake.strconv_Quote {| resource.Import_ID := s |})
      (begin tt ∅) in
  (Diagnostics (run "org1,team1") = []
   ∧ State (run "org1,team1") !! "organization_id" = Some "org1"
   ∧ State (run "org1,team1") !! "id" = Some "team1")
  ∧ (diag.HasError (Diagnostics (run "org1")) = true ∧ State (run "org1") = ∅)
  ∧ (diag.HasError (Diagnostics (run "org1,")) = true ∧ State (run "org1,") = ∅).
Proof. vm_compute. repeat split. Qed.

(** C5 at "org1,team1". *)
Lemma C5_import_identifier_witness :
  let team :=
    exec (TeamResource_ImportState Fake.strconv_Quote
            {| resource.Import_ID := "org1,team1" |}) (begin tt ∅) in
  Diagnostics team = []
  ∧ State team = <["id" := "team1"]> (<["organization_id" := "org1"]> ∅).
Proof.
  apply (proj1 (C5_import_identifier unit tt Fake.strconv_Quote "org1,team1")
           "org1" "team1").
  unfold import_parts. repeat split; (reflexivity || discriminate).
Defined.

(** The three import strings of the specification, on the module import:
    "org1" and "org1," are accepted, and no organisation comes out of
    "org1,team1". *)
Example ModuleResource_ImportState_examples :
  let run s :=
    exec (ModuleResource_ImportState {| resource.Import_ID := s |})
      (begin tt ∅) in
  ((∀ org id, ¬ import_parts "org1" org id)
   ∧ diag.HasError (Diagnostics (run "org1")) = false
   ∧ State (run "org1") !! "id" = Some "org1"
   ∧ State (run "org1") !! "organization_id" = None)
  ∧ (diag.HasError (Diagnostics (run "org1,")) = false
     ∧ State (run "org1,") !! "id" = Some "org1,"
     ∧ State (run "org1,") !! "organization_id" = None)
  ∧ (Diagnostics (run "org1,team1") = []
     ∧ State (run "org1,team1") !! "id" = Some "org1,team1"
     ∧ State (run "org1,team1") !! "organization_id" = None).
Proof.
  split; [split|]; [|vm_compute; by repeat split..].
  intros org id Hparts. apply strings_Split_import_parts in Hparts.
  vm_compute in Hparts. discriminate.
Qed.

(** ** How the handlers end *)

Ltac use_ReadAll :=
  repeat match goal with
         | E : http.ReadAll _ = _ |- _ => rewrite E in *; clear E
         end;
  simpl in *.

(** One constructor of the outcome fits each path. *)
Ltac outcome :=
  paths; simplify_eq;
  solve [ econstructor;
          first [ by (unfold ends; repeat split)
                | eassumption
                | reflexivity
                | apply HasError_AddError
                | by (unfold unmarshal_error; apply elem_of_AddError)
                | by (intros; use_ReadAll; try apply HasError_AddError) ] ].

Section Outcome_lemmas.

Context {W : Type}.
Variable RoundTrip : W -> http.Client -> http.Request -> W * (error + http.Response).
Variable url_Parse : string -> option error.
Context `{!Payload client.TeamEntity} `{!Payload client.ModuleEntity}.
Variable w : W.

Lemma TeamResource_Create_outcome r req prior
    (plan := value (resource.Create_Plan req))
    (sent := MarshalPayload (TeamResource_Create_bodyRequest plan))
    (h := TeamResource_Create RoundTrip url_Parse r req) :
  one_exchange sent.2 (diag.Append [] (diags (resource.Create_Plan req)))
    prior (λ e, StateValue (TeamResource_Create_assign plan e))
    (api_request http.MethodPost
       (kind_url (endpoint r) (types.ValueString (OrganizationId plan)) "team")
       (token r) (Some sent.1))
    (crashed h (begin w prior)) (exec h (begin w prior)).
Proof.
  subst h plan sent. unfold TeamResource_Create, api_request, kind_url.
  outcome.
Qed.

Lemma TeamResource_Read_outcome r req prior
    (state := value (resource.Read_State req))
    (h := TeamResource_Read RoundTrip url_Parse r req) :
  one_exchange None (diag.Append [] (diags (resource.Read_State req)))
    prior (λ e, StateValue (TeamResource_Read_assign state e))
    (api_request http.MethodGet
       (entity_url (endpoint r) (types.ValueString (OrganizationId state))
          "team" (types.ValueString (ID state)))
       (token r) None)
    (crashed h (begin w prior)) (exec h (begin w prior)).
Proof.
  subst h state. unfold TeamResource_Read, api_request, entity_url.
  outcome.
Qed.

Lemma TeamResource_Update_outcome r req prior
    (plan := value (resource.Update_Plan req))
    (state := value (resource.Update_State req))
    (sent := MarshalPayload (TeamResource_Update_bodyRequest plan state))
    (url := entity_url (endpoint r) (types.ValueString (OrganizationId state))
              "team" (types.ValueString (ID state)))
    (h := TeamResource_Update RoundTrip url_Parse r req) :
  two_exchanges sent.2
    (diag.Append (diag.Append [] (diags (resource.Update_State req)))
       (diags (resource.Update_Plan req)))
    prior (λ e, StateValue (TeamResource_Update_assign plan state e))
    (api_request http.MethodPatch url (token r) (Some sent.1))
    (api_request http.MethodGet url (token r) None)
    (crashed h (begin w prior)) (exec h (begin w prior)).
Proof.
  subst h plan state sent url. unfold TeamResource_Update, api_request, entity_url.
  outcome.
Qed.

Lemma ModuleResource_Create_outcome r req prior
    (plan := value (resource.Create_Plan req))
    (sent := MarshalPayload (ModuleResource_Create_bodyRequest plan))
    (h := ModuleResource_Create RoundTrip url_Parse r req) :
  one_exchange None (diag.Append [] (diags (resource.Create_Plan req)))
    prior (λ e, StateValue (ModuleResource_Create_assign plan e))
    (api_request http.MethodPost
       (kind_url (mendpoint r) (types.ValueString (mOrganizationId plan)) "module")
       (mtoken r) (Some sent.1))
    (crashed h (begin w prior)) (exec h (begin w prior)).
Proof.
  subst h plan sent. unfold ModuleResource_Create, api_request, kind_url.
  outcome.
Qed.

Lemma ModuleResource_Read_outcome r req prior
    (state := value (resource.Read_State req))
    (h := ModuleResource_Read RoundTrip url_Parse r req) :
  one_exchange None (diag.Append [] (diags (resource.Read_State req)))
    prior (λ e, StateValue (ModuleResource_Read_assign state e))
    (api_request http.MethodGet
       (entity_url (mendpoint r) (types.ValueString (mOrganizationId state))
          "module" (types.ValueString (mID state)))
       (mtoken r) None)
    (crashed h (begin w prior)) (exec h (begin w prior)).
Proof.
  subst h state. unfold ModuleResource_Read, api_request, entity_url.
  outcome.
Qed.

Lemma ModuleResource_Update_outcome r req prior
    (plan := value (resource.Update_Plan req))
    (state := value (resource.Update_State req))
    (sent := MarshalPayload (ModuleResource_Update_bodyRequest plan state))
    (url := entity_url (mendpoint r) (types.ValueString (mOrganizationId state))
              "module" (types.ValueString (mID state)))
    (h := ModuleResource_Update RoundTrip url_Parse r req) :
  two_exchanges None
    (diag.Append (diag.Append [] (diags (resource.Update_State req)))
       (diags (resource.Update_Plan req)))
    prior (λ e, StateValue (ModuleResource_Update_assign plan state e))
    (api_request http.MethodPatch url (mtoken r) (Some sent.1))
    (api_request http.MethodGet url (mtoken r) None)
    (crashed h (begin w prior)) (exec h (begin w prior)).
Proof.
  subst h plan state sent url.
  unfold ModuleResource_Update, api_request, entity_url.
  outcome.
Qed.

End Outcome_lemmas.

(** ** Reading an outcome *)

Lemma HasError_unmarshal_error ds e :
  diag.HasError (diag.Append ds [unmarshal_error e]) = true.
Proof. apply (HasError_AddError _ _ ds). Qed.

Lemma elem_of_unmarshal_error ds e :
  unmarshal_error e ∈ diag.Append ds [unmarshal_error e].
Proof. apply (elem_of_AddError _ _ ds). Qed.

Lemma api_request_headers method url tok body
    (rq := api_request method url tok body) :
  carries rq "Authorization" ("Bearer " +:+ tok)
  ∧ carries rq "Content-Type" "application/vnd.api+json".
Proof.
  subst rq. unfold carries, api_request, http.Header_Add. simpl.
  by simplify_map_eq.
Qed.

(** Case analysis on an outcome: one goal per way of ending, with the wire,
    the state and the crash flag of that ending rewritten everywhere. *)
Ltac ending H :=
  destruct H as [ [-> [Hwire Hstate]] ? ?
                | ? [-> [Hwire Hstate]] ? ?
                | [-> [Hwire Hstate]] ? ?
                | ? [-> [Hwire Hstate]] ? ?
                | ? ? [-> [Hwire Hstate]] ? Hdecode Hdiags
                | ? ? [-> [Hwire Hstate]] ? Hdecode ? Hdiags ];
  rewrite ?Hwire, ?Hstate in *.

Ltac ending2 H :=
  destruct H as [ [-> [Hwire Hstate]] ? ?
                | ? [-> [Hwire Hstate]] ? ?
                | [-> [Hwire Hstate]] ? ?
                | ? [-> [Hwire Hstate]] ? ?
                | ? ? [-> [Hwire Hstate]] ? ?
                | ? ? ? [-> [Hwire Hstate]] ? Hdecode ? ?
                | ? ? ? [-> [Hwire Hstate]] ? Hdecode ? Hclean Hbroken ];
  rewrite ?Hwire, ?Hstate in *.

Ltac on_wire H :=
  simpl in H;
  repeat match type of H with
         | _ ∈ _ :: _ => apply elem_of_cons in H as [H|H]
         | _ ∈ [] => by apply elem_of_nil in H
         end;
  simplify_eq.

Section Reading.

Context {W S E : Type} `{!Payload E}.
Implicit Types (c : Ctx W S) (prior : S) (written : E → S).

(** *** One exchange *)

Lemma one_exchange_undecodable me ds0 prior written rq crash c rq' rs e :
  one_exchange me ds0 prior written rq crash c →
  wire c = [(rq', inr rs)] →
  UnmarshalPayload (E := E) (http.ReadAll rs).1 = inl e →
  State c = prior ∧ unmarshal_error e ∈ Diagnostics c
  ∧ diag.HasError (Diagnostics c) = true.
Proof.
  intros Hout Hw Hdec. ending Hout; simplify_eq; [|congruence].
  assert (e0 = e) as -> by congruence.
  rewrite Hdiags. split; [done|].
  split; [apply elem_of_unmarshal_error | apply HasError_unmarshal_error].
Qed.

Lemma one_exchange_state me ds0 prior written rq crash c :
  one_exchange me ds0 prior written rq crash c →
  State c = prior ∨ ∃ e, State c = written e.
Proof. intros Hout. ending Hout; eauto. Qed.

Lemma one_exchange_decoded me ds0 prior written rq crash c rq' rs e :
  one_exchange me ds0 prior written rq crash c →
  wire c = [(rq', inr rs)] →
  UnmarshalPayload (E := E) (http.ReadAll rs).1 = inr e →
  rq' = rq ∧ State c = written e ∧ Diagnostics c = ds0
  ∧ diag.HasError ds0 = false ∧ crash = false.
Proof.
  intros Hout Hw Hdec. ending Hout; simplify_eq; [congruence|].
  assert (e0 = e) as -> by congruence. done.
Qed.

Lemma one_exchange_failure me ds0 prior written rq crash c :
  one_exchange me ds0 prior written rq crash c →
  transport_failed c ∨ decoding_failed E c →
  reports_and_keeps prior c.
Proof.
  unfold transport_failed, decoding_failed, reports_and_keeps.
  intros Hout [(rq' & e' & Hin) | (rq' & rs' & e' & Hlast & Hdec)];
    ending Hout; try on_wire Hin; simpl in *; simplify_eq;
    try (split; [done|]); try done.
  - rewrite Hdiags. apply HasError_unmarshal_error.
  - congruence.
Qed.

Lemma one_exchange_marshal_failure e ds0 prior written rq crash c :
  one_exchange (Some e) ds0 prior written rq crash c →
  reports_and_keeps prior c ∧ wire c = [].
Proof.
  unfold reports_and_keeps.
  intros Hout. ending Hout; simplify_eq; repeat split; congruence.
Qed.

Lemma one_exchange_written me ds0 prior written rq crash c :
  one_exchange me ds0 prior written rq crash c →
  State c ≠ prior → decoding_succeeded E c.
Proof.
  unfold decoding_succeeded.
  intros Hout Hne. ending Hout; try done. eauto.
Qed.

Lemma one_exchange_headers me ds0 prior written method url tok body crash c :
  one_exchange me ds0 prior written (api_request method url tok body) crash c →
  all_with_both_headers tok c.
Proof.
  unfold all_with_both_headers.
  intros Hout. ending Hout; repeat constructor; apply api_request_headers.
Qed.

(** *** Two exchanges *)

Lemma two_exchanges_read_back me ds0 prior written patch get crash c p rs1 rest :
  two_exchanges me ds0 prior written patch get crash c →
  wire c = (p, inr rs1) :: rest →
  p = patch
  ∧ ∃ res, rest = [(get, res)]
      ∧ match res with
        | inl _ => State c = prior
        | inr rs2 =>
            match UnmarshalPayload (E := E) (http.ReadAll rs2).1 with
            | inl _ => State c = prior
            | inr e => State c = written e
            end
        end.
Proof.
  intros Hout Hw. ending2 Hout; simplify_eq; (split; [done|]);
    eexists; (split; [done|]); simpl; by rewrite ?Hdecode.
Qed.

Lemma two_exchanges_failure me ds0 prior written patch get crash c :
  two_exchanges me ds0 prior written patch get crash c →
  transport_failed c ∨ decoding_failed E c →
  reports_and_keeps prior c.
Proof.
  unfold transport_failed, decoding_failed, reports_and_keeps.
  intros Hout [(rq' & e' & Hin) | (rq' & rs' & e' & Hlast & Hdec)];
    ending2 Hout; try on_wire Hin; simpl in *; simplify_eq;
    try (split; [done|]); try done.
  congruence.
Qed.

Lemma two_exchanges_marshal_failure e ds0 prior written patch get crash c :
  two_exchanges (Some e) ds0 prior written patch get crash c →
  reports_and_keeps prior c ∧ wire c = [].
Proof.
  unfold reports_and_keeps.
  intros Hout. ending2 Hout; simplify_eq; repeat split; congruence.
Qed.

Lemma two_exchanges_written me ds0 prior written patch get crash c :
  two_exchanges me ds0 prior written patch get crash c →
  State c ≠ prior → decoding_succeeded E c.
Proof.
  unfold decoding_succeeded.
  intros Hout Hne. ending2 Hout; try done. eauto.
Qed.

Lemma two_exchanges_success me ds0 prior written patch get crash c :
  two_exchanges me ds0 prior written patch get crash c →
  crash = false → diag.HasError (Diagnostics c) = false →
  ∃ rs1 rs2 e,
    wire c = [(patch, inr rs1); (get, inr rs2)]
    ∧ UnmarshalPayload (E := E) (http.ReadAll rs2).1 = inr e
    ∧ State c = written e.
Proof.
  intros Hout Hcrash Hok. ending2 Hout; simplify_eq; try congruence.
  eauto 6.
Qed.

Lemma two_exchanges_headers me ds0 prior written m1 m2 url tok b1 b2 crash c :
  two_exchanges me ds0 prior written
    (api_request m1 url tok b1) (api_request m2 url tok b2) crash c →
  all_with_both_headers tok c.
Proof.
  unfold all_with_both_headers.
  intros Hout. ending2 Hout; repeat constructor; apply api_request_headers.
Qed.

Lemma two_exchanges_patch_body me ds0 prior written url tok body crash c :
  two_exchanges me ds0 prior written
    (api_request http.MethodPatch url tok (Some body))
    (api_request http.MethodGet url tok None) crash c →
  Forall (λ x : Exchange,
            http.Method_ x.1 = http.MethodPatch → http.Body x.1 = Some body)
    (wire c).
Proof.
  intros Hout. ending2 Hout; repeat constructor; done.
Qed.

End Reading.

(** ** Read *)

(** C1 (amended): Read of either kind never looks at the status of the
    response and has no not-found signal of its own: it ends with the state
    it was given or with a state value, never with the resource removed.
    When the GET for the tracked identifier brings a not-found response
    whose body does not decode as an entity, Read reports the "Error
    unmarshal payload response" error and leaves the state as it was. *)
Theorem C1_read_not_found_reports_decoding_error :
  ∀ (W : Type)
    (RoundTrip : W → http.Client → http.Request → W * (error + http.Response))
    (url_Parse : string → option error)
    (PT : Payload client.TeamEntity) (PM : Payload client.ModuleEntity)
    (w : W) (tr : TeamResource) (mr : ModuleResource)
    (treq : resource.ReadRequest TeamResourceModel)
    (mreq : resource.ReadRequest ModuleResourceModel)
    (tprior : tfsdk_State TeamResourceModel)
    (mprior : tfsdk_State ModuleResourceModel),
    let tc := exec (TeamResource_Read RoundTrip url_Parse tr treq) (begin w tprior) in
    let mc := exec (ModuleResource_Read RoundTrip url_Parse mr mreq) (begin w mprior) in
    (∀ rq rs e,
        wire tc = [(rq, inr rs)] → http.StatusCode rs = 404%Z →
        UnmarshalPayload (E := client.TeamEntity) (http.ReadAll rs).1 = inl e →
        State tc = tprior ∧ unmarshal_error e ∈ Diagnostics tc
        ∧ diag.HasError (Diagnostics tc) = true)
    ∧ (State tc = tprior ∨ ∃ m, State tc = StateValue m)
    ∧ (∀ rq rs e,
        wire mc = [(rq, inr rs)] → http.StatusCode rs = 404%Z →
        UnmarshalPayload (E := client.ModuleEntity) (http.ReadAll rs).1 = inl e →
        State mc = mprior ∧ unmarshal_error e ∈ Diagnostics mc
        ∧ diag.HasError (Diagnostics mc) = true)
    ∧ (State mc = mprior ∨ ∃ m, State mc = StateValue m).
Proof.
  intros W RoundTrip url_Parse PT PM w tr mr treq mreq tprior mprior tc mc.
  pose proof (TeamResource_Read_outcome RoundTrip url_Parse w tr treq tprior)
    as Ht.
  pose proof (ModuleResource_Read_outcome RoundTrip url_Parse w mr mreq mprior)
    as Hm.
  split; [|split; [|split]].
  - intros rq rs e Hw _ Hdec.
    exact (one_exchange_undecodable _ _ _ _ _ _ _ _ _ _ Ht Hw Hdec).
  - destruct (one_exchange_state _ _ _ _ _ _ _ Ht) as [?|[e ?]]; eauto.
  - intros rq rs e Hw _ Hdec.
    exact (one_exchange_undecodable _ _ _ _ _ _ _ _ _ _ Hm Hw Hdec).
  - destruct (one_exchange_state _ _ _ _ _ _ _ Hm) as [?|[e ?]]; eauto.
Qed.

(** C1 on that run. *)
Lemma C1_read_not_found_witness :
  State read_deleted_team = StateValue Fake.tracked_team
  ∧ unmarshal_error "EOF" ∈ Diagnostics read_deleted_team
  ∧ diag.HasError (Diagnostics read_deleted_team) = true.
Proof.
  eapply (proj1 (C1_read_not_found_reports_decoding_error Fake.World
                   Fake.RoundTrip Fake.url_Parse Fake.TeamPayload Fake.ModulePayload
                   [Fake.answer 404 ""] Fake.team Fake.module
                   {| resource.Read_State := decoded Fake.tracked_team |}
                   {| resource.Read_State := decoded Fake.tracked_module |}
                   (StateValue Fake.tracked_team) (StateValue Fake.tracked_module))).
  - vm_compute. reflexivity.
  - reflexivity.
  - vm_compute. reflexivity.
Defined.

(** Read on a deleted team: the GET brings 404, the resource stays in the
    state and the run ends with an error diagnostic. *)
Lemma C1_read_not_found_counterexample :
  (∃ rq rs, wire read_deleted_team = [(rq, inr rs)]
            ∧ http.Method_ rq = http.MethodGet
            ∧ http.URL rq
              = "https://terrakube.example/api/v1/organization/org1/team/team1"
            ∧ http.StatusCode rs = 404%Z)
  ∧ State read_deleted_team = StateValue Fake.tracked_team
  ∧ State read_deleted_team ≠ StateNull
  ∧ Diagnostics read_deleted_team = [unmarshal_error "EOF"]
  ∧ diag.HasError (Diagnostics read_deleted_team) = true.
Proof.
  split; [eexists _, _; split; [reflexivity|]; vm_compute; by repeat split|].
  vm_compute. by repeat split.
Qed.

(** ** Update *)

(** C2 (amended): when the PATCH of an Update of either kind is answered,
    the handler sends exactly one further request, a GET for the same URL,
    and of the state it stores the name and the other attributes (the eight
    flags of a team; description, provider and source of a module) are those
    of the entity decoded from the response to that GET; the identifier is
    that of the prior state and the organisation that of the plan.  Nothing
    of the response to the PATCH enters the state.  When the GET fails or
    does not decode, the state stays as it was. *)
Theorem C2_update_state_from_read_back :
  ∀ (W : Type)
    (RoundTrip : W → http.Client → http.Request → W * (error + http.Response))
    (url_Parse : string → option error)
    (PT : Payload client.TeamEntity) (PM : Payload client.ModuleEntity)
    (w : W) (tr : TeamResource) (mr : ModuleResource)
    (treq : resource.UpdateRequest TeamResourceModel)
    (mreq : resource.UpdateRequest ModuleResourceModel)
    (tprior : tfsdk_State TeamResourceModel)
    (mprior : tfsdk_State ModuleResourceModel),
    let tc := exec (TeamResource_Update RoundTrip url_Parse tr treq) (begin w tprior) in
    let mc := exec (ModuleResource_Update RoundTrip url_Parse mr mreq) (begin w mprior) in
    (∀ p rs1 rest,
        wire tc = (p, inr rs1) :: rest →
        reads_back client.TeamEntity tc tprior
          (team_read_back (value (resource.Update_Plan treq))
             (value (resource.Update_State treq)))
          p rest)
    ∧ (∀ p rs1 rest,
        wire mc = (p, inr rs1) :: rest →
        reads_back client.ModuleEntity mc mprior
          (module_read_back (value (resource.Update_Plan mreq))
             (value (resource.Update_State mreq)))
          p rest).
Proof.
  intros W RoundTrip url_Parse PT PM w tr mr treq mreq tprior mprior tc mc.
  split; intros p rs1 rest Hw; unfold reads_back.
  - destruct (two_exchanges_read_back _ _ _ _ _ _ _ _ _ _ _
                (TeamResource_Update_outcome RoundTrip url_Parse w tr treq tprior)
                Hw) as (-> & res & -> & Hres).
    split; [done|]. eexists _, res. do 4 (split; [done|]).
    destruct res as [|rs2]; [done|].
    destruct (UnmarshalPayload (http.ReadAll rs2).1) as [|e]; [done|].
    unfold team_read_back. eexists. split; [exact Hres|]. by repeat split.
  - destruct (two_exchanges_read_back _ _ _ _ _ _ _ _ _ _ _
                (ModuleResource_Update_outcome RoundTrip url_Parse w mr mreq mprior)
                Hw) as (-> & res & -> & Hres).
    split; [done|]. eexists _, res. do 4 (split; [done|]).
    destruct res as [|rs2]; [done|].
    destruct (UnmarshalPayload (http.ReadAll rs2).1) as [|e]; [done|].
    unfold module_read_back. eexists. split; [exact Hres|]. by repeat split.
Qed.

(** In the update of the tracked team, the state comes from the response to
    the GET ("infra-admins", manage_state and manage_job), not from the
    response to the PATCH ("patched", six other flags). *)
Example update_team_state :
  State update_team
  = StateValue
      {| ID := types.StringValue "team1";
         Name := types.StringValue "infra-admins";
         OrganizationId := types.StringValue "org1";
         ManageState := types.BoolValue true;
         ManageWorkspace := types.BoolValue false;
         ManageModule := types.BoolValue false;
         ManageProvider := types.BoolValue false;
         ManageVcs := types.BoolValue false;
         ManageTemplate := types.BoolValue false;
         ManageJob := types.BoolValue true;
         ManageCollection := types.BoolValue false |}
  ∧ map (λ x : Exchange, (http.Method_ x.1, http.URL x.1, http.Body x.1))
      (wire update_team)
    = [ (http.MethodPatch,
         "https://terrakube.example/api/v1/organization/org1/team/team1",
         Some "team1|infra-admins|10000010");
        (http.MethodGet,
         "https://terrakube.example/api/v1/organization/org1/team/team1",
         None) ].
Proof. vm_compute. split; reflexivity. Qed.

(** C2 on the update of the tracked team. *)
Lemma C2_update_state_from_read_back_witness :
  ∃ p rs1 rest,
    wire update_team = (p, inr rs1) :: rest
    ∧ reads_back client.TeamEntity (Payload0 := Fake.TeamPayload)
        update_team (StateValue Fake.tracked_team)
        (team_read_back planned_team Fake.tracked_team)
        p rest.
Proof.
  eexists _, _, _. split; [vm_compute; reflexivity|].
  apply (proj1 (C2_update_state_from_read_back Fake.World
                  Fake.RoundTrip Fake.url_Parse Fake.TeamPayload Fake.ModulePayload
                  _ Fake.team Fake.module update_team_request update_module_request
                  (StateValue Fake.tracked_team) (StateValue Fake.tracked_module))
           _ {| http.StatusCode := 200; http.ReadAll := ("team1|patched|01111101", None) |}).
  vm_compute. reflexivity.
Defined.

(** The claim as stated fails on the update that the server answers under
    another identifier: both requests are answered and the response to the
    GET decodes, to an entity with the identifier "team2", yet the stored
    state has the identifier "team1" of the prior state, and the
    organisation "org1" of the plan, which the entity does not carry.  So
    the stored entity is not taken entirely from the read-back response. *)
Lemma C2_read_back_identifier_counterexample :
  ∃ p g rs1 rs2 e m,
    wire update_team_renumbered = [(p, inr rs1); (g, inr rs2)]
    ∧ UnmarshalPayload (Payload := Fake.TeamPayload) (http.ReadAll rs2).1 = inr e
    ∧ State update_team_renumbered = StateValue m
    ∧ client.Team_ID e = "team2"
    ∧ ID m = types.StringValue "team1"
    ∧ ID m ≠ types.StringValue (client.Team_ID e)
    ∧ OrganizationId m = OrganizationId planned_team.
Proof.
  eexists _, _, _, _, _, _.
  split; [vm_compute; reflexivity|].
  split; [vm_compute; reflexivity|].
  split; [vm_compute; reflexivity|].
  vm_compute. by repeat split.
Qed.

(** C9: an Update of either kind that ends without a crash and without an
    error diagnostic has stored a state whose identifier is the identifier
    of the prior state ([state.ID.ValueString()] wrapped again), whatever
    identifier the server returned. *)
Theorem C9_update_preserves_identifier :
  ∀ (W : Type)
    (RoundTrip : W → http.Client → http.Request → W * (error + http.Response))
    (url_Parse : string → option error)
    (PT : Payload client.TeamEntity) (PM : Payload client.ModuleEntity)
    (w : W) (tr : TeamResource) (mr : ModuleResource)
    (treq : resource.UpdateRequest TeamResourceModel)
    (mreq : resource.UpdateRequest ModuleResourceModel)
    (tprior : tfsdk_State TeamResourceModel)
    (mprior : tfsdk_State ModuleResourceModel),
    let th := TeamResource_Update RoundTrip url_Parse tr treq in
    let mh := ModuleResource_Update RoundTrip url_Parse mr mreq in
    let tstate := value (resource.Update_State treq) in
    let mstate := value (resource.Update_State mreq) in
    (crashed th (begin w tprior) = false →
     diag.HasError (Diagnostics (exec th (begin w tprior))) = false →
     ∃ m, State (exec th (begin w tprior)) = StateValue m
          ∧ ID m = types.StringValue (types.ValueString (ID tstate))
          ∧ (∀ id, ID tstate = types.StringValue id → ID m = ID tstate))
    ∧ (crashed mh (begin w mprior) = false →
       diag.HasError (Diagnostics (exec mh (begin w mprior))) = false →
       ∃ m, State (exec mh (begin w mprior)) = StateValue m
            ∧ mID m = types.StringValue (types.ValueString (mID mstate))
            ∧ (∀ id, mID mstate = types.StringValue id → mID m = mID mstate)).
Proof.
  intros W RoundTrip url_Parse PT PM w tr mr treq mreq tprior mprior
    th mh tstate mstate.
  split; intros Hcrash Hok.
  - destruct (two_exchanges_success _ _ _ _ _ _ _ _
                (TeamResource_Update_outcome RoundTrip url_Parse w tr treq tprior)
                Hcrash Hok) as (rs1 & rs2 & e & _ & _ & Hstate).
    eexists. split; [exact Hstate|]. split; [done|].
    intros id Hid. simpl. subst tstate. by rewrite Hid.
  - destruct (two_exchanges_success _ _ _ _ _ _ _ _
                (ModuleResource_Update_outcome RoundTrip url_Parse w mr mreq mprior)
                Hcrash Hok) as (rs1 & rs2 & e & _ & _ & Hstate).
    eexists. split; [exact Hstate|]. split; [done|].
    intros id Hid. simpl. subst mstate. by rewrite Hid.
Qed.

(** C9 on the update of the tracked team. *)
Lemma C9_update_preserves_identifier_witness :
  ∃ m, State update_team = StateValue m
       ∧ ID m = types.StringValue (types.ValueString (ID Fake.tracked_team))
       ∧ (∀ id, ID Fake.tracked_team = types.StringValue id →
                ID m = ID Fake.tracked_team).
Proof.
  apply (proj1 (C9_update_preserves_identifier Fake.World
                  Fake.RoundTrip Fake.url_Parse Fake.TeamPayload Fake.ModulePayload
                  _ Fake.team Fake.module update_team_request update_module_request
                  (StateValue Fake.tracked_team) (StateValue Fake.tracked_module)));
    vm_compute; reflexivity.
Defined.

(** The identifier stays that of the prior state even when the server
    answers the GET with another one. *)
Example update_team_other_identifier :
  State (exec update_team_handler
           (begin [Fake.answer 200 ""; Fake.answer 200 "team2|infra-admins|10000010"]
              (StateValue Fake.tracked_team)))
  = State update_team.
Proof. vm_compute. reflexivity. Qed.

(** C4 (amended): every PATCH request of an Update carries the
    serialisation of the request entity; for a team that entity has the
    name of the prior state, for a module it has the name of the plan. *)
Theorem C4_update_request_name :
  ∀ (W : Type)
    (RoundTrip : W → http.Client → http.Request → W * (error + http.Response))
    (url_Parse : string → option error)
    (PT : Payload client.TeamEntity) (PM : Payload client.ModuleEntity)
    (w : W) (tr : TeamResource) (mr : ModuleResource)
    (treq : resource.UpdateRequest TeamResourceModel)
    (mreq : resource.UpdateRequest ModuleResourceModel)
    (tprior : tfsdk_State TeamResourceModel)
    (mprior : tfsdk_State ModuleResourceModel),
    let tplan := value (resource.Update_Plan treq) in
    let tstate := value (resource.Update_State treq) in
    let mplan := value (resource.Update_Plan mreq) in
    let mstate := value (resource.Update_State mreq) in
    let tentity := TeamResource_Update_bodyRequest tplan tstate in
    let mentity := ModuleResource_Update_bodyRequest mplan mstate in
    patch_bodies_are (MarshalPayload tentity).1
      (exec (TeamResource_Update RoundTrip url_Parse tr treq) (begin w tprior))
    ∧ client.Team_Name tentity = types.ValueString (Name tstate)
    ∧ patch_bodies_are (MarshalPayload mentity).1
        (exec (ModuleResource_Update RoundTrip url_Parse mr mreq) (begin w mprior))
    ∧ client.Module_Name mentity = types.ValueString (mName mplan).
Proof.
  intros W RoundTrip url_Parse PT PM w tr mr treq mreq tprior mprior
    tplan tstate mplan mstate tentity mentity.
  repeat split.
  - exact (two_exchanges_patch_body _ _ _ _ _ _ _ _ _
             (TeamResource_Update_outcome RoundTrip url_Parse w tr treq tprior)).
  - exact (two_exchanges_patch_body _ _ _ _ _ _ _ _ _
             (ModuleResource_Update_outcome RoundTrip url_Parse w mr mreq mprior)).
Qed.

(** Renaming the tracked module "vpc" to "vpc-v2": the PATCH carries the new
    name, not the one of the prior state. *)
Lemma C4_module_update_name_counterexample :
  (∃ rq res rest,
      wire update_module = (rq, res) :: rest
      ∧ http.Method_ rq = http.MethodPatch
      ∧ http.Body rq
        = Some (MarshalPayload (Payload := Fake.ModulePayload)
                  (ModuleResource_Update_bodyRequest
                     Fake.planned_module Fake.tracked_module)).1
      ∧ http.Body rq = Some "mod1|vpc-v2|vpc-v2|aws|https://git.example/vpc.git")
  ∧ client.Module_Name
      (ModuleResource_Update_bodyRequest Fake.planned_module Fake.tracked_module)
    = "vpc-v2"
  ∧ types.ValueString (mName Fake.tracked_module) = "vpc"
  ∧ client.Module_Name
      (ModuleResource_Update_bodyRequest Fake.planned_module Fake.tracked_module)
    ≠ types.ValueString (mName Fake.tracked_module).
Proof.
  split; [eexists _, _, _; split; [vm_compute; reflexivity|]; by vm_compute|].
  by vm_compute.
Qed.

(** C4 on the update of the tracked team: the PATCH carries the name
    "infra-admins" of the prior state. *)
Lemma C4_update_request_name_witness :
  patch_bodies_are "team1|infra-admins|10000010" update_team
  ∧ client.Team_Name (TeamResource_Update_bodyRequest planned_team Fake.tracked_team)
    = "infra-admins".
Proof.
  pose proof (C4_update_request_name Fake.World
                Fake.RoundTrip Fake.url_Parse Fake.TeamPayload Fake.ModulePayload
                [Fake.answer 200 "team1|patched|01111101";
                 Fake.answer 200 "team1|infra-admins|10000010"]
                Fake.team Fake.module update_team_request update_module_request
                (StateValue Fake.tracked_team) (StateValue Fake.tracked_module))
    as (Hbody & Hname & _).
  split; [exact Hbody | exact Hname].
Defined.

(** ** Failing steps *)

(** C3 (amended): in Create, Read and Update of either kind, a transport
    failure or a response that does not decode makes the handler report an
    error and leave the state as it was, and the state changes only after
    the last response decoded; in Create and Update of a team the same holds
    for a failure to serialise the request, after which nothing is sent.  A
    failure to read the body in Create and Read is not among them: the bytes
    that were read are decoded, and when they decode the state is stored and
    no diagnostic is added. *)
Theorem C3_failures_keep_state :
  ∀ (W : Type)
    (RoundTrip : W → http.Client → http.Request → W * (error + http.Response))
    (url_Parse : string → option error)
    (PT : Payload client.TeamEntity) (PM : Payload client.ModuleEntity)
    (w : W) (tr : TeamResource) (mr : ModuleResource)
    (tcreate : resource.CreateRequest TeamResourceModel)
    (tread : resource.ReadRequest TeamResourceModel)
    (tupdate : resource.UpdateRequest TeamResourceModel)
    (mcreate : resource.CreateRequest ModuleResourceModel)
    (mread : resource.ReadRequest ModuleResourceModel)
    (mupdate : resource.UpdateRequest ModuleResourceModel)
    (tprior : tfsdk_State TeamResourceModel)
    (mprior : tfsdk_State ModuleResourceModel),
    let tC := exec (TeamResource_Create RoundTrip url_Parse tr tcreate) (begin w tprior) in
    let tR := exec (TeamResource_Read RoundTrip url_Parse tr tread) (begin w tprior) in
    let tU := exec (TeamResource_Update RoundTrip url_Parse tr tupdate) (begin w tprior) in
    let mC := exec (ModuleResource_Create RoundTrip url_Parse mr mcreate) (begin w mprior) in
    let mR := exec (ModuleResource_Read RoundTrip url_Parse mr mread) (begin w mprior) in
    let mU := exec (ModuleResource_Update RoundTrip url_Parse mr mupdate) (begin w mprior) in
    (fails_safely client.TeamEntity tprior tC
     ∧ fails_safely client.TeamEntity tprior tR
     ∧ fails_safely client.TeamEntity tprior tU)
    ∧ (fails_safely client.ModuleEntity mprior mC
       ∧ fails_safely client.ModuleEntity mprior mR
       ∧ fails_safely client.ModuleEntity mprior mU)
    ∧ (∀ e,
         (MarshalPayload
            (TeamResource_Create_bodyRequest
               (value (resource.Create_Plan tcreate)))).2 = Some e →
         reports_and_keeps tprior tC ∧ wire tC = [])
    ∧ (∀ e,
         (MarshalPayload
            (TeamResource_Update_bodyRequest
               (value (resource.Update_Plan tupdate))
               (value (resource.Update_State tupdate)))).2 = Some e →
         reports_and_keeps tprior tU ∧ wire tU = [])
    ∧ (decodes_what_was_read client.TeamEntity
         (diag.Append [] (diags (resource.Create_Plan tcreate)))
         (λ e, StateValue
                 (TeamResource_Create_assign (value (resource.Create_Plan tcreate)) e))
         tC
       ∧ decodes_what_was_read client.TeamEntity
           (diag.Append [] (diags (resource.Read_State tread)))
           (λ e, StateValue
                   (TeamResource_Read_assign (value (resource.Read_State tread)) e))
           tR
       ∧ decodes_what_was_read client.ModuleEntity
           (diag.Append [] (diags (resource.Create_Plan mcreate)))
           (λ e, StateValue
                   (ModuleResource_Create_assign (value (resource.Create_Plan mcreate)) e))
           mC
       ∧ decodes_what_was_read client.ModuleEntity
           (diag.Append [] (diags (resource.Read_State mread)))
           (λ e, StateValue
                   (ModuleResource_Read_assign (value (resource.Read_State mread)) e))
           mR).
Proof.
  intros W RoundTrip url_Parse PT PM w tr mr tcreate tread tupdate
    mcreate mread mupdate tprior mprior tC tR tU mC mR mU.
  pose proof (TeamResource_Create_outcome RoundTrip url_Parse w tr tcreate tprior) as HtC.
  pose proof (TeamResource_Read_outcome RoundTrip url_Parse w tr tread tprior) as HtR.
  pose proof (TeamResource_Update_outcome RoundTrip url_Parse w tr tupdate tprior) as HtU.
  pose proof (ModuleResource_Create_outcome RoundTrip url_Parse w mr mcreate mprior) as HmC.
  pose proof (ModuleResource_Read_outcome RoundTrip url_Parse w mr mread mprior) as HmR.
  pose proof (ModuleResource_Update_outcome RoundTrip url_Parse w mr mupdate mprior) as HmU.
  unfold fails_safely, decodes_what_was_read.
  split; [|split; [|split; [|split]]].
  - split; [|split]; split.
    + exact (one_exchange_failure _ _ _ _ _ _ _ HtC).
    + exact (one_exchange_written _ _ _ _ _ _ _ HtC).
    + exact (one_exchange_failure _ _ _ _ _ _ _ HtR).
    + exact (one_exchange_written _ _ _ _ _ _ _ HtR).
    + exact (two_exchanges_failure _ _ _ _ _ _ _ _ HtU).
    + exact (two_exchanges_written _ _ _ _ _ _ _ _ HtU).
  - split; [|split]; split.
    + exact (one_exchange_failure _ _ _ _ _ _ _ HmC).
    + exact (one_exchange_written _ _ _ _ _ _ _ HmC).
    + exact (one_exchange_failure _ _ _ _ _ _ _ HmR).
    + exact (one_exchange_written _ _ _ _ _ _ _ HmR).
    + exact (two_exchanges_failure _ _ _ _ _ _ _ _ HmU).
    + exact (two_exchanges_written _ _ _ _ _ _ _ _ HmU).
  - intros e He. simpl in HtC. rewrite He in HtC.
    exact (one_exchange_marshal_failure _ _ _ _ _ _ _ HtC).
  - intros e He. simpl in HtU. rewrite He in HtU.
    exact (two_exchanges_marshal_failure _ _ _ _ _ _ _ _ HtU).
  - split; [|split; [|split]]; intros rq rs e Hw Hdec.
    + by destruct (one_exchange_decoded _ _ _ _ _ _ _ _ _ _ HtC Hw Hdec)
        as (_ & ? & ? & _).
    + by destruct (one_exchange_decoded _ _ _ _ _ _ _ _ _ _ HtR Hw Hdec)
        as (_ & ? & ? & _).
    + by destruct (one_exchange_decoded _ _ _ _ _ _ _ _ _ _ HmC Hw Hdec)
        as (_ & ? & ? & _).
    + by destruct (one_exchange_decoded _ _ _ _ _ _ _ _ _ _ HmR Hw Hdec)
        as (_ & ? & ? & _).
Qed.

(** C3 on the creation of a team while the server cannot be reached. *)
Lemma C3_failures_keep_state_witness :
  reports_and_keeps StateNull create_team_refused.
Proof.
  apply (proj1 (proj1 (proj1 (C3_failures_keep_state Fake.World
                  Fake.RoundTrip Fake.url_Parse Fake.TeamPayload Fake.ModulePayload
                  [inl "dial tcp: connection refused"] Fake.team Fake.module
                  create_team_request
                  {| resource.Read_State := decoded Fake.tracked_team |}
                  update_team_request
                  {| resource.Create_Plan := decoded Fake.planned_module |}
                  {| resource.Read_State := decoded Fake.tracked_module |}
                  update_module_request
                  StateNull StateNull)))).
  left. unfold transport_failed. eexists _, _.
  apply list_elem_of_In. vm_compute. left. reflexivity.
Defined.

(** Creating a team when reading the body of the response breaks off after
    the whole document: the failure is only logged, no diagnostic is
    reported and the state is written. *)
Lemma C3_create_body_read_failure_counterexample :
  (∃ rq rs, wire create_team_broken_body = [(rq, inr rs)]
            ∧ (http.ReadAll rs).2 = Some "unexpected EOF")
  ∧ Diagnostics create_team_broken_body = []
  ∧ log create_team_broken_body
    = [ {| tflog.level := tflog.Error;
           tflog.msg := "Error reading team resource response";
           tflog.fields := [] |};
        {| tflog.level := tflog.Info; tflog.msg := "Body Response";
           tflog.fields := [("bodyResponse", "t-9|infra-admins|00000010")] |};
        {| tflog.level := tflog.Info; tflog.msg := "Team Resource Created";
           tflog.fields := [("success", "true")] |} ]
  ∧ State create_team_broken_body ≠ StateNull
  ∧ ¬ reports_and_keeps StateNull create_team_broken_body.
Proof.
  split; [eexists _, _; split; [reflexivity|]; by vm_compute|].
  unfold reports_and_keeps. vm_compute.
  repeat split; try done. by intros [? _].
Qed.

(** ** Headers of the requests *)

Ltac headers :=
  unfold all_with_token_only, carries;
  paths; repeat constructor; simpl; unfold http.Header_Add; by simplify_map_eq.

Lemma TeamResource_Delete_headers {W}
    (RoundTrip : W → http.Client → http.Request → W * (error + http.Response))
    url_Parse w r req s :
  all_with_token_only (token r)
    (exec (TeamResource_Delete RoundTrip url_Parse r req) (begin w s)).
Proof. unfold TeamResource_Delete. headers. Qed.

Lemma ModuleResource_Delete_headers {W}
    (RoundTrip : W → http.Client → http.Request → W * (error + http.Response))
    url_Parse w r req s :
  all_with_token_only (mtoken r)
    (exec (ModuleResource_Delete RoundTrip url_Parse r req) (begin w s)).
Proof. unfold ModuleResource_Delete. headers. Qed.

(** C7 (amended): every request that Create, Read and Update of either
    resource kind hand to the client carries [Authorization: Bearer <token>]
    and [Content-Type: application/vnd.api+json]; every request that Delete
    hands to the client carries the [Authorization] header and no
    [Content-Type] header. *)
Theorem C7_request_headers :
  ∀ (W : Type)
    (RoundTrip : W → http.Client → http.Request → W * (error + http.Response))
    (url_Parse : string → option error)
    (PT : Payload client.TeamEntity) (PM : Payload client.ModuleEntity)
    (w : W) (tr : TeamResource) (mr : ModuleResource)
    (ts : tfsdk_State TeamResourceModel) (ms : tfsdk_State ModuleResourceModel)
    tcreate tread tupdate tdelete mcreate mread mupdate mdelete,
    all_with_both_headers (token tr)
      (exec (TeamResource_Create RoundTrip url_Parse tr tcreate) (begin w ts))
    ∧ all_with_both_headers (token tr)
        (exec (TeamResource_Read RoundTrip url_Parse tr tread) (begin w ts))
    ∧ all_with_both_headers (token tr)
        (exec (TeamResource_Update RoundTrip url_Parse tr tupdate) (begin w ts))
    ∧ all_with_token_only (token tr)
        (exec (TeamResource_Delete RoundTrip url_Parse tr tdelete) (begin w ts))
    ∧ all_with_both_headers (mtoken mr)
        (exec (ModuleResource_Create RoundTrip url_Parse mr mcreate) (begin w ms))
    ∧ all_with_both_headers (mtoken mr)
        (exec (ModuleResource_Read RoundTrip url_Parse mr mread) (begin w ms))
    ∧ all_with_both_headers (mtoken mr)
        (exec (ModuleResource_Update RoundTrip url_Parse mr mupdate) (begin w ms))
    ∧ all_with_token_only (mtoken mr)
        (exec (ModuleResource_Delete RoundTrip url_Parse mr mdelete) (begin w ms)).
Proof.
  intros. repeat split.
  - exact (one_exchange_headers _ _ _ _ _ _ _ _ _ _
             (TeamResource_Create_outcome RoundTrip url_Parse w tr tcreate ts)).
  - exact (one_exchange_headers _ _ _ _ _ _ _ _ _ _
             (TeamResource_Read_outcome RoundTrip url_Parse w tr tread ts)).
  - exact (two_exchanges_headers _ _ _ _ _ _ _ _ _ _ _ _
             (TeamResource_Update_outcome RoundTrip url_Parse w tr tupdate ts)).
  - apply TeamResource_Delete_headers.
  - exact (one_exchange_headers _ _ _ _ _ _ _ _ _ _
             (ModuleResource_Create_outcome RoundTrip url_Parse w mr mcreate ms)).
  - exact (one_exchange_headers _ _ _ _ _ _ _ _ _ _
             (ModuleResource_Read_outcome RoundTrip url_Parse w mr mread ms)).
  - exact (two_exchanges_headers _ _ _ _ _ _ _ _ _ _ _ _
             (ModuleResource_Update_outcome RoundTrip url_Parse w mr mupdate ms)).
  - apply ModuleResource_Delete_headers.
Qed.

(** Deleting the tracked team sends one DELETE request, and it has no
    [Content-Type] header. *)
Lemma C7_delete_content_type_counterexample :
  ∃ rq res,
    wire delete_team = [(rq, res)]
    ∧ http.Method_ rq = http.MethodDelete
    ∧ http.URL rq = "https://terrakube.example/api/v1/organization/org1/team/team1"
    ∧ http.Header rq !! "Authorization" = Some ["Bearer secret"]
    ∧ http.Header rq !! "Content-Type" = None
    ∧ ¬ carries rq "Content-Type" "application/vnd.api+json".
Proof.
  eexists _, _. split; [reflexivity|]. unfold carries. vm_compute.
  repeat split. discriminate.
Qed.

(** The update of the tracked team sends a PATCH and a GET, both with the
    two headers. *)
Example update_team_headers :
  map (λ x : Exchange,
         (http.Method_ x.1,
          http.Header x.1 !! "Authorization",
          http.Header x.1 !! "Content-Type")) (wire update_team)
  = [ (http.MethodPatch, Some ["Bearer secret"], Some ["application/vnd.api+json"]);
      (http.MethodGet, Some ["Bearer secret"], Some ["application/vnd.api+json"]) ].
Proof. vm_compute. reflexivity. Qed.

(** ** Create *)




(** The scenario run: what is sent and what is stored. *)
Example create_team_run :
  map (λ x : Exchange, (http.Method_ x.1, http.URL x.1, http.Body x.1))
    (wire create_team)
  = [ (http.MethodPost,
       "https://terrakube.example/api/v1/organization/org1/team",
       Some "|infra-admins|00000010") ]
  ∧ State create_team
    = StateValue
        {| ID := types.StringValue "t-9";
           Name := types.StringValue "infra-admins";
           OrganizationId := types.StringValue "org1";
           ManageState := types.BoolValue false;
           ManageWorkspace := types.BoolValue false;
           ManageModule := types.BoolValue false;
           ManageProvider := types.BoolValue false;
           ManageVcs := types.BoolValue false;
           ManageTemplate := types.BoolValue false;
           ManageJob := types.BoolValue true;
           ManageCollection := types.BoolValue false |}
  ∧ Diagnostics create_team = [].
Proof. vm_compute. repeat split. Qed.


(** * Further properties of the handlers *)

(** Case analysis on the outcome of a run: as [ending], with the crash flag
    of the run abstracted first. *)
Ltac run_ending H :=
  cbv zeta in H;
  match type of H with
  | one_exchange _ _ _ _ _ ?cr _ =>
      let crash := fresh "crash" in
      set (crash := cr) in *; clearbody crash; ending H
  | two_exchanges _ _ _ _ _ _ ?cr _ =>
      let crash := fresh "crash" in
      set (crash := cr) in *; clearbody crash; ending2 H
  end.

(** ** What is sent *)

(** X1: Create and Read of either kind send at most one request.  Create
    sends a POST with the serialised request entity to
    [{endpoint}/api/v1/organization/{org}/{kind}], Read a GET without body
    to [{endpoint}/api/v1/organization/{org}/{kind}/{id}], both with the
    bearer token and the JSON:API content type; null and unknown values
    enter the URL as the empty string. *)
Theorem X1_create_read_request :
  ∀ (W : Type)
    (RoundTrip : W → http.Client → http.Request → W * (error + http.Response))
    (url_Parse : string → option error)
    (PT : Payload client.TeamEntity) (PM : Payload client.ModuleEntity)
    (w : W) (tr : TeamResource) (mr : ModuleResource)
    (tcreate : resource.CreateRequest TeamResourceModel)
    (tread : resource.ReadRequest TeamResourceModel)
    (mcreate : resource.CreateRequest ModuleResourceModel)
    (mread : resource.ReadRequest ModuleResourceModel)
    (tprior : tfsdk_State TeamResourceModel)
    (mprior : tfsdk_State ModuleResourceModel),
    let tplan := value (resource.Create_Plan tcreate) in
    let tstate := value (resource.Read_State tread) in
    let mplan := value (resource.Create_Plan mcreate) in
    let mstate := value (resource.Read_State mread) in
    let sends {S} (c : Ctx W S) (rq : http.Request) :=
      wire c = [] ∨ ∃ res, wire c = [(rq, res)] in
    sends (exec (TeamResource_Create RoundTrip url_Parse tr tcreate) (begin w tprior))
      (api_request http.MethodPost
         (kind_url (endpoint tr) (types.ValueString (OrganizationId tplan)) "team")
         (token tr)
         (Some (MarshalPayload (TeamResource_Create_bodyRequest tplan)).1))
    ∧ sends (exec (TeamResource_Read RoundTrip url_Parse tr tread) (begin w tprior))
        (api_request http.MethodGet
           (entity_url (endpoint tr) (types.ValueString (OrganizationId tstate))
              "team" (types.ValueString (ID tstate)))
           (token tr) None)
    ∧ sends (exec (ModuleResource_Create RoundTrip url_Parse mr mcreate) (begin w mprior))
        (api_request http.MethodPost
           (kind_url (mendpoint mr) (types.ValueString (mOrganizationId mplan)) "module")
           (mtoken mr)
           (Some (MarshalPayload (ModuleResource_Create_bodyRequest mplan)).1))
    ∧ sends (exec (ModuleResource_Read RoundTrip url_Parse mr mread) (begin w mprior))
        (api_request http.MethodGet
           (entity_url (mendpoint mr) (types.ValueString (mOrganizationId mstate))
              "module" (types.ValueString (mID mstate)))
           (mtoken mr) None).
Proof.
  intros W RoundTrip url_Parse PT PM w tr mr tcreate tread mcreate mread
    tprior mprior tplan tstate mplan mstate sends.
  pose proof (TeamResource_Create_outcome RoundTrip url_Parse w tr tcreate tprior) as HtC.
  pose proof (TeamResource_Read_outcome RoundTrip url_Parse w tr tread tprior) as HtR.
  pose proof (ModuleResource_Create_outcome RoundTrip url_Parse w mr mcreate mprior) as HmC.
  pose proof (ModuleResource_Read_outcome RoundTrip url_Parse w mr mread mprior) as HmR.
  unfold sends. split; [|split; [|split]].
  - run_ending HtC; eauto.
  - run_ending HtR; eauto.
  - run_ending HmC; eauto.
  - run_ending HmR; eauto.
Qed.

(** X2: Update of either kind sends nothing, or a PATCH that fails in
    transport and nothing more, or a PATCH that is answered followed by
    exactly one GET: never more than two requests, and the GET only after
    the PATCH was answered.  Both go to
    [{endpoint}/api/v1/organization/{org}/{kind}/{id}] with organisation and
    identifier taken from the prior state; the PATCH carries the serialised
    request entity, the GET no body. *)
Theorem X2_update_request_sequence :
  ∀ (W : Type)
    (RoundTrip : W → http.Client → http.Request → W * (error + http.Response))
    (url_Parse : string → option error)
    (PT : Payload client.TeamEntity) (PM : Payload client.ModuleEntity)
    (w : W) (tr : TeamResource) (mr : ModuleResource)
    (treq : resource.UpdateRequest TeamResourceModel)
    (mreq : resource.UpdateRequest ModuleResourceModel)
    (tprior : tfsdk_State TeamResourceModel)
    (mprior : tfsdk_State ModuleResourceModel),
    let tplan := value (resource.Update_Plan treq) in
    let tstate := value (resource.Update_State treq) in
    let mplan := value (resource.Update_Plan mreq) in
    let mstate := value (resource.Update_State mreq) in
    let turl := entity_url (endpoint tr) (types.ValueString (OrganizationId tstate))
                  "team" (types.ValueString (ID tstate)) in
    let murl := entity_url (mendpoint mr) (types.ValueString (mOrganizationId mstate))
                  "module" (types.ValueString (mID mstate)) in
    let sends {S} (c : Ctx W S) (patch get : http.Request) :=
      wire c = []
      ∨ (∃ e, wire c = [(patch, inl e)])
      ∨ (∃ rs res, wire c = [(patch, inr rs); (get, res)]) in
    sends (exec (TeamResource_Update RoundTrip url_Parse tr treq) (begin w tprior))
      (api_request http.MethodPatch turl (token tr)
         (Some (MarshalPayload (TeamResource_Update_bodyRequest tplan tstate)).1))
      (api_request http.MethodGet turl (token tr) None)
    ∧ sends (exec (ModuleResource_Update RoundTrip url_Parse mr mreq) (begin w mprior))
        (api_request http.MethodPatch murl (mtoken mr)
           (Some (MarshalPayload (ModuleResource_Update_bodyRequest mplan mstate)).1))
        (api_request http.MethodGet murl (mtoken mr) None).
Proof.
  intros W RoundTrip url_Parse PT PM w tr mr treq mreq tprior mprior
    tplan tstate mplan mstate turl murl sends.
  pose proof (TeamResource_Update_outcome RoundTrip url_Parse w tr treq tprior) as Ht.
  pose proof (ModuleResource_Update_outcome RoundTrip url_Parse w mr mreq mprior) as Hm.
  unfold sends. split.
  - run_ending Ht; eauto.
  - run_ending Hm; eauto.
Qed.

(** ** What is stored *)

(** X3: when Create or Read of either kind changes the state, it has not
    crashed and has added no diagnostic: the diagnostics are those of
    decoding the request, and none of them is an error. *)
Theorem X3_create_read_store_without_error :
  ∀ (W : Type)
    (RoundTrip : W → http.Client → http.Request → W * (error + http.Response))
    (url_Parse : string → option error)
    (PT : Payload client.TeamEntity) (PM : Payload client.ModuleEntity)
    (w : W) (tr : TeamResource) (mr : ModuleResource)
    (tcreate : resource.CreateRequest TeamResourceModel)
    (tread : resource.ReadRequest TeamResourceModel)
    (mcreate : resource.CreateRequest ModuleResourceModel)
    (mread : resource.ReadRequest ModuleResourceModel)
    (tprior : tfsdk_State TeamResourceModel)
    (mprior : tfsdk_State ModuleResourceModel),
    let clean {S A} (h : H W S A) (prior : S) (ds0 : diag.Diagnostics) :=
      State (exec h (begin w prior)) ≠ prior →
      crashed h (begin w prior) = false
      ∧ Diagnostics (exec h (begin w prior)) = ds0
      ∧ diag.HasError (Diagnostics (exec h (begin w prior))) = false in
    clean (TeamResource_Create RoundTrip url_Parse tr tcreate) tprior
      (diag.Append [] (diags (resource.Create_Plan tcreate)))
    ∧ clean (TeamResource_Read RoundTrip url_Parse tr tread) tprior
        (diag.Append [] (diags (resource.Read_State tread)))
    ∧ clean (ModuleResource_Create RoundTrip url_Parse mr mcreate) mprior
        (diag.Append [] (diags (resource.Create_Plan mcreate)))
    ∧ clean (ModuleResource_Read RoundTrip url_Parse mr mread) mprior
        (diag.Append [] (diags (resource.Read_State mread))).
Proof.
  intros W RoundTrip url_Parse PT PM w tr mr tcreate tread mcreate mread
    tprior mprior clean.
  pose proof (TeamResource_Create_outcome RoundTrip url_Parse w tr tcreate tprior) as HtC.
  pose proof (TeamResource_Read_outcome RoundTrip url_Parse w tr tread tprior) as HtR.
  pose proof (ModuleResource_Create_outcome RoundTrip url_Parse w mr mcreate mprior) as HmC.
  pose proof (ModuleResource_Read_outcome RoundTrip url_Parse w mr mread mprior) as HmR.
  unfold clean. split; [|split; [|split]]; intros Hne.
  - run_ending HtC; try done. rewrite Hdiags. done.
  - run_ending HtR; try done. rewrite Hdiags. done.
  - run_ending HmC; try done. rewrite Hdiags. done.
  - run_ending HmR; try done. rewrite Hdiags. done.
Qed.

(** X3 on the creation of the team "infra-admins". *)
Lemma X3_create_read_store_without_error_witness :
  crashed (TeamResource_Create (Payload0 := Fake.TeamPayload)
             Fake.RoundTrip Fake.url_Parse Fake.team create_team_request)
    (begin [Fake.answer 201 "t-9|infra-admins|00000010"] StateNull) = false
  ∧ Diagnostics create_team = []
  ∧ diag.HasError (Diagnostics create_team) = false.
Proof.
  apply (proj1 (X3_create_read_store_without_error Fake.World
                  Fake.RoundTrip Fake.url_Parse Fake.TeamPayload Fake.ModulePayload
                  [Fake.answer 201 "t-9|infra-admins|00000010"] Fake.team Fake.module
                  create_team_request
                  {| resource.Read_State := decoded Fake.tracked_team |}
                  {| resource.Create_Plan := decoded Fake.planned_module |}
                  {| resource.Read_State := decoded Fake.tracked_module |}
                  StateNull StateNull)).
  vm_compute. discriminate.
Defined.

(** X4: Update of either kind stores the state and reports an error in the
    same run when reading the body of the response to the GET fails after
    bytes that decode: the error of the reading is added to the diagnostics
    and the handler goes on to decode and to store. *)
Theorem X4_update_stores_despite_read_error :
  ∀ (W : Type)
    (RoundTrip : W → http.Client → http.Request → W * (error + http.Response))
    (url_Parse : string → option error)
    (PT : Payload client.TeamEntity) (PM : Payload client.ModuleEntity)
    (w : W) (tr : TeamResource) (mr : ModuleResource)
    (treq : resource.UpdateRequest TeamResourceModel)
    (mreq : resource.UpdateRequest ModuleResourceModel)
    (tprior : tfsdk_State TeamResourceModel)
    (mprior : tfsdk_State ModuleResourceModel),
    let tc := exec (TeamResource_Update RoundTrip url_Parse tr treq) (begin w tprior) in
    let mc := exec (ModuleResource_Update RoundTrip url_Parse mr mreq) (begin w mprior) in
    (∀ p g rs1 rs2 e,
        wire tc = [(p, inr rs1); (g, inr rs2)] →
        (http.ReadAll rs2).2 ≠ None →
        UnmarshalPayload (http.ReadAll rs2).1 = inr e →
        State tc = StateValue
                     (TeamResource_Update_assign
                        (value (resource.Update_Plan treq))
                        (value (resource.Update_State treq)) e)
        ∧ diag.HasError (Diagnostics tc) = true)
    ∧ (∀ p g rs1 rs2 e,
        wire mc = [(p, inr rs1); (g, inr rs2)] →
        (http.ReadAll rs2).2 ≠ None →
        UnmarshalPayload (http.ReadAll rs2).1 = inr e →
        State mc = StateValue
                     (ModuleResource_Update_assign
                        (value (resource.Update_Plan mreq))
                        (value (resource.Update_State mreq)) e)
        ∧ diag.HasError (Diagnostics mc) = true).
Proof.
  intros W RoundTrip url_Parse PT PM w tr mr treq mreq tprior mprior tc mc.
  pose proof (TeamResource_Update_outcome RoundTrip url_Parse w tr treq tprior) as Ht.
  pose proof (ModuleResource_Update_outcome RoundTrip url_Parse w mr mreq mprior) as Hm.
  subst tc mc. split; intros p g rs1 rs2 e Hw Hbroken' Hdec.
  - run_ending Ht; simplify_eq; [congruence|].
    assert (e0 = e) as -> by congruence. split; [done|]. by apply Hbroken.
  - run_ending Hm; simplify_eq; [congruence|].
    assert (e0 = e) as -> by congruence. split; [done|]. by apply Hbroken.
Qed.

(** X5: whatever Read of either kind stores, the identifier and the
    organisation of the stored state are those of the state it was called
    with; the response to the GET supplies the other fields only. *)
Theorem X5_read_keeps_identifier_and_organization :
  ∀ (W : Type)
    (RoundTrip : W → http.Client → http.Request → W * (error + http.Response))
    (url_Parse : string → option error)
    (PT : Payload client.TeamEntity) (PM : Payload client.ModuleEntity)
    (w : W) (tr : TeamResource) (mr : ModuleResource)
    (tread : resource.ReadRequest TeamResourceModel)
    (mread : resource.ReadRequest ModuleResourceModel)
    (tprior : tfsdk_State TeamResourceModel)
    (mprior : tfsdk_State ModuleResourceModel),
    let tc := exec (TeamResource_Read RoundTrip url_Parse tr tread) (begin w tprior) in
    let mc := exec (ModuleResource_Read RoundTrip url_Parse mr mread) (begin w mprior) in
    (∀ m, State tc = StateValue m → State tc ≠ tprior →
          ID m = ID (value (resource.Read_State tread))
          ∧ OrganizationId m = OrganizationId (value (resource.Read_State tread)))
    ∧ (∀ m, State mc = StateValue m → State mc ≠ mprior →
            mID m = mID (value (resource.Read_State mread))
            ∧ mOrganizationId m = mOrganizationId (value (resource.Read_State mread))).
Proof.
  intros W RoundTrip url_Parse PT PM w tr mr tread mread tprior mprior tc mc.
  subst tc mc. split; intros m Hm Hne.
  - destruct (one_exchange_state _ _ _ _ _ _ _
                (TeamResource_Read_outcome RoundTrip url_Parse w tr tread tprior))
      as [?|[e He]]; [done|].
    rewrite He in Hm. by simplify_eq.
  - destruct (one_exchange_state _ _ _ _ _ _ _
                (ModuleResource_Read_outcome RoundTrip url_Parse w mr mread mprior))
      as [?|[e He]]; [done|].
    rewrite He in Hm. by simplify_eq.
Qed.

(** X4 on the update of the tracked team with a body that breaks off. *)
Lemma X4_update_stores_despite_read_error_witness :
  State update_team_broken_body
  = StateValue
      (TeamResource_Update_assign planned_team Fake.tracked_team
         {| client.Team_ID := "team1"; client.Team_Name := "infra-admins";
            client.Team_ManageState := true; client.Team_ManageWorkspace := false;
            client.Team_ManageModule := false; client.Team_ManageProvider := false;
            client.Team_ManageVcs := false; client.Team_ManageTemplate := false;
            client.Team_ManageJob := true; client.Team_ManageCollection := false |})
  ∧ diag.HasError (Diagnostics update_team_broken_body) = true.
Proof.
  eapply (proj1 (X4_update_stores_despite_read_error Fake.World
                   Fake.RoundTrip Fake.url_Parse Fake.TeamPayload Fake.ModulePayload
                   _ Fake.team Fake.module update_team_request update_module_request
                   (StateValue Fake.tracked_team) (StateValue Fake.tracked_module))).
  - vm_compute. reflexivity.
  - vm_compute. discriminate.
  - vm_compute. reflexivity.
Defined.

(** X5 on the refresh of the renamed team: the server's identifier [team9]
    is not taken over. *)
Lemma X5_read_keeps_identifier_and_organization_witness :
  ∃ m, State read_renamed_team = StateValue m
       ∧ Name m = types.StringValue "platform-admins"
       ∧ ID m = types.StringValue "team1"
       ∧ OrganizationId m = types.StringValue "org1".
Proof.
  eexists. split; [vm_compute; reflexivity|]. split; [reflexivity|].
  apply (proj1 (X5_read_keeps_identifier_and_organization Fake.World
                  Fake.RoundTrip Fake.url_Parse Fake.TeamPayload Fake.ModulePayload
                  [Fake.answer 200 "team9|platform-admins|00000010"]
                  Fake.team Fake.module
                  {| resource.Read_State := decoded Fake.tracked_team |}
                  {| resource.Read_State := decoded Fake.tracked_module |}
                  (StateValue Fake.tracked_team) (StateValue Fake.tracked_module))).
  - vm_compute. reflexivity.
  - vm_compute. discriminate.
Defined.


(** ** Delete *)

(** The ways a Delete that sends [rq] ends, with [failed e] the diagnostic
    of a transport failure. *)
Ltac delete_outcome :=
  paths; simplify_eq; (split; [reflexivity|]);
  first [ by (left; repeat split)
        | by (right; left; repeat split)
        | by (right; right; left; eexists; repeat split)
        | by (right; right; right; eexists; repeat split) ].

Lemma TeamResource_Delete_outcome {W}
    (RoundTrip : W → http.Client → http.Request → W * (error + http.Response))
    url_Parse w r req prior
    (data := value (resource.Delete_State req))
    (ds0 := diag.Append [] (diags (resource.Delete_State req)))
    (rq := delete_request
             (entity_url (endpoint r) (types.ValueString (OrganizationId data))
                "team" (types.ValueString (ID data)))
             (token r))
    (h := TeamResource_Delete RoundTrip url_Parse r req)
    (c := exec h (begin w prior)) :
  State c = prior
  ∧ ((diag.HasError ds0 = true ∧ returns_before_sending h (begin w prior) ds0)
     ∨ (diag.HasError ds0 = false ∧ crashes_before_sending h (begin w prior) ds0)
     ∨ (∃ e, wire c = [(rq, inl e)] ∧ crashed h (begin w prior) = false
             ∧ Diagnostics c
               = diag.AddError "Error executing team resource request"
                   ("Error executing team resource request: " +:+ e) ds0)
     ∨ (∃ rs, wire c = [(rq, inr rs)] ∧ crashed h (begin w prior) = false
              ∧ Diagnostics c = ds0 ∧ log c = [])).
Proof.
  subst c h rq ds0 data.
  unfold TeamResource_Delete, delete_request, entity_url,
    returns_before_sending, crashes_before_sending.
  delete_outcome.
Qed.

Lemma ModuleResource_Delete_outcome {W}
    (RoundTrip : W → http.Client → http.Request → W * (error + http.Response))
    url_Parse w r req prior
    (data := value (resource.Delete_State req))
    (ds0 := diag.Append [] (diags (resource.Delete_State req)))
    (rq := delete_request
             (entity_url (mendpoint r) (types.ValueString (mOrganizationId data))
                "module" (types.ValueString (mID data)))
             (mtoken r))
    (h := ModuleResource_Delete RoundTrip url_Parse r req)
    (c := exec h (begin w prior)) :
  State c = prior
  ∧ ((diag.HasError ds0 = true ∧ returns_before_sending h (begin w prior) ds0)
     ∨ (diag.HasError ds0 = false ∧ crashes_before_sending h (begin w prior) ds0)
     ∨ (∃ e, wire c = [(rq, inl e)] ∧ crashed h (begin w prior) = false
             ∧ Diagnostics c
               = diag.AddError "Error executing module resource request"
                   ("Error executing team resource request: " +:+ e) ds0)
     ∨ (∃ rs, wire c = [(rq, inr rs)] ∧ crashed h (begin w prior) = false
              ∧ Diagnostics c = ds0 ∧ log c = [])).
Proof.
  subst c h rq ds0 data.
  unfold ModuleResource_Delete, delete_request, entity_url,
    returns_before_sending, crashes_before_sending.
  delete_outcome.
Qed.


(** X6: Delete of either kind never changes the state it was given and
    sends at most one request, a DELETE without body to
    [{endpoint}/api/v1/organization/{org}/{kind}/{id}] with the bearer token
    only.  It never looks at the response: once the request is answered,
    whatever the status, it adds no diagnostic and logs nothing; a transport
    failure is reported as an error. *)
Theorem X6_delete_ignores_the_response :
  ∀ (W : Type)
    (RoundTrip : W → http.Client → http.Request → W * (error + http.Response))
    (url_Parse : string → option error)
    (w : W) (tr : TeamResource) (mr : ModuleResource)
    (treq : resource.DeleteRequest TeamResourceModel)
    (mreq : resource.DeleteRequest ModuleResourceModel)
    (tprior : tfsdk_State TeamResourceModel)
    (mprior : tfsdk_State ModuleResourceModel),
    let tdata := value (resource.Delete_State treq) in
    let mdata := value (resource.Delete_State mreq) in
    let tc := exec (TeamResource_Delete RoundTrip url_Parse tr treq) (begin w tprior) in
    let mc := exec (ModuleResource_Delete RoundTrip url_Parse mr mreq) (begin w mprior) in
    let deletes {S} (c : Ctx W S) (prior : S) (ds0 : diag.Diagnostics)
                (rq : http.Request) :=
      State c = prior
      ∧ (wire c = [] ∨ ∃ res, wire c = [(rq, res)])
      ∧ (∀ rq' rs, wire c = [(rq', inr rs)] → Diagnostics c = ds0 ∧ log c = [])
      ∧ (∀ rq' e, wire c = [(rq', inl e)] →
                  diag.HasError (Diagnostics c) = true) in
    deletes tc tprior (diag.Append [] (diags (resource.Delete_State treq)))
      (delete_request
         (entity_url (endpoint tr) (types.ValueString (OrganizationId tdata))
            "team" (types.ValueString (ID tdata)))
         (token tr))
    ∧ deletes mc mprior (diag.Append [] (diags (resource.Delete_State mreq)))
        (delete_request
           (entity_url (mendpoint mr) (types.ValueString (mOrganizationId mdata))
              "module" (types.ValueString (mID mdata)))
           (mtoken mr)).
Proof.
  intros W RoundTrip url_Parse w tr mr treq mreq tprior mprior
    tdata mdata tc mc deletes.
  subst tc mc. unfold deletes. split.
  - destruct (TeamResource_Delete_outcome RoundTrip url_Parse w tr treq tprior)
      as [Hstate [[_ (_ & Hw & _)] | [[_ (_ & Hw & _)]
            | [(e & Hw & _ & Hd) | (rs & Hw & _ & Hd & Hlog)]]]];
      rewrite Hw; (split; [done|]); (split; [eauto|]);
      split; intros ?? Heq; simplify_eq; try done.
    rewrite Hd. apply HasError_AddError.
  - destruct (ModuleResource_Delete_outcome RoundTrip url_Parse w mr mreq mprior)
      as [Hstate [[_ (_ & Hw & _)] | [[_ (_ & Hw & _)]
            | [(e & Hw & _ & Hd) | (rs & Hw & _ & Hd & Hlog)]]]];
      rewrite Hw; (split; [done|]); (split; [eauto|]);
      split; intros ?? Heq; simplify_eq; try done.
    rewrite Hd. apply HasError_AddError.
Qed.

(** X6 on the deletion of the tracked team answered with status 500: no
    diagnostic. *)
Lemma X6_delete_ignores_the_response_witness :
  Diagnostics delete_team_server_error = [] ∧ log delete_team_server_error = [].
Proof.
  eapply (proj1 (proj2 (proj2 (proj1
    (X6_delete_ignores_the_response Fake.World Fake.RoundTrip Fake.url_Parse
       [Fake.answer 500 "internal server error"] Fake.team Fake.module
       {| resource.Delete_State := decoded Fake.tracked_team |}
       {| resource.Delete_State := decoded Fake.tracked_module |}
       (StateValue Fake.tracked_team) (StateValue Fake.tracked_module)))))).
  vm_compute. reflexivity.
Defined.

(** ** Before the first request *)

Ltac rejected :=
  let H := fresh in
  intros H; unfold returns_before_sending; run; rewrite H; by simpl.

(** X7: when decoding the plan or the prior state of the request reported
    an error, every handler returns at once: it sends nothing, does not
    crash, leaves the state as it was and adds no diagnostic of its own. *)
Theorem X7_undecoded_request_sends_nothing :
  ∀ (W : Type)
    (RoundTrip : W → http.Client → http.Request → W * (error + http.Response))
    (url_Parse : string → option error)
    (PT : Payload client.TeamEntity) (PM : Payload client.ModuleEntity)
    (w : W) (tr : TeamResource) (mr : ModuleResource)
    (tcreate : resource.CreateRequest TeamResourceModel)
    (tread : resource.ReadRequest TeamResourceModel)
    (tupdate : resource.UpdateRequest TeamResourceModel)
    (tdelete : resource.DeleteRequest TeamResourceModel)
    (mcreate : resource.CreateRequest ModuleResourceModel)
    (mread : resource.ReadRequest ModuleResourceModel)
    (mupdate : resource.UpdateRequest ModuleResourceModel)
    (mdelete : resource.DeleteRequest ModuleResourceModel)
    (tprior : tfsdk_State TeamResourceModel)
    (mprior : tfsdk_State ModuleResourceModel),
    let rejects {S A} (h : H W S A) (prior : S) (ds0 : diag.Diagnostics) :=
      diag.HasError ds0 = true → returns_before_sending h (begin w prior) ds0 in
    (rejects (TeamResource_Create RoundTrip url_Parse tr tcreate) tprior
       (diag.Append [] (diags (resource.Create_Plan tcreate)))
     ∧ rejects (TeamResource_Read RoundTrip url_Parse tr tread) tprior
         (diag.Append [] (diags (resource.Read_State tread)))
     ∧ rejects (TeamResource_Update RoundTrip url_Parse tr tupdate) tprior
         (diag.Append (diag.Append [] (diags (resource.Update_State tupdate)))
            (diags (resource.Update_Plan tupdate)))
     ∧ rejects (TeamResource_Delete RoundTrip url_Parse tr tdelete) tprior
         (diag.Append [] (diags (resource.Delete_State tdelete))))
    ∧ (rejects (ModuleResource_Create RoundTrip url_Parse mr mcreate) mprior
         (diag.Append [] (diags (resource.Create_Plan mcreate)))
       ∧ rejects (ModuleResource_Read RoundTrip url_Parse mr mread) mprior
           (diag.Append [] (diags (resource.Read_State mread)))
       ∧ rejects (ModuleResource_Update RoundTrip url_Parse mr mupdate) mprior
           (diag.Append (diag.Append [] (diags (resource.Update_State mupdate)))
              (diags (resource.Update_Plan mupdate)))
       ∧ rejects (ModuleResource_Delete RoundTrip url_Parse mr mdelete) mprior
           (diag.Append [] (diags (resource.Delete_State mdelete)))).
Proof.
  intros W RoundTrip url_Parse PT PM w tr mr tcreate tread tupdate tdelete
    mcreate mread mupdate mdelete tprior mprior rejects.
  unfold rejects. split; (split; [|split; [|split]]).
  - unfold TeamResource_Create. rejected.
  - unfold TeamResource_Read. rejected.
  - unfold TeamResource_Update. rejected.
  - unfold TeamResource_Delete. rejected.
  - unfold ModuleResource_Create. rejected.
  - unfold ModuleResource_Read. rejected.
  - unfold ModuleResource_Update. rejected.
  - unfold ModuleResource_Delete. rejected.
Qed.

(** X7 on the creation of a team from a plan that did not decode. *)
Lemma X7_undecoded_request_sends_nothing_witness :
  returns_before_sending
    (TeamResource_Create (Payload0 := Fake.TeamPayload)
       Fake.RoundTrip Fake.url_Parse Fake.team
       {| resource.Create_Plan := undecoded_plan |})
    (begin [Fake.answer 201 "t-9|infra-admins|00000010"] StateNull)
    (diags undecoded_plan).
Proof.
  apply (proj1 (proj1 (X7_undecoded_request_sends_nothing Fake.World
                  Fake.RoundTrip Fake.url_Parse Fake.TeamPayload Fake.ModulePayload
                  [Fake.answer 201 "t-9|infra-admins|00000010"] Fake.team Fake.module
                  {| resource.Create_Plan := undecoded_plan |}
                  {| resource.Read_State := decoded Fake.tracked_team |}
                  update_team_request
                  {| resource.Delete_State := decoded Fake.tracked_team |}
                  {| resource.Create_Plan := decoded Fake.planned_module |}
                  {| resource.Read_State := decoded Fake.tracked_module |}
                  update_module_request
                  {| resource.Delete_State := decoded Fake.tracked_module |}
                  StateNull StateNull))).
  vm_compute. reflexivity.
Defined.


(** Follow the handler down to [http.NewRequest] under the assumptions
    [Hok] (the request decoded), [Hm] (the entity was serialised) and
    [Hurl] (the URL does not parse). *)
Ltac crash_at_NewRequest :=
  let Hok := fresh "Hok" in
  let Hm := fresh "Hm" in
  let Hurl := fresh "Hurl" in
  intros Hok Hm Hurl;
  unfold crashes_before_sending, kind_url, entity_url in *;
  run; rewrite Hok; simpl;
  try match goal with
      | |- context [MarshalPayload ?x] =>
          destruct (MarshalPayload x) as [? ?]; simpl in Hm; subst; simpl
      end;
  simpl in Hurl;
  step; [ done | exfalso; apply Hurl; assumption ].

(** X8: when the URL of the first request does not parse, every handler
    crashes on the nil request that [http.NewRequest] returned, before it
    looks at the error: nothing is sent, the state is as it was and the
    "Error creating ... request" diagnostic is never added.  (The request
    decoded without error and, in Create and Update of a team, the entity
    was serialised.) *)
Theorem X8_unparsable_url_crashes :
  ∀ (W : Type)
    (RoundTrip : W → http.Client → http.Request → W * (error + http.Response))
    (url_Parse : string → option error)
    (PT : Payload client.TeamEntity) (PM : Payload client.ModuleEntity)
    (w : W) (tr : TeamResource) (mr : ModuleResource)
    (tcreate : resource.CreateRequest TeamResourceModel)
    (tread : resource.ReadRequest TeamResourceModel)
    (tupdate : resource.UpdateRequest TeamResourceModel)
    (tdelete : resource.DeleteRequest TeamResourceModel)
    (mcreate : resource.CreateRequest ModuleResourceModel)
    (mread : resource.ReadRequest ModuleResourceModel)
    (mupdate : resource.UpdateRequest ModuleResourceModel)
    (mdelete : resource.DeleteRequest ModuleResourceModel)
    (tprior : tfsdk_State TeamResourceModel)
    (mprior : tfsdk_State ModuleResourceModel),
    let crashes {S A} (marshal_err : option error) (h : H W S A) (prior : S)
                (ds0 : diag.Diagnostics) (url : string) :=
      diag.HasError ds0 = false → marshal_err = None → url_Parse url ≠ None →
      crashes_before_sending h (begin w prior) ds0 in
    let org (m : TeamResourceModel) := types.ValueString (OrganizationId m) in
    let id (m : TeamResourceModel) := types.ValueString (ID m) in
    let morg (m : ModuleResourceModel) := types.ValueString (mOrganizationId m) in
    let mid (m : ModuleResourceModel) := types.ValueString (mID m) in
    (crashes
       (MarshalPayload (TeamResource_Create_bodyRequest
                          (value (resource.Create_Plan tcreate)))).2
       (TeamResource_Create RoundTrip url_Parse tr tcreate) tprior
       (diag.Append [] (diags (resource.Create_Plan tcreate)))
       (kind_url (endpoint tr) (org (value (resource.Create_Plan tcreate))) "team")
     ∧ crashes None
         (TeamResource_Read RoundTrip url_Parse tr tread) tprior
         (diag.Append [] (diags (resource.Read_State tread)))
         (entity_url (endpoint tr) (org (value (resource.Read_State tread)))
            "team" (id (value (resource.Read_State tread))))
     ∧ crashes
         (MarshalPayload (TeamResource_Update_bodyRequest
                            (value (resource.Update_Plan tupdate))
                            (value (resource.Update_State tupdate)))).2
         (TeamResource_Update RoundTrip url_Parse tr tupdate) tprior
         (diag.Append (diag.Append [] (diags (resource.Update_State tupdate)))
            (diags (resource.Update_Plan tupdate)))
         (entity_url (endpoint tr) (org (value (resource.Update_State tupdate)))
            "team" (id (value (resource.Update_State tupdate))))
     ∧ crashes None
         (TeamResource_Delete RoundTrip url_Parse tr tdelete) tprior
         (diag.Append [] (diags (resource.Delete_State tdelete)))
         (entity_url (endpoint tr) (org (value (resource.Delete_State tdelete)))
            "team" (id (value (resource.Delete_State tdelete)))))
    ∧ (crashes None
         (ModuleResource_Create RoundTrip url_Parse mr mcreate) mprior
         (diag.Append [] (diags (resource.Create_Plan mcreate)))
         (kind_url (mendpoint mr) (morg (value (resource.Create_Plan mcreate)))
            "module")
       ∧ crashes None
           (ModuleResource_Read RoundTrip url_Parse mr mread) mprior
           (diag.Append [] (diags (resource.Read_State mread)))
           (entity_url (mendpoint mr) (morg (value (resource.Read_State mread)))
              "module" (mid (value (resource.Read_State mread))))
       ∧ crashes None
           (ModuleResource_Update RoundTrip url_Parse mr mupdate) mprior
           (diag.Append (diag.Append [] (diags (resource.Update_State mupdate)))
              (diags (resource.Update_Plan mupdate)))
           (entity_url (mendpoint mr) (morg (value (resource.Update_State mupdate)))
              "module" (mid (value (resource.Update_State mupdate))))
       ∧ crashes None
           (ModuleResource_Delete RoundTrip url_Parse mr mdelete) mprior
           (diag.Append [] (diags (resource.Delete_State mdelete)))
           (entity_url (mendpoint mr) (morg (value (resource.Delete_State mdelete)))
              "module" (mid (value (resource.Delete_State mdelete))))).
Proof.
  intros W RoundTrip url_Parse PT PM w tr mr tcreate tread tupdate tdelete
    mcreate mread mupdate mdelete tprior mprior crashes org id morg mid.
  subst crashes org id morg mid. cbv beta.
  split; (split; [|split; [|split]]).
  - unfold TeamResource_Create. crash_at_NewRequest.
  - unfold TeamResource_Read. crash_at_NewRequest.
  - unfold TeamResource_Update. crash_at_NewRequest.
  - unfold TeamResource_Delete. crash_at_NewRequest.
  - unfold ModuleResource_Create. crash_at_NewRequest.
  - unfold ModuleResource_Read. crash_at_NewRequest.
  - unfold ModuleResource_Update. crash_at_NewRequest.
  - unfold ModuleResource_Delete. crash_at_NewRequest.
Qed.


(** X8 on a Read of the tracked team through an endpoint with a space in
    its host name. *)
Lemma X8_unparsable_url_crashes_witness :
  crashes_before_sending
    (TeamResource_Read (Payload0 := Fake.TeamPayload)
       Fake.RoundTrip no_space_url_Parse misconfigured_team read_team_request)
    (begin [Fake.answer 200 "team1|infra-admins|00000010"]
       (StateValue Fake.tracked_team))
    [].
Proof.
  apply (proj1 (proj2 (proj1 (X8_unparsable_url_crashes Fake.World
                  Fake.RoundTrip no_space_url_Parse
                  Fake.TeamPayload Fake.ModulePayload
                  [Fake.answer 200 "team1|infra-admins|00000010"]
                  misconfigured_team Fake.module
                  create_team_request read_team_request update_team_request
                  {| resource.Delete_State := decoded Fake.tracked_team |}
                  {| resource.Create_Plan := decoded Fake.planned_module |}
                  {| resource.Read_State := decoded Fake.tracked_module |}
                  update_module_request
                  {| resource.Delete_State := decoded Fake.tracked_module |}
                  (StateValue Fake.tracked_team) (StateValue Fake.tracked_module))))).
  - reflexivity.
  - reflexivity.
  - vm_compute. discriminate.
Defined.

(** Follow the handler down to [client.Do] under the assumptions [Hcl] (the
    client is nil), [Hok], [Hm] and [Hurl] (the URL parses). *)
Ltac crash_at_Do :=
  let Hcl := fresh "Hcl" in
  let Hok := fresh "Hok" in
  let Hm := fresh "Hm" in
  let Hurl := fresh "Hurl" in
  intros Hcl Hok Hm Hurl;
  unfold crashes_before_sending, kind_url, entity_url in *;
  run; rewrite Hok; simpl;
  try match goal with
      | |- context [MarshalPayload ?x] =>
          destruct (MarshalPayload x) as [? ?]; simpl in Hm; subst; simpl
      end;
  simpl in Hurl;
  step; [ exfalso; eapply eq_None_ne_Some; [exact Hurl | eassumption]
        | rewrite Hcl; done ].

(** X9: a resource whose client is nil, as [NewTeamResource] and
    [NewModuleResource] return it and as [Configure] leaves it for nil
    provider data, crashes in every handler at [client.Do]: nothing is sent,
    the state is as it was and no diagnostic is added.  (The request
    decoded without error, the URL parses and, in Create and Update of a
    team, the entity was serialised.) *)
Theorem X9_nil_client_crashes :
  ∀ (W : Type)
    (RoundTrip : W → http.Client → http.Request → W * (error + http.Response))
    (url_Parse : string → option error)
    (PT : Payload client.TeamEntity) (PM : Payload client.ModuleEntity)
    (w : W) (tr : TeamResource) (mr : ModuleResource)
    (tcreate : resource.CreateRequest TeamResourceModel)
    (tread : resource.ReadRequest TeamResourceModel)
    (tupdate : resource.UpdateRequest TeamResourceModel)
    (tdelete : resource.DeleteRequest TeamResourceModel)
    (mcreate : resource.CreateRequest ModuleResourceModel)
    (mread : resource.ReadRequest ModuleResourceModel)
    (mupdate : resource.UpdateRequest ModuleResourceModel)
    (mdelete : resource.DeleteRequest ModuleResourceModel)
    (tprior : tfsdk_State TeamResourceModel)
    (mprior : tfsdk_State ModuleResourceModel),
    let crashes {S A} (cl : option http.Client) (marshal_err : option error)
                (h : H W S A) (prior : S) (ds0 : diag.Diagnostics)
                (url : string) :=
      cl = None → diag.HasError ds0 = false → marshal_err = None →
      url_Parse url = None →
      crashes_before_sending h (begin w prior) ds0 in
    let org (m : TeamResourceModel) := types.ValueString (OrganizationId m) in
    let id (m : TeamResourceModel) := types.ValueString (ID m) in
    let morg (m : ModuleResourceModel) := types.ValueString (mOrganizationId m) in
    let mid (m : ModuleResourceModel) := types.ValueString (mID m) in
    (crashes (client_ tr)
       (MarshalPayload (TeamResource_Create_bodyRequest
                          (value (resource.Create_Plan tcreate)))).2
       (TeamResource_Create RoundTrip url_Parse tr tcreate) tprior
       (diag.Append [] (diags (resource.Create_Plan tcreate)))
       (kind_url (endpoint tr) (org (value (resource.Create_Plan tcreate))) "team")
     ∧ crashes (client_ tr) None
         (TeamResource_Read RoundTrip url_Parse tr tread) tprior
         (diag.Append [] (diags (resource.Read_State tread)))
         (entity_url (endpoint tr) (org (value (resource.Read_State tread)))
            "team" (id (value (resource.Read_State tread))))
     ∧ crashes (client_ tr)
         (MarshalPayload (TeamResource_Update_bodyRequest
                            (value (resource.Update_Plan tupdate))
                            (value (resource.Update_State tupdate)))).2
         (TeamResource_Update RoundTrip url_Parse tr tupdate) tprior
         (diag.Append (diag.Append [] (diags (resource.Update_State tupdate)))
            (diags (resource.Update_Plan tupdate)))
         (entity_url (endpoint tr) (org (value (resource.Update_State tupdate)))
            "team" (id (value (resource.Update_State tupdate))))
     ∧ crashes (client_ tr) None
         (TeamResource_Delete RoundTrip url_Parse tr tdelete) tprior
         (diag.Append [] (diags (resource.Delete_State tdelete)))
         (entity_url (endpoint tr) (org (value (resource.Delete_State tdelete)))
            "team" (id (value (resource.Delete_State tdelete)))))
    ∧ (crashes (mclient mr) None
         (ModuleResource_Create RoundTrip url_Parse mr mcreate) mprior
         (diag.Append [] (diags (resource.Create_Plan mcreate)))
         (kind_url (mendpoint mr) (morg (value (resource.Create_Plan mcreate)))
            "module")
       ∧ crashes (mclient mr) None
           (ModuleResource_Read RoundTrip url_Parse mr mread) mprior
           (diag.Append [] (diags (resource.Read_State mread)))
           (entity_url (mendpoint mr) (morg (value (resource.Read_State mread)))
              "module" (mid (value (resource.Read_State mread))))
       ∧ crashes (mclient mr) None
           (ModuleResource_Update RoundTrip url_Parse mr mupdate) mprior
           (diag.Append (diag.Append [] (diags (resource.Update_State mupdate)))
              (diags (resource.Update_Plan mupdate)))
           (entity_url (mendpoint mr) (morg (value (resource.Update_State mupdate)))
              "module" (mid (value (resource.Update_State mupdate))))
       ∧ crashes (mclient mr) None
           (ModuleResource_Delete RoundTrip url_Parse mr mdelete) mprior
           (diag.Append [] (diags (resource.Delete_State mdelete)))
           (entity_url (mendpoint mr) (morg (value (resource.Delete_State mdelete)))
              "module" (mid (value (resource.Delete_State mdelete))))).
Proof.
  intros W RoundTrip url_Parse PT PM w tr mr tcreate tread tupdate tdelete
    mcreate mread mupdate mdelete tprior mprior crashes org id morg mid.
  subst crashes org id morg mid. cbv beta.
  split; (split; [|split; [|split]]).
  - unfold TeamResource_Create. crash_at_Do.
  - unfold TeamResource_Read. crash_at_Do.
  - unfold TeamResource_Update. crash_at_Do.
  - unfold TeamResource_Delete. crash_at_Do.
  - unfold ModuleResource_Create. crash_at_Do.
  - unfold ModuleResource_Read. crash_at_Do.
  - unfold ModuleResource_Update. crash_at_Do.
  - unfold ModuleResource_Delete. crash_at_Do.
Qed.

(** X9 on a Read of the tracked team by the resource that [Configure] left
    as [NewTeamResource] returned it. *)
Lemma X9_nil_client_crashes_witness :
  crashes_before_sending
    (TeamResource_Read (Payload0 := Fake.TeamPayload) Fake.RoundTrip Fake.url_Parse
       (State (exec (TeamResource_Configure (W := Fake.World)
                       http.OtherRoundTripper nil_provider_data)
                 (begin [] NewTeamResource)))
       read_team_request)
    (begin [Fake.answer 200 "team1|infra-admins|00000010"]
       (StateValue Fake.tracked_team))
    [].
Proof.
  apply (proj1 (proj2 (proj1 (X9_nil_client_crashes Fake.World
                  Fake.RoundTrip Fake.url_Parse
                  Fake.TeamPayload Fake.ModulePayload
                  [Fake.answer 200 "team1|infra-admins|00000010"]
                  NewTeamResource NewModuleResource
                  create_team_request read_team_request update_team_request
                  {| resource.Delete_State := decoded Fake.tracked_team |}
                  {| resource.Create_Plan := decoded Fake.planned_module |}
                  {| resource.Read_State := decoded Fake.tracked_module |}
                  update_module_request
                  {| resource.Delete_State := decoded Fake.tracked_module |}
                  (StateValue Fake.tracked_team) (StateValue Fake.tracked_module)))));
    reflexivity.
Defined.


(** ** Configure *)


(** ** Configure, then a request *)





(** ** Round trips of the two mappings *)

Lemma two_exchanges_decoded {W S E} `{!Payload E} me ds0 (prior : S)
    (written : E → S) patch get crash (c : Ctx W S) p g rs1 rs2 e :
  two_exchanges me ds0 prior written patch get crash c →
  wire c = [(p, inr rs1); (g, inr rs2)] →
  UnmarshalPayload (E := E) (http.ReadAll rs2).1 = inr e →
  State c = written e.
Proof.
  intros Hout Hw Hdec. ending2 Hout; simplify_eq; congruence.
Qed.

(** X12: when the server answers a Create of either kind with the very
    entity it was sent, under an identifier [i], and the planned values are
    known, the stored state is the plan with the identifier [i]: nothing of
    the plan is changed by the way through the request entity and back.
    Conversely, for any stored state the request entity built from it is the
    entity the state was assigned from (without the identifier). *)
Theorem X12_create_echo_stores_plan :
  ∀ (W : Type)
    (RoundTrip : W → http.Client → http.Request → W * (error + http.Response))
    (url_Parse : string → option error)
    (PT : Payload client.TeamEntity) (PM : Payload client.ModuleEntity)
    (w : W) (tr : TeamResource) (mr : ModuleResource)
    (tcreate : resource.CreateRequest TeamResourceModel)
    (mcreate : resource.CreateRequest ModuleResourceModel)
    (tprior : tfsdk_State TeamResourceModel)
    (mprior : tfsdk_State ModuleResourceModel),
    let tplan := value (resource.Create_Plan tcreate) in
    let mplan := value (resource.Create_Plan mcreate) in
    let tc := exec (TeamResource_Create RoundTrip url_Parse tr tcreate) (begin w tprior) in
    let mc := exec (ModuleResource_Create RoundTrip url_Parse mr mcreate) (begin w mprior) in
    (∀ i rq rs,
        known_String (Name tplan) → known_flags tplan →
        wire tc = [(rq, inr rs)] →
        UnmarshalPayload (http.ReadAll rs).1
        = inr (TeamEntity_with_ID i (TeamResource_Create_bodyRequest tplan)) →
        State tc = StateValue (TeamResourceModel_with_ID (types.StringValue i) tplan))
    ∧ (∀ i rq rs,
        known_strings mplan →
        wire mc = [(rq, inr rs)] →
        UnmarshalPayload (http.ReadAll rs).1
        = inr (ModuleEntity_with_ID i (ModuleResource_Create_bodyRequest mplan)) →
        State mc = StateValue (ModuleResourceModel_with_ID (types.StringValue i) mplan))
    ∧ (∀ e, TeamResource_Create_bodyRequest (TeamResource_Create_assign tplan e)
            = TeamEntity_with_ID "" e)
    ∧ (∀ e, ModuleResource_Create_bodyRequest (ModuleResource_Create_assign mplan e)
            = ModuleEntity_with_ID "" e).
Proof.
  intros W RoundTrip url_Parse PT PM w tr mr tcreate mcreate tprior mprior
    tplan mplan tc mc.
  subst tc mc. split; [|split; [|split]].
  - intros i rq rs Hname (H1 & H2 & H3 & H4 & H5 & H6 & H7 & H8) Hw Hdec.
    destruct (one_exchange_decoded _ _ _ _ _ _ _ _ _ _
                (TeamResource_Create_outcome RoundTrip url_Parse w tr tcreate tprior)
                Hw Hdec) as (_ & -> & _).
    f_equal. fold tplan. unfold known_String, known_Bool in *.
    destruct tplan. simpl in *.
    unfold TeamResource_Create_assign, TeamResourceModel_with_ID. simpl.
    congruence.
  - intros i rq rs (H1 & H2 & H3 & H4) Hw Hdec.
    destruct (one_exchange_decoded _ _ _ _ _ _ _ _ _ _
                (ModuleResource_Create_outcome RoundTrip url_Parse w mr mcreate mprior)
                Hw Hdec) as (_ & -> & _).
    f_equal. fold mplan. unfold known_String in *.
    destruct mplan. simpl in *.
    unfold ModuleResource_Create_assign, ModuleResourceModel_with_ID. simpl.
    congruence.
  - by intros [].
  - by intros [].
Qed.

(** X12 on the creation of the module as planned. *)
Lemma X12_create_echo_stores_plan_witness :
  State create_module
  = StateValue
      (ModuleResourceModel_with_ID (types.StringValue "mod7") Fake.planned_module).
Proof.
  eapply (proj1 (proj2 (X12_create_echo_stores_plan Fake.World
                  Fake.RoundTrip Fake.url_Parse
                  Fake.TeamPayload Fake.ModulePayload
                  _ Fake.team Fake.module
                  create_team_request
                  {| resource.Create_Plan := decoded Fake.planned_module |}
                  StateNull StateNull))).
  - by repeat split.
  - vm_compute. reflexivity.
  - vm_compute. reflexivity.
Defined.

(** X13: when the server answers the GET of a team Update with the very
    entity the PATCH carried, the stored state has the flags of the plan,
    the name and the identifier of the prior state and the organisation of
    the plan; so when the plan has the name and the identifier of the prior
    state, as the schema of the team makes it, the stored state is the
    plan.  (The flags of the plan are known, and so are name and identifier
    of the prior state.) *)
Theorem X13_team_update_echo_stores_plan :
  ∀ (W : Type)
    (RoundTrip : W → http.Client → http.Request → W * (error + http.Response))
    (url_Parse : string → option error)
    (PT : Payload client.TeamEntity)
    (w : W) (r : TeamResource)
    (req : resource.UpdateRequest TeamResourceModel)
    (prior : tfsdk_State TeamResourceModel)
    (p g : http.Request) (rs1 rs2 : http.Response),
    let plan := value (resource.Update_Plan req) in
    let state := value (resource.Update_State req) in
    let c := exec (TeamResource_Update RoundTrip url_Parse r req) (begin w prior) in
    known_flags plan → known_String (Name state) → known_String (ID state) →
    wire c = [(p, inr rs1); (g, inr rs2)] →
    UnmarshalPayload (http.ReadAll rs2).1
    = inr (TeamResource_Update_bodyRequest plan state) →
    (∃ m, State c = StateValue m
          ∧ ID m = ID state ∧ Name m = Name state
          ∧ OrganizationId m = OrganizationId plan
          ∧ ManageState m = ManageState plan
          ∧ ManageWorkspace m = ManageWorkspace plan
          ∧ ManageModule m = ManageModule plan
          ∧ ManageProvider m = ManageProvider plan
          ∧ ManageVcs m = ManageVcs plan
          ∧ ManageTemplate m = ManageTemplate plan
          ∧ ManageJob m = ManageJob plan
          ∧ ManageCollection m = ManageCollection plan)
    ∧ (ID plan = ID state → Name plan = Name state → State c = StateValue plan).
Proof.
  intros W RoundTrip url_Parse PT w r req prior p g rs1 rs2 plan state c
    (H1 & H2 & H3 & H4 & H5 & H6 & H7 & H8) Hname Hid Hw Hdec.
  subst c.
  rewrite (two_exchanges_decoded _ _ _ _ _ _ _ _ _ _ _ _ _
             (TeamResource_Update_outcome RoundTrip url_Parse w r req prior)
             Hw Hdec).
  fold plan state. unfold known_String, known_Bool in *.
  destruct plan, state. simpl in *.
  split.
  - eexists. split; [reflexivity|]. simpl. repeat split; congruence.
  - intros ? ?. unfold TeamResource_Update_assign. simpl. congruence.
Qed.

(** X13 on the update of the tracked team. *)
Lemma X13_team_update_echo_stores_plan_witness :
  State update_team = StateValue planned_team.
Proof.
  refine (proj2 (X13_team_update_echo_stores_plan Fake.World
                   Fake.RoundTrip Fake.url_Parse Fake.TeamPayload
                   [Fake.answer 200 "team1|patched|01111101";
                    Fake.answer 200 "team1|infra-admins|10000010"]
                   Fake.team update_team_request (StateValue Fake.tracked_team)
                   (api_request http.MethodPatch
                      "https://terrakube.example/api/v1/organization/org1/team/team1"
                      "secret" (Some "team1|infra-admins|10000010"))
                   (api_request http.MethodGet
                      "https://terrakube.example/api/v1/organization/org1/team/team1"
                      "secret" None)
                   {| http.StatusCode := 200;
                      http.ReadAll := ("team1|patched|01111101", None) |}
                   {| http.StatusCode := 200;
                      http.ReadAll := ("team1|infra-admins|10000010", None) |}
                   _ _ _ _ _) _ _);
    first [ reflexivity | by repeat split | by vm_compute ].
Defined.


(** ** Import, then Read *)

(** X14: the module import stores the import string under [id] and leaves
    [organization_id] unset, and a Read of a module whose organisation is
    null sends its GET, if any, to
    [{endpoint}/api/v1/organization//module/{id}]: the organisation segment
    of the URL is empty. *)
Theorem X14_module_read_without_organization :
  ∀ (W : Type)
    (RoundTrip : W → http.Client → http.Request → W * (error + http.Response))
    (url_Parse : string → option error)
    (PM : Payload client.ModuleEntity)
    (w : W) (r : ModuleResource)
    (req : resource.ReadRequest ModuleResourceModel)
    (prior : tfsdk_State ModuleResourceModel) (s : string),
    let imported :=
      State (exec (ModuleResource_ImportState {| resource.Import_ID := s |})
               (begin w ∅)) in
    let state := value (resource.Read_State req) in
    let c := exec (ModuleResource_Read RoundTrip url_Parse r req) (begin w prior) in
    (imported !! "id" = Some s ∧ imported !! "organization_id" = None)
    ∧ (mOrganizationId state = types.StringNull →
       wire c = []
       ∨ ∃ res,
           wire c
           = [(api_request http.MethodGet
                 (mendpoint r +:+ "/api/v1/organization//module/" +:+
                  types.ValueString (mID state))
                 (mtoken r) None, res)]).
Proof.
  intros W RoundTrip url_Parse PM w r req prior s imported state c.
  subst imported state c. split.
  - unfold ModuleResource_ImportState, resource_ImportStatePassthroughID.
    simpl. by simplify_map_eq.
  - intros Horg.
    pose proof (ModuleResource_Read_outcome RoundTrip url_Parse w r req prior)
      as Hout.
    cbv zeta in Hout. rewrite Horg in Hout.
    run_ending Hout; eauto.
Qed.

(** X14 on the refresh of the module that an import of "mod1" left. *)
Lemma X14_module_read_without_organization_witness :
  wire read_imported_module = []
  ∨ ∃ res,
      wire read_imported_module
      = [(api_request http.MethodGet
            "https://terrakube.example/api/v1/organization//module/mod1"
            "secret" None, res)].
Proof.
  apply (proj2 (X14_module_read_without_organization Fake.World
                  Fake.RoundTrip Fake.url_Parse Fake.ModulePayload
                  [Fake.answer 404 ""] Fake.module
                  {| resource.Read_State := decoded imported_module |}
                  (StateValue imported_module) "mod1")).
  reflexivity.
Defined.

(** ** Metadata *)

Lemma last_char_app (s1 s2 : string) :
  s2 ≠ "" → last_char (s1 +:+ s2) = last_char s2.
Proof.
  intros Hne. induction s1 as [|c rest IH]; [done|].
  simpl. rewrite IH. destruct (rest +:+ s2) eqn:Happ; [|done].
  destruct rest; simpl in Happ; [done | discriminate].
Qed.

(** X15: the type names that [Metadata] gives the two resources differ,
    whatever the provider type names are: one ends in ["_team"], the other
    in ["_module"]. *)
Theorem X15_metadata_type_names_differ :
  ∀ p q : string, TeamResource_Metadata p ≠ ModuleResource_Metadata q.
Proof.
  intros p q Heq. apply (f_equal last_char) in Heq.
  unfold TeamResource_Metadata, ModuleResource_Metadata in Heq.
  rewrite !last_char_app in Heq by done. discriminate.
Qed.


(** ** The log *)

Ltac in_list H :=
  repeat match type of H with
         | _ ∈ _ :: _ => apply elem_of_cons in H as [H|H]
         | _ ∈ [] => by apply elem_of_nil in H
         end;
  simplify_eq.

(** On every path: each logged field is ["true"] or the body of the response
    of that path. *)
Ltac log_cases :=
  unfold logs_only_response_bodies;
  paths;
  let entry := fresh "entry" in
  let Hentry := fresh "Hentry" in
  let Hfield := fresh "Hfield" in
  intros entry ? ? Hentry Hfield;
  simpl in Hentry; in_list Hentry; simpl in Hfield; in_list Hfield;
  first [ by left
        | by (right; eexists _, _; split;
              [ constructor | use_ReadAll; reflexivity ])
        | by (right; eexists _, _; split;
              [ do 2 constructor | use_ReadAll; reflexivity ]) ].

(** X16: whatever a handler writes into a field of a log entry is the
    constant ["true"] or the bytes it read from the body of a response:
    response bodies are logged in full, and neither the bearer token nor a
    request body nor an error text is ever logged.  Delete logs nothing. *)
Theorem X16_only_response_bodies_are_logged :
  ∀ (W : Type)
    (RoundTrip : W → http.Client → http.Request → W * (error + http.Response))
    (url_Parse : string → option error)
    (PT : Payload client.TeamEntity) (PM : Payload client.ModuleEntity)
    (w : W) (tr : TeamResource) (mr : ModuleResource)
    (tcreate : resource.CreateRequest TeamResourceModel)
    (tread : resource.ReadRequest TeamResourceModel)
    (tupdate : resource.UpdateRequest TeamResourceModel)
    (tdelete : resource.DeleteRequest TeamResourceModel)
    (mcreate : resource.CreateRequest ModuleResourceModel)
    (mread : resource.ReadRequest ModuleResourceModel)
    (mupdate : resource.UpdateRequest ModuleResourceModel)
    (mdelete : resource.DeleteRequest ModuleResourceModel)
    (tprior : tfsdk_State TeamResourceModel)
    (mprior : tfsdk_State ModuleResourceModel),
    (logs_only_response_bodies
       (exec (TeamResource_Create RoundTrip url_Parse tr tcreate) (begin w tprior))
     ∧ logs_only_response_bodies
         (exec (TeamResource_Read RoundTrip url_Parse tr tread) (begin w tprior))
     ∧ logs_only_response_bodies
         (exec (TeamResource_Update RoundTrip url_Parse tr tupdate) (begin w tprior))
     ∧ log (exec (TeamResource_Delete RoundTrip url_Parse tr tdelete)
              (begin w tprior)) = [])
    ∧ (logs_only_response_bodies
         (exec (ModuleResource_Create RoundTrip url_Parse mr mcreate) (begin w mprior))
       ∧ logs_only_response_bodies
           (exec (ModuleResource_Read RoundTrip url_Parse mr mread) (begin w mprior))
       ∧ logs_only_response_bodies
           (exec (ModuleResource_Update RoundTrip url_Parse mr mupdate)
              (begin w mprior))
       ∧ log (exec (ModuleResource_Delete RoundTrip url_Parse mr mdelete)
                (begin w mprior)) = []).
Proof.
  intros. split; (split; [|split; [|split]]).
  - unfold TeamResource_Create. log_cases.
  - unfold TeamResource_Read. log_cases.
  - unfold TeamResource_Update. log_cases.
  - unfold TeamResource_Delete. paths; reflexivity.
  - unfold ModuleResource_Create. log_cases.
  - unfold ModuleResource_Read. log_cases.
  - unfold ModuleResource_Update. log_cases.
  - unfold ModuleResource_Delete. paths; reflexivity.
Qed.

(** On every path: the response whose body broke off left an Error entry or
    an error diagnostic. *)
Ltac noticed_cases :=
  unfold read_failures_noticed;
  paths;
  let Hin := fresh "Hin" in
  let Hbroken := fresh "Hbroken" in
  intros ? ? Hin Hbroken;
  simpl in Hin; in_list Hin; use_ReadAll;
  first [ done
        | by (right; apply HasError_AddError)
        | by (left; eexists; split; [ constructor | reflexivity ]) ].

(** X17: a failure to read the body of a response never passes unnoticed in
    Create, Read and Update of either kind: it leaves an entry of level
    Error in the log or an error among the diagnostics. *)
Theorem X17_body_read_failures_are_noticed :
  ∀ (W : Type)
    (RoundTrip : W → http.Client → http.Request → W * (error + http.Response))
    (url_Parse : string → option error)
    (PT : Payload client.TeamEntity) (PM : Payload client.ModuleEntity)
    (w : W) (tr : TeamResource) (mr : ModuleResource)
    (tcreate : resource.CreateRequest TeamResourceModel)
    (tread : resource.ReadRequest TeamResourceModel)
    (tupdate : resource.UpdateRequest TeamResourceModel)
    (mcreate : resource.CreateRequest ModuleResourceModel)
    (mread : resource.ReadRequest ModuleResourceModel)
    (mupdate : resource.UpdateRequest ModuleResourceModel)
    (tprior : tfsdk_State TeamResourceModel)
    (mprior : tfsdk_State ModuleResourceModel),
    (read_failures_noticed
       (exec (TeamResource_Create RoundTrip url_Parse tr tcreate) (begin w tprior))
     ∧ read_failures_noticed
         (exec (TeamResource_Read RoundTrip url_Parse tr tread) (begin w tprior))
     ∧ read_failures_noticed
         (exec (TeamResource_Update RoundTrip url_Parse tr tupdate) (begin w tprior)))
    ∧ (read_failures_noticed
         (exec (ModuleResource_Create RoundTrip url_Parse mr mcreate) (begin w mprior))
       ∧ read_failures_noticed
           (exec (ModuleResource_Read RoundTrip url_Parse mr mread) (begin w mprior))
       ∧ read_failures_noticed
           (exec (ModuleResource_Update RoundTrip url_Parse mr mupdate)
              (begin w mprior))).
Proof.
  intros. split; (split; [|split]).
  - unfold TeamResource_Create. noticed_cases.
  - unfold TeamResource_Read. noticed_cases.
  - unfold TeamResource_Update. noticed_cases.
  - unfold ModuleResource_Create. noticed_cases.
  - unfold ModuleResource_Read. noticed_cases.
  - unfold ModuleResource_Update. noticed_cases.
Qed.


(** X16 on the creation of the team "infra-admins": the logged field
    [bodyResponse] is the body of the response. *)
Lemma X16_only_response_bodies_are_logged_witness :
  "t-9|infra-admins|00000010" = "true"
  ∨ ∃ rq rs, (rq, inr rs) ∈ wire create_team
             ∧ "t-9|infra-admins|00000010" = (http.ReadAll rs).1.
Proof.
  apply (proj1 (proj1 (X16_only_response_bodies_are_logged Fake.World
                  Fake.RoundTrip Fake.url_Parse
                  Fake.TeamPayload Fake.ModulePayload
                  [Fake.answer 201 "t-9|infra-admins|00000010"]
                  Fake.team Fake.module
                  create_team_request read_team_request update_team_request
                  {| resource.Delete_State := decoded Fake.tracked_team |}
                  {| resource.Create_Plan := decoded Fake.planned_module |}
                  {| resource.Read_State := decoded Fake.tracked_module |}
                  update_module_request
                  {| resource.Delete_State := decoded Fake.tracked_module |}
                  StateNull (StateValue Fake.tracked_module)))
           {| tflog.level := tflog.Info; tflog.msg := "Body Response";
              tflog.fields := [("bodyResponse", "t-9|infra-admins|00000010")] |}
           "bodyResponse" "t-9|infra-admins|00000010").
  - apply list_elem_of_In. vm_compute. left. reflexivity.
  - apply list_elem_of_In. vm_compute. left. reflexivity.
Defined.

(** X17 on the creation of the team "infra-admins" with a body that breaks
    off. *)
Lemma X17_body_read_failures_are_noticed_witness :
  (∃ entry, entry ∈ log create_team_broken_body
            ∧ tflog.level entry = tflog.Error)
  ∨ diag.HasError (Diagnostics create_team_broken_body) = true.
Proof.
  eapply (proj1 (proj1 (X17_body_read_failures_are_noticed Fake.World
                  Fake.RoundTrip Fake.url_Parse
                  Fake.TeamPayload Fake.ModulePayload
                  [Fake.broken 201 "t-9|infra-admins|00000010" "unexpected EOF"]
                  Fake.team Fake.module
                  create_team_request read_team_request update_team_request
                  {| resource.Create_Plan := decoded Fake.planned_module |}
                  {| resource.Read_State := decoded Fake.tracked_module |}
                  update_module_request
                  StateNull (StateValue Fake.tracked_module)))
            _ {| http.StatusCode := 201;
                 http.ReadAll := ("t-9|infra-admins|00000010",
                                  Some "unexpected EOF") |}).
  - apply list_elem_of_In. vm_compute. left. reflexivity.
  - vm_compute. discriminate.
Defined.
